(** * vite-ember-ssr-server: sandbox loader, visit pipeline and supervisor

    A shallow embedding of the server-side rendering engine, one module
    per source file or concern:
    - [Js]: the JavaScript values the code tests for truthiness;
    - [SsrPaths]: src/utils/ssr-paths.js;
    - [PackageName], [SsrSchema]: the whitelisted [require];
    - [EmberAppLoader]: import resolution, linking and [buildApp];
    - [RegExpCodec]: src/regexp.js;
    - [Json], [Shoebox]: the shoebox and the host's JSON functions;
    - [Queue], [VisitResult], [Visit], [EmberSsr]: the pool and a visit;
    - [Supervisor]: index.js and the worker's message handler.
    The modules whose names end in [Facts] hold what is proved of them.

    JavaScript strings that only carry paths, specifiers and log lines are
    [string]; the modules that look at individual UTF-16 code units use
    lists of code units. *)

From Stdlib Require Import List String Ascii Bool Arith ZArith NArith Lia.
From Stdlib Require Import DecimalString.
Import ListNotations.
Open Scope string_scope.

(** ** JavaScript values and truthiness *)

Module Js.

(** The primitive values that reach the code modelled here.  A property
    that is absent from an object reads as [Undefined]. *)
Inductive value : Type :=
| Undefined
| Null
| Bool (b : bool)
| Num (n : Z)
| Str (s : string).

(** ToBoolean. *)
Definition truthy (v : value) : bool :=
  match v with
  | Undefined | Null => false
  | Bool b => b
  | Num n => negb (n =? 0)%Z
  | Str s => negb (s =? "")
  end.

(** [a || b]. *)
Definition or (a b : value) : value := if truthy a then a else b.

(** [!v]. *)
Definition not (v : value) : bool := negb (truthy v).

(** What a JavaScript computation ends in: a value or a thrown error. *)
Inductive completion (E A : Type) : Type :=
| Return (a : A)
| Throw (e : E).
Arguments Return {E A} a.
Arguments Throw {E A} e.

End Js.

(** ** src/utils/ssr-paths.js *)

Module SsrPaths.
Import Js.

(** The object destructured by [setPaths]. *)
Record options : Type := mkOptions {
  o_distPath : value;
  o_clientPath : value;
  o_ssrPath : value
}.

Record t : Type := mkPaths {
  distPath : value;
  clientPath : value;
  ssrPath : value;
  hasPath : bool
}.

(** [setPaths({ distPath, clientPath, ssrPath } = {})], on an object. *)
Definition setPaths (o : options) : t :=
  {| distPath := o_distPath o;
     clientPath := or (or (o_clientPath o) (o_distPath o)) (o_ssrPath o);
     ssrPath := or (or (o_ssrPath o) (o_distPath o)) (o_clientPath o);
     hasPath := truthy (or (or (o_distPath o) (o_clientPath o)) (o_ssrPath o)) |}.

(** What a caller may pass where the options object is expected. *)
Inductive arg : Type :=
| ArgUndefined
| ArgNull
| ArgObject (o : options).

Inductive error : Type :=
| TypeError_destructure_null.

(** [constructor(options) { this.setPaths(options); }]: the default [{}]
    replaces [undefined] only; destructuring [null] throws. *)
Definition construct (a : arg) : completion error t :=
  match a with
  | ArgUndefined => Return (setPaths (mkOptions Undefined Undefined Undefined))
  | ArgNull => Throw TypeError_destructure_null
  | ArgObject o => Return (setPaths o)
  end.

(** What [SsrPaths.from] receives. *)
Inductive from_arg : Type :=
| FromPrimitive (v : value)
| FromObject (o : options).

(** [static from(ssrPaths)]. *)
Definition from (a : from_arg) : completion error t :=
  match a with
  | FromPrimitive (Str s) =>
      if truthy (Str s)
      then construct (ArgObject (mkOptions (Str s) Undefined Undefined))
      else construct ArgNull
  | FromPrimitive _ => construct ArgNull
  | FromObject o => construct (ArgObject o)
  end.

(** "Provided": the operand of [||] is taken only when it is truthy. *)
Definition provided (v : value) : Prop := truthy v = true.

End SsrPaths.

(** ** The sandbox's effects

    Code running for a sandbox build has two effects that the properties
    below observe: module code gets run (through the host's [require] or
    through [module.evaluate()] of the vm), and lines are written to the
    console.  Both are kept in a [world] that is threaded through. *)

Module Effects.

Inductive error : Type :=
| Error_ (message : string)                 (* new Error(message) *)
| TypeError (message : string)
| HostError (code : string) (message : string). (* thrown by Node, with .code *)

Record world : Type := mkWorld {
  loaded : list string;    (* modules whose code was run, oldest first *)
  console : list string    (* console.log lines, oldest first *)
}.

Definition empty_world : world := mkWorld [] [].

Inductive outcome (A : Type) : Type :=
| Done (a : A)
| Thrown (e : error)
| OutOfFuel.
Arguments Done {A} a.
Arguments Thrown {A} e.
Arguments OutOfFuel {A}.

Definition M (A : Type) : Type := world -> outcome A * world.

Definition ret {A} (a : A) : M A := fun w => (Done a, w).

Definition throw {A} (e : error) : M A := fun w => (Thrown e, w).

Definition bind {A B} (m : M A) (k : A -> M B) : M B :=
  fun w =>
    match m w with
    | (Done a, w') => k a w'
    | (Thrown e, w') => (Thrown e, w')
    | (OutOfFuel, w') => (OutOfFuel, w')
    end.

(** [try { m } catch (e) { h e }]. *)
Definition try_catch {A} (m : M A) (h : error -> M A) : M A :=
  fun w =>
    match m w with
    | (Thrown e, w') => h e w'
    | r => r
    end.

Definition lift {A} (c : Js.completion error A) : M A :=
  match c with
  | Js.Return a => ret a
  | Js.Throw e => throw e
  end.

Definition run_code (module : string) : M unit :=
  fun w => (Done tt, mkWorld (loaded w ++ [module]) (console w)).

Definition console_log (line : string) : M unit :=
  fun w => (Done tt, mkWorld (loaded w) (console w ++ [line])).

Declare Scope sandbox_scope.
Delimit Scope sandbox_scope with sandbox.
Notation "x <- m ;; k" := (bind m (fun x => k))
  (at level 61, m at next level, right associativity) : sandbox_scope.
Notation "m ;;; k" := (bind m (fun _ => k))
  (at level 61, right associativity) : sandbox_scope.

End Effects.

(** ** The host: Node's path, fs and module services

    Everything the loader asks of Node is a field of [host]; what is
    proved of the loader holds for every host. *)

Module Host.
Import Js Effects.

(** What an evaluated script exports under the name [createSsrApp]. *)
Inductive export : Type :=
| ExportMissing                 (* undefined: no such export *)
| ExportNull
| ExportFunction (app : string) (* a function; calling it yields [app] *)
| ExportOther (truthy : bool).  (* any other value *)

Record host : Type := mkHost {
  path_dirname : string -> string;
  path_resolve : string -> string -> string;
  path_normalize : string -> string;
  (** [statSync(p, { throwIfNoEntry: false })?.isFile()], as a boolean *)
  stat_isFile : string -> bool;
  (** [require.resolve(specifier)] of the server's own module *)
  require_resolve : string -> completion error string;
  (** [resolve.sync(name, { basedir })] *)
  resolve_sync : string -> string -> completion error string;
  (** [require(id)]: runs the module and returns its exports (named here
      by a handle) *)
  host_require : string -> completion error string;
  (** [readFile(path)] then [new vm.SourceTextModule(source, ...)]: the
      specifiers the module imports, in order *)
  read_module : string -> completion error (list string);
  (** [module.evaluate()] then [module.namespace?.createSsrApp] *)
  evaluate_module : string -> completion error export
}.

End Host.

(** ** src/utils/get-package-name.js *)

Module PackageName.

(** [s.split(sep)] for a one-character separator. *)
Fixpoint split (sep : ascii) (s : string) : list string :=
  match s with
  | EmptyString => [EmptyString]
  | String c rest =>
      if Ascii.eqb c sep then EmptyString :: split sep rest
      else match split sep rest with
           | [] => [String c EmptyString]
           | p :: ps => String c p :: ps
           end
  end.

(** [parts[i]] inside a string concatenation: a missing element prints as
    ["undefined"]. *)
Definition part (parts : list string) (i : nat) : string :=
  nth i parts "undefined".

Definition starts_with_at (modulePath : string) : bool :=
  match modulePath with
  | String c _ => Ascii.eqb c "@"
  | EmptyString => false
  end.

Definition getPackageName (modulePath : string) : string :=
  let parts := split "/" modulePath in
  if starts_with_at modulePath
  then part parts 0 ++ "/" ++ part parts 1
  else part parts 0.

End PackageName.

(** ** src/ssr-schema.js: the whitelisted require *)

Module SsrSchema.
Import Js Effects Host PackageName.
Local Open Scope sandbox_scope.

(** [array.indexOf(x)] on an array of strings. *)
Fixpoint indexOf_from (i : Z) (xs : list string) (x : string) : Z :=
  match xs with
  | [] => (-1)%Z
  | y :: ys => if (y =? x)%string then i else indexOf_from (i + 1)%Z ys x
  end.

Definition indexOf (xs : list string) (x : string) : Z := indexOf_from 0 xs x.

(** The error thrown for a package that is not on the whitelist: it names
    the specifier and the package. *)
Definition ModuleNotAllowedError (moduleName packageName : string) : error :=
  Error_ ("Unable to require module '" ++ moduleName
          ++ "' in EmberSsr because its package '" ++ packageName
          ++ "' was not explicitly allowed in 'ssrDependencies' in your package.json.").

Definition is_module_not_found (e : error) : bool :=
  match e with
  | HostError code _ => (code =? "MODULE_NOT_FOUND")%string
  | _ => false
  end.

(** [require(id)] of the host: the module's code runs. *)
Definition require (H : host) (id : string) : M string :=
  run_code id ;;; lift (host_require H id).

(** The function returned by [buildWhitelistedRequire(whitelist, ssrPath)]. *)
Definition sandboxRequire (H : host) (whitelist : list string) (ssrPath : string)
           (moduleName : string) : M string :=
  let packageName := getPackageName moduleName in
  let isWhitelisted := (indexOf whitelist packageName >? -1)%Z in
  if isWhitelisted then
    try_catch
      (resolvedModulePath <- lift (resolve_sync H moduleName ssrPath) ;;
       require H resolvedModulePath)
      (fun error =>
         if is_module_not_found error then require H moduleName
         else throw error)
  else
    throw (ModuleNotAllowedError moduleName packageName).

End SsrSchema.

(** ** src/ember-app.js: the module loader and the sandbox build *)

Module EmberAppLoader.
Import Js Effects Host.
Local Open Scope sandbox_scope.

(** One entry of [attempts]. *)
Record attempt : Type := mkAttempt {
  file : option string;
  ext : option string
}.

Definition attempts : list attempt :=
  [ mkAttempt None None;
    mkAttempt (Some "index.js") None;
    mkAttempt None (Some ".mjs");
    mkAttempt None (Some ".js") ].

(** The body of the loop up to [statSync]: [attemptPath] for one attempt.
    [if (attempt.file)] and [if (attempt.ext)] test for a non-empty
    string. *)
Definition attemptPath (H : host) (resolvedPath : string) (a : attempt) : string :=
  let p :=
    match file a with
    | Some f => if truthy (Str f) then path_resolve H resolvedPath f else resolvedPath
    | None => resolvedPath
    end in
  match ext a with
  | Some e => if truthy (Str e) then p ++ e else p
  | None => p
  end.

(** The [for (const attempt of attempts)] loop: [foundPath] when it
    breaks, [None] when it runs out. *)
Fixpoint findPath (H : host) (resolvedPath : string) (todo : list attempt)
  : option string :=
  match todo with
  | [] => None
  | a :: rest =>
      let p := attemptPath H resolvedPath a in
      if stat_isFile H p then Some p else findPath H resolvedPath rest
  end.

Definition resolveImport (H : host) (specifier importerPath : string)
  : completion error string :=
  if negb (String.prefix "." specifier) then require_resolve H specifier
  else
    let resolvedPath :=
      path_normalize H (path_resolve H (path_dirname H importerPath) specifier) in
    match findPath H resolvedPath attempts with
    | Some foundPath =>
        if truthy (Str foundPath) then Return foundPath
        else require_resolve H specifier
    | None => require_resolve H specifier
    end.

(** [module.evaluate()]: the module's code runs in the sandbox context. *)
Definition evaluate (H : host) (identifier : string) : M export :=
  run_code identifier ;;; lift (evaluate_module H identifier).

(** [buildScript(filePath, context, link, importModuleDynamically)]: reads
    and compiles the file, then [module.link(link)] calls [link] for every
    static import, with the module itself as [referencingModule].
    [link(specifier, referencingModule)] resolves the specifier against
    [referencingModule?.identifier || defaultBase], builds that script
    and evaluates it.  The import graph may be cyclic, hence the fuel. *)
Fixpoint buildScript (H : host) (defaultBase : string) (fuel : nat)
         (filePath : string) : M unit :=
  match fuel with
  | O => fun w => (OutOfFuel, w)
  | S fuel' =>
      specifiers <- lift (read_module H filePath) ;;
      (fix links (todo : list string) : M unit :=
         match todo with
         | [] => ret tt
         | specifier :: rest =>
             let base := if truthy (Str filePath) then filePath else defaultBase in
             identifier <- lift (resolveImport H specifier base) ;;
             buildScript H defaultBase fuel' identifier ;;;
             evaluate H identifier ;;;
             links rest
         end) specifiers
  end.

(** [link(specifier, referencingModule)] on its own, as [buildLink]
    returns it. *)
Definition link (H : host) (defaultBase : string) (fuel : nat)
           (specifier : string) (referencingModule : option string) : M unit :=
  let base :=
    match referencingModule with
    | Some identifier => if truthy (Str identifier) then identifier else defaultBase
    | None => defaultBase
    end in
  identifier <- lift (resolveImport H specifier base) ;;
  buildScript H defaultBase fuel identifier ;;;
  evaluate H identifier ;;;
  ret tt.

(** [{ app, context }]. *)
Record AppContext : Type := mkAppContext {
  app : string
}.

(** [createSsrApp ??= module.namespace?.createSsrApp]. *)
Definition nullish_assign (current new : export) : export :=
  match current with
  | ExportMissing | ExportNull => new
  | _ => current
  end.

Definition factory_missing_line : string :=
  "Failed to load Ember app from app.js, make sure it was built for FastBoot with the `ember fastboot:build` command.".

(** The [for (let script of this.scripts)] loop of [buildApp].  [inl]
    carries the [createSsrApp] found so far; [inr tt] is the [return null]
    of the [catch] block. *)
Fixpoint evaluateScripts (H : host) (fuel : nat) (scripts : list string)
         (createSsrApp : export) : M (export + unit) :=
  match scripts with
  | [] => ret (inl createSsrApp)
  | script :: rest =>
      if negb (truthy (Str script)) then evaluateScripts H fuel rest createSsrApp
      else
        buildScript H script fuel script ;;;
        r <- try_catch
               (ns <- evaluate H script ;; ret (inl (nullish_assign createSsrApp ns)))
               (fun e => console_log "ssr exception" ;;; ret (inr tt)) ;;
        match r with
        | inl found => evaluateScripts H fuel rest found
        | inr tt => ret (inr tt)
        end
  end.

(** [async buildApp()]: [None] is [null]. *)
Definition buildApp (H : host) (fuel : nat) (scripts : list string)
  : M (option AppContext) :=
  r <- evaluateScripts H fuel scripts ExportMissing ;;
  match r with
  | inr tt => ret None
  | inl (ExportFunction a) => ret (Some (mkAppContext a))
  | inl _ => console_log factory_missing_line ;;; ret None
  end.

End EmberAppLoader.

(** ** UTF-16 text

    [escapeJSONString] and [matchRegex] look at single UTF-16 code units,
    some of them outside Latin-1, so the strings they work on are lists of
    code units. *)

Module Utf16.

Definition code_unit : Type := N.

Definition text : Type := list code_unit.

(** A literal of the source, as code units. *)
Definition lit (s : string) : text := map N_of_ascii (list_ascii_of_string s).

Definition eqb (a b : code_unit) : bool := N.eqb a b.

Definition SOH : code_unit := 1%N.          (* U+0001 *)
Definition LF : code_unit := 10%N.          (* \n *)
Definition CR : code_unit := 13%N.          (* \r *)
Definition QUOTE : code_unit := 34%N.       (* the double quote *)
Definition AMP : code_unit := 38%N.         (* & *)
Definition SLASH : code_unit := 47%N.       (* / *)
Definition LT : code_unit := 60%N.          (* < *)
Definition GT : code_unit := 62%N.          (* > *)
Definition BACKSLASH : code_unit := 92%N.
Definition LS : code_unit := 8232%N.        (* U+2028 line separator *)
Definition PS : code_unit := 8233%N.        (* U+2029 paragraph separator *)

(** The LineTerminator code points, which [.] does not match. *)
Definition is_line_terminator (c : code_unit) : bool :=
  eqb c LF || eqb c CR || eqb c LS || eqb c PS.

(** [text.startsWith(prefix)]: the rest after the prefix. *)
Fixpoint strip_prefix (prefix s : text) : option text :=
  match prefix, s with
  | [], _ => Some s
  | p :: prefix', c :: s' => if eqb p c then strip_prefix prefix' s' else None
  | _ :: _, [] => None
  end.

End Utf16.

(** ** src/regexp.js *)

Module RegExpCodec.
Import Utf16.

(** A RegExp object, known by the pattern text and the flags it is built
    from; [source] and [flags] are what its properties of these names
    return. *)
Record regexp : Type := mkRegExp {
  source : text;
  flags : text
}.

(** [new RegExp(pattern, flags)]; the empty pattern has the source
    [(?:)]. *)
Definition RegExp_new (pattern fl : text) : regexp :=
  mkRegExp match pattern with [] => lit "(?:)" | _ => pattern end fl.

(** An entry of a host whitelist as the functions below receive it. *)
Inductive entry : Type :=
| EString (s : text)
| ERegExp (r : regexp)
| EOther.                      (* undefined, null, a number, ... *)

(** [[^\1]]: inside a character class [\1] is not a reference to group 1
    but the octal escape of U+0001, so the class holds every code unit
    but that one. *)
Definition class_not_1 (c : code_unit) : bool := negb (eqb c SOH).

(** The part of [matchRegex] after group 1 has captured [d]: group 2,
    which is one or more rounds of a backslash followed by a reference
    to group 1, or else of one unit of the class above; then a reference
    to group 1; then group 3, any number of units of that class; then
    the end of the input.  It is tried the way a backtracking matcher
    does.  At each position the greedy [+] first tries one more round of
    the group, its first alternative (a backslash and then [d]) before
    its second (one code unit of the class), and only when both fail at
    everything that follows does it stop, which needs one round done,
    then [d], then code units of the class up to the end of the input.
    [taken] holds what group 2 has consumed, last unit first.  The
    result is [(match[2], match[3])]. *)
Fixpoint after_delimiter (d : code_unit) (taken : text) (rounds : bool) (s : text)
  : option (text * text) :=
  let first_alternative :=
    match s with
    | b :: e :: rest =>
        if eqb b BACKSLASH && eqb e d
        then after_delimiter d (e :: b :: taken) true rest
        else None
    | _ => None
    end in
  match first_alternative with
  | Some m => Some m
  | None =>
      let second_alternative :=
        match s with
        | c :: rest =>
            if class_not_1 c then after_delimiter d (c :: taken) true rest
            else None
        | [] => None
        end in
      match second_alternative with
      | Some m => Some m
      | None =>
          if rounds then
            match s with
            | e :: rest =>
                if eqb e d && forallb class_not_1 rest
                then Some (rev taken, rest)
                else None
            | [] => None
            end
          else None
      end
  end.

(** [string.match(matchRegex)]: the literal prefix, group 1 (one unit
    that [.] matches, the delimiter), and the rest as above; the result
    is groups 2 and 3. *)
Definition matchRegex (s : text) : option (text * text) :=
  match strip_prefix (lit "regexp:") s with
  | Some (d :: rest) =>
      if is_line_terminator d then None
      else after_delimiter d [] false rest
  | _ => None
  end.

(** [matchesSerializedRegExp(string)]. *)
Definition matchesSerializedRegExp (e : entry) : option (text * text) :=
  match e with
  | EString s => matchRegex s
  | _ => None
  end.

(** [serializeRegExp(regex)]. *)
Definition serializeRegExp (e : entry) : entry :=
  match e with
  | ERegExp r => EString (lit "regexp:/" ++ source r ++ lit "/" ++ flags r)%list
  | other => other
  end.

(** [deserializeRegExp(string)]. *)
Definition deserializeRegExp (e : entry) : entry :=
  match matchesSerializedRegExp e with
  | Some (pattern, fl) => ERegExp (RegExp_new pattern fl)
  | None => e
  end.

End RegExpCodec.

(** ** JSON as the host reads and writes it

    [createShoebox] hands each value to [JSON.stringify], and the browser
    reads the block back with [JSON.parse].  Both belong to the host; they
    are written out here for the values JSON can carry, so that the effect
    of [escapeJSONString] on what [JSON.parse] returns can be computed. *)

Module Json.
Import Utf16.
Local Open Scope list_scope.

(** A JSON value.  A number is kept as the literal [JSON.stringify] writes
    for it, which names one double; the members of an object are in the
    order the object enumerates them. *)
#[warnings="-register-all"]
Inductive json : Type :=
| JNull
| JBool (b : bool)
| JNumber (literal : text)
| JString (s : text)
| JArray (items : list json)
| JObject (members : list (text * json)).

Definition COMMA : code_unit := 44%N.
Definition COLON : code_unit := 58%N.
Definition LBRACKET : code_unit := 91%N.
Definition RBRACKET : code_unit := 93%N.
Definition LBRACE : code_unit := 123%N.
Definition RBRACE : code_unit := 125%N.
Definition LETTER_u : code_unit := 117%N.

(** *** JSON.stringify *)

(** One lowercase hexadecimal digit. *)
Definition hex_digit (n : N) : code_unit :=
  if (n <? 10)%N then (48 + n)%N else (87 + n)%N.

(** The six units of the escape of [c], four lowercase hexadecimal digits
    after the backslash and the letter u (UnicodeEscape). *)
Definition unicode_escape (c : code_unit) : text :=
  [ BACKSLASH; LETTER_u;
    hex_digit (c / 4096)%N; hex_digit ((c / 256) mod 16)%N;
    hex_digit ((c / 16) mod 16)%N; hex_digit (c mod 16)%N ].

Definition is_high_surrogate (c : code_unit) : bool :=
  (55296 <=? c)%N && (c <=? 56319)%N.

Definition is_low_surrogate (c : code_unit) : bool :=
  (56320 <=? c)%N && (c <=? 57343)%N.

Definition is_surrogate (c : code_unit) : bool :=
  is_high_surrogate c || is_low_surrogate c.

(** The short escapes of QuoteJSONString. *)
Definition short_escape (c : code_unit) : option code_unit :=
  if eqb c 8%N then Some 98%N          (* backspace: b *)
  else if eqb c 9%N then Some 116%N    (* tab: t *)
  else if eqb c 10%N then Some 110%N   (* line feed: n *)
  else if eqb c 12%N then Some 102%N   (* form feed: f *)
  else if eqb c 13%N then Some 114%N   (* carriage return: r *)
  else if eqb c QUOTE then Some QUOTE
  else if eqb c BACKSLASH then Some BACKSLASH
  else None.

(** What QuoteJSONString writes for one code unit that is not half of a
    surrogate pair. *)
Definition quote_unit (c : code_unit) : text :=
  match short_escape c with
  | Some e => [BACKSLASH; e]
  | None =>
      if (c <? 32)%N || is_surrogate c then unicode_escape c else [c]
  end.

(** The inside of a string literal: a surrogate pair is written as it is,
    a lone surrogate is escaped. *)
Fixpoint quote_units (s : text) : text :=
  match s with
  | [] => []
  | c :: rest =>
      match rest with
      | l :: rest' =>
          if is_high_surrogate c && is_low_surrogate l
          then c :: l :: quote_units rest'
          else quote_unit c ++ quote_units rest
      | [] => quote_unit c
      end
  end.

Definition QuoteJSONString (s : text) : text :=
  QUOTE :: quote_units s ++ [QUOTE].



(** *** JSON.parse, on text without white space *)

Definition hex_value (c : code_unit) : option N :=
  if (48 <=? c)%N && (c <=? 57)%N then Some (c - 48)%N
  else if (97 <=? c)%N && (c <=? 102)%N then Some (c - 87)%N
  else if (65 <=? c)%N && (c <=? 70)%N then Some (c - 55)%N
  else None.

Definition hex4 (a b c d : code_unit) : option code_unit :=
  match hex_value a, hex_value b, hex_value c, hex_value d with
  | Some x, Some y, Some z, Some w => Some (4096 * x + 256 * y + 16 * z + w)%N
  | _, _, _, _ => None
  end.

(** The unit a backslash and [e] stand for, [e] not being the letter u. *)
Definition simple_escape (e : code_unit) : option code_unit :=
  if eqb e QUOTE then Some QUOTE
  else if eqb e BACKSLASH then Some BACKSLASH
  else if eqb e SLASH then Some SLASH
  else if eqb e 98%N then Some 8%N
  else if eqb e 102%N then Some 12%N
  else if eqb e 110%N then Some 10%N
  else if eqb e 114%N then Some 13%N
  else if eqb e 116%N then Some 9%N
  else None.

Definition cons_unit (c : code_unit) (r : option (text * text)) : option (text * text) :=
  match r with
  | Some (s, rest) => Some (c :: s, rest)
  | None => None
  end.

(** A string literal after its opening quote: the string and what follows
    the closing quote. *)
Fixpoint parse_string (s : text) : option (text * text) :=
  match s with
  | [] => None
  | c :: rest =>
      if eqb c QUOTE then Some ([], rest)
      else if eqb c BACKSLASH then
        match rest with
        | e :: rest1 =>
            if eqb e LETTER_u then
              match rest1 with
              | h1 :: h2 :: h3 :: h4 :: rest2 =>
                  match hex4 h1 h2 h3 h4 with
                  | Some u => cons_unit u (parse_string rest2)
                  | None => None
                  end
              | _ => None
              end
            else
              match simple_escape e with
              | Some u => cons_unit u (parse_string rest1)
              | None => None
              end
        | [] => None
        end
      else if (c <? 32)%N then None
      else cons_unit c (parse_string rest)
  end.

(** The units a number literal is made of. *)
Definition is_number_unit (c : code_unit) : bool :=
  ((48 <=? c)%N && (c <=? 57)%N)
  || eqb c 45%N || eqb c 43%N || eqb c 46%N || eqb c 101%N || eqb c 69%N.

(** The longest run of number units at the front.  [JSON.parse] checks the
    run against the number grammar as well; every literal written by
    [JSON.stringify] passes that check. *)
Fixpoint number_run (s : text) : text * text :=
  match s with
  | c :: rest =>
      if is_number_unit c
      then let '(run, rest') := number_run rest in (c :: run, rest')
      else ([], s)
  | [] => ([], [])
  end.

Fixpoint text_eqb (a b : text) : bool :=
  match a, b with
  | [], [] => true
  | x :: a', y :: b' => eqb x y && text_eqb a' b'
  | _, _ => false
  end.

(** CreateDataProperty on the object under construction: a key seen
    before keeps its place and takes the new value. *)
Fixpoint put_member (k : text) (v : json) (members : list (text * json))
  : list (text * json) :=
  match members with
  | [] => [(k, v)]
  | (k', v') :: rest =>
      if text_eqb k k' then (k, v) :: rest
      else (k', v') :: put_member k v rest
  end.

(** The elements of an array after the first bracket, the array not being
    empty: a value, then a comma and more, or the closing bracket. *)
Fixpoint parse_elements (parse : text -> option (json * text)) (n : nat)
         (acc : list json) (s : text) : option (json * text) :=
  match n with
  | O => None
  | S n' =>
      match parse s with
      | Some (v, c :: rest) =>
          if eqb c COMMA then parse_elements parse n' (acc ++ [v]) rest
          else if eqb c RBRACKET then Some (JArray (acc ++ [v]), rest)
          else None
      | _ => None
      end
  end.

(** The members of an object after the first brace, the object not being
    empty. *)
Fixpoint parse_members (parse : text -> option (json * text)) (n : nat)
         (acc : list (text * json)) (s : text) : option (json * text) :=
  match n with
  | O => None
  | S n' =>
      match s with
      | q :: s1 =>
          if eqb q QUOTE then
            match parse_string s1 with
            | Some (k, c :: s2) =>
                if eqb c COLON then
                  match parse s2 with
                  | Some (v, c' :: rest) =>
                      if eqb c' COMMA
                      then parse_members parse n' (put_member k v acc) rest
                      else if eqb c' RBRACE
                      then Some (JObject (put_member k v acc), rest)
                      else None
                  | _ => None
                  end
                else None
            | _ => None
            end
          else None
      | [] => None
      end
  end.

Definition keyword (word : string) (v : json) (s : text) : option (json * text) :=
  match strip_prefix (lit word) s with
  | Some rest => Some (v, rest)
  | None => None
  end.

(** One value at the front of [s], and what follows it.  Values nest, so
    the recursion is on [fuel]; [JSON_parse] below supplies enough. *)
Fixpoint parse_value (fuel : nat) (s : text) : option (json * text) :=
  match fuel with
  | O => None
  | S fuel' =>
      match s with
      | [] => None
      | c :: rest =>
          if eqb c QUOTE then
            match parse_string rest with
            | Some (str, rest') => Some (JString str, rest')
            | None => None
            end
          else if eqb c LBRACKET then
            match rest with
            | c' :: rest' =>
                if eqb c' RBRACKET then Some (JArray [], rest')
                else parse_elements (parse_value fuel') fuel' [] rest
            | [] => None
            end
          else if eqb c LBRACE then
            match rest with
            | c' :: rest' =>
                if eqb c' RBRACE then Some (JObject [], rest')
                else parse_members (parse_value fuel') fuel' [] rest
            | [] => None
            end
          else
            match keyword "null" JNull s with
            | Some r => Some r
            | None =>
            match keyword "true" (JBool true) s with
            | Some r => Some r
            | None =>
            match keyword "false" (JBool false) s with
            | Some r => Some r
            | None =>
                match number_run s with
                | ([], _) => None
                | (literal, rest') => Some (JNumber literal, rest')
                end
            end end end
      end
  end.

(** [JSON.parse(text)]: one value and nothing after it. *)
Definition JSON_parse (s : text) : option json :=
  match parse_value (S (List.length s)) s with
  | Some (v, []) => Some v
  | _ => None
  end.




End Json.

(** ** src/ember-app.js: the shoebox *)

Module Shoebox.
Import Utf16 Json.
Local Open Scope list_scope.

(** [JSON_ESCAPE]. *)
Definition JSON_ESCAPE : list (code_unit * text) :=
  [ (AMP, BACKSLASH :: lit "u0026");
    (GT, BACKSLASH :: lit "u003e");
    (LT, BACKSLASH :: lit "u003c");
    (LS, BACKSLASH :: lit "u2028");
    (PS, BACKSLASH :: lit "u2029") ].

(** [JSON_ESCAPE[match]]; a key that is missing reads as [undefined],
    which [replace] writes as the word. *)
Fixpoint lookup (c : code_unit) (table : list (code_unit * text)) : text :=
  match table with
  | [] => lit "undefined"
  | (k, replacement) :: rest => if eqb c k then replacement else lookup c rest
  end.

(** The character class of [JSON_ESCAPE_REGEXP]: U+2028, U+2029, the
    ampersand and the two angle brackets. *)
Definition JSON_ESCAPE_REGEXP (c : code_unit) : bool :=
  eqb c LS || eqb c PS || eqb c AMP || eqb c GT || eqb c LT.

(** [string.replace(JSON_ESCAPE_REGEXP, match => JSON_ESCAPE[match])] with
    the global flag: every unit of the class is replaced. *)
Definition escapeJSONString (s : text) : text :=
  flat_map (fun c => if JSON_ESCAPE_REGEXP c then lookup c JSON_ESCAPE else [c]) s.

(** A [script] element as [createShoebox] makes it.  [content] is the text
    given to [createRawHTMLSection]. *)
Record script : Type := mkScript {
  type_attribute : text;
  id_attribute : text;
  content : text
}.



End Shoebox.

(** ** A small host used by the examples

    A built application under [/srv/dist] whose entry script imports a
    relative module and the package [left-pad], which is installed next to
    the server but is on no whitelist; [a.js] is a script that evaluates
    and exports nothing. *)

Module Demo.
Import Js Effects Host.

Definition not_found (what : string) : error :=
  HostError "MODULE_NOT_FOUND" ("Cannot find module '" ++ what ++ "'").

Definition no_entry (what : string) : error :=
  HostError "ENOENT" ("no such file or directory, open '" ++ what ++ "'").

Definition files : list string :=
  [ "/srv/dist/app.js"; "/srv/dist/a.js"; "/srv/dist/routes/index.js";
    "/srv/dist/util.mjs"; "/srv/node_modules/left-pad/index.js" ].

Definition is_in (x : string) (xs : list string) : bool :=
  existsb (String.eqb x) xs.

Definition demo_dirname (p : string) : string :=
  if (p =? "/srv/dist/app.js") || (p =? "/srv/dist/a.js") then "/srv/dist"
  else "/".

Definition demo_resolve (base rel : string) : string :=
  if String.prefix "./" rel
  then base ++ "/" ++ substring 2 (String.length rel) rel
  else if String.prefix "/" rel then rel
  else base ++ "/" ++ rel.

Definition demo_host : host :=
  {| path_dirname := demo_dirname;
     path_resolve := demo_resolve;
     path_normalize := fun p => p;
     stat_isFile := fun p => is_in p files;
     require_resolve := fun specifier =>
       if specifier =? "left-pad"
       then Return "/srv/node_modules/left-pad/index.js"
       else Throw (not_found specifier);
     resolve_sync := fun name basedir => Throw (not_found name);
     host_require := fun id =>
       if id =? "left-pad" then Return "left-pad exports"
       else Throw (not_found id);
     read_module := fun path =>
       if path =? "/srv/dist/app.js" then Return ["./routes"; "left-pad"]
       else if is_in path files then Return []
       else Throw (no_entry path);
     evaluate_module := fun identifier =>
       if identifier =? "/srv/dist/app.js" then Return (ExportFunction "app")
       else Return ExportMissing |}.

End Demo.

(** ** The sandbox pool *)

Module Queue.

(** Modelled from the spec: src/utils/queue.js is not among the sources;
    only its use in src/ember-app.js is ([new Queue(builderFn, maxSize)],
    [enqueue()], and [dequeue()] returning [{ item, isItemPreBuilt }]).
    The spec's words: the pool holds "at most maxSize entries
    outstanding"; [dequeue] "pops the oldest pending/resolved entry; if
    the queue is empty, synchronously schedules ... a fresh build (cold
    path)"; an entry is "tagged with whether it was built ahead of time
    (pre-warmed) or built synchronously at dequeue time (cold)";
    ordering is FIFO. *)
Record t (A : Type) : Type := mkQueue {
  items : list A;
  maxSize : nat
}.
Arguments mkQueue {A} items maxSize.
Arguments items {A} _.
Arguments maxSize {A} _.

Definition create {A} (maxSize : nat) : t A := mkQueue [] maxSize.

(** Schedules one new entry unless the pool already holds [maxSize]. *)
Definition enqueue {A} (builderFn : unit -> A) (q : t A) : t A :=
  if (List.length (items q) <? maxSize q)%nat
  then mkQueue (items q ++ [builderFn tt]) (maxSize q)
  else q.

(** [{ isItemPreBuilt, item }] and the pool that is left. *)
Definition dequeue {A} (builderFn : unit -> A) (q : t A) : (bool * A) * t A :=
  match items q with
  | [] => ((false, builderFn tt), q)
  | item :: rest => ((true, item), mkQueue rest (maxSize q))
  end.

(** [buildSandboxQueue(maxSandboxQueueSize)] of src/ember-app.js: the
    [for] loop that calls [enqueue()] [maxSandboxQueueSize] times. *)
Fixpoint enqueue_times {A} (builderFn : unit -> A) (n : nat) (q : t A) : t A :=
  match n with
  | O => q
  | S n' => enqueue_times builderFn n' (enqueue builderFn q)
  end.

Definition buildSandboxQueue {A} (builderFn : unit -> A) (maxSandboxQueueSize : nat)
  : t A :=
  enqueue_times builderFn maxSandboxQueueSize (create maxSandboxQueueSize).

End Queue.

(** ** The result of a visit *)

Module VisitResult.
Import Effects.

(** Modelled from the spec: src/result.js is not among the sources.  The
    spec's words: a VisitResult "carries ... an optional error, and
    analytics (e.g., whether the sandbox was pre-warmed)", is "finalized
    exactly once", and "destruction of the underlying application
    instance is idempotent and safe to invoke multiple times (guarded by
    an internal destroyed flag)".  src/ember-app.js assigns [error] and
    [analytics.usedPrebuiltSandbox] and tests what [_destroy()] returns. *)
Record t : Type := mkResult {
  error : option error;
  usedPrebuiltSandbox : bool;
  finalized : bool;
  isDestroyed : bool;
  teardowns : nat   (* how often the application instance was torn down *)
}.

Definition create (usedPrebuilt : bool) : t := mkResult None usedPrebuilt false false 0.

Definition set_error (e : Effects.error) (r : t) : t :=
  mkResult (Some e) (usedPrebuiltSandbox r) (finalized r) (isDestroyed r) (teardowns r).

Definition _finalize (r : t) : t :=
  mkResult (error r) (usedPrebuiltSandbox r) true (isDestroyed r) (teardowns r).

(** Returns whether this call is the one that destroyed the instance. *)
Definition _destroy (r : t) : bool * t :=
  if isDestroyed r then (false, r)
  else (true, mkResult (error r) (usedPrebuiltSandbox r) (finalized r) true
                       (S (teardowns r))).

End VisitResult.

(** ** src/ember-app.js: [visit]

    An [async] function runs until its next [await] and is resumed when
    the awaited promise settles.  [visit] is written as the machine this
    makes: a [phase] names the [await] it is suspended at, an [event] is
    what the event loop delivers (the awaited promise fulfils or rejects,
    or the forced-destroy timer fires), and [step] runs the code up to
    the next [await].  Nothing else resumes the function. *)

Module Visit.
Import Js Effects EmberAppLoader.

(** What one call of [visit(path, options)] depends on. *)
Record request : Type := mkRequest {
  disableShoebox : bool;
  (** [parseInt(options.destroyAppInstanceInMs, 10)]; [None] is NaN *)
  destroyAppInstanceInMs : option Z;
  (** what [createShoebox(doc, fastbootInfo)] throws for this request's
      shoebox, if anything (a value [JSON.stringify] refuses, say) *)
  createShoebox_throws : option error
}.

Inductive phase : Type :=
| AwaitSandbox          (* await queueObject.item *)
| AwaitAppBoot          (* await app.boot() *)
| AwaitBuildInstance    (* await app.buildInstance() *)
| AwaitInstanceBoot     (* await instance.boot(bootOptions) *)
| AwaitInstanceVisit    (* await instance.visit(path, bootOptions) *)
| AwaitDeferred         (* await fastbootInfo.deferredPromise *)
| Resolved              (* visit's promise is fulfilled with the result *)
| Rejected (e : error). (* visit's promise is rejected *)

Inductive timer : Type :=
| NoTimer               (* destroyAppInstanceTimer is undefined *)
| Armed (ms : Z)
| Fired
| Cleared.

Inductive event : Type :=
| Fulfils               (* the awaited promise fulfils *)
| Rejects (e : error)   (* the awaited promise rejects *)
| TimerFires.

(** A pool entry: what the promise of [buildNewApplicationInstance()]
    settles to ([OutOfFuel]: it never settles). *)
Definition entry : Type := outcome (option AppContext).

Definition pool : Type := Queue.t entry.

Record state : Type := mkState {
  at_ : phase;
  result : option VisitResult.t;   (* None until [new Result] *)
  destroyAppInstanceTimer : timer;
  opts : request
}.

Definition string_of_Z (z : Z) : string := NilZero.string_of_int (Z.to_int z).

Definition ForcedDestructionError (ms : Z) : error :=
  Error_ ("App instance was forcefully destroyed in " ++ string_of_Z ms ++ "ms").

Definition null_destructure : error :=
  TypeError "Cannot destructure property 'app' of 'appContext' as it is null.".

(** From the call to the first [await] inside [_visit]: dequeue, await
    the entry, destructure it, make the result, arm the timer. *)
Definition start (builderFn : unit -> entry) (o : request) (p : pool)
  : pool * state :=
  let '((isItemPreBuilt, item), p') := Queue.dequeue builderFn p in
  match item with
  | OutOfFuel => (p', mkState AwaitSandbox None NoTimer o)
  | Thrown e => (p', mkState (Rejected e) None NoTimer o)
  | Done None => (p', mkState (Rejected null_destructure) None NoTimer o)
  | Done (Some appContext) =>
      let r := VisitResult.create isItemPreBuilt in
      let t := match destroyAppInstanceInMs o with
               | Some ms => if (ms >? 0)%Z then Armed ms else NoTimer
               | None => NoTimer
               end in
      (p', mkState AwaitAppBoot (Some r) t o)
  end.

(** [clearTimeout(destroyAppInstanceTimer)]. *)
Definition clearTimeout (t : timer) : timer :=
  match t with
  | Armed _ => Cleared
  | other => other
  end.

(** The [finally] block, then [return result]. *)
Definition finally (builderFn : unit -> entry) (p : pool) (s : state)
  : pool * state :=
  let r := option_map (fun r => snd (VisitResult._destroy (VisitResult._finalize r)))
                      (result s) in
  (Queue.enqueue builderFn p,
   mkState Resolved r (clearTimeout (destroyAppInstanceTimer s)) (opts s)).

(** The [catch] block. *)
Definition catch (e : error) (s : state) : state :=
  mkState (at_ s) (option_map (VisitResult.set_error e) (result s))
          (destroyAppInstanceTimer s) (opts s).

(** The callback given to [setTimeout]. *)
Definition timer_callback (ms : Z) (s : state) : state :=
  let r := option_map
             (fun r => let '(destroyed, r') := VisitResult._destroy r in
                       if destroyed
                       then VisitResult.set_error (ForcedDestructionError ms) r'
                       else r')
             (result s) in
  mkState (at_ s) r Fired (opts s).

Definition goto (ph : phase) (s : state) : state :=
  mkState ph (result s) (destroyAppInstanceTimer s) (opts s).

Definition step (builderFn : unit -> entry) (p : pool) (s : state) (ev : event)
  : pool * state :=
  match ev with
  | TimerFires =>
      match destroyAppInstanceTimer s with
      | Armed ms => (p, timer_callback ms s)
      | _ => (p, s)
      end
  | Fulfils =>
      match at_ s with
      | AwaitAppBoot => (p, goto AwaitBuildInstance s)
      | AwaitBuildInstance => (p, goto AwaitInstanceBoot s)
      | AwaitInstanceBoot => (p, goto AwaitInstanceVisit s)
      | AwaitInstanceVisit => (p, goto AwaitDeferred s)
      | AwaitDeferred =>
          if disableShoebox (opts s) then finally builderFn p s
          else match createShoebox_throws (opts s) with
               | Some e => finally builderFn p (catch e s)
               | None => finally builderFn p s
               end
      | AwaitSandbox | Resolved | Rejected _ => (p, s)
      end
  | Rejects e =>
      match at_ s with
      | AwaitAppBoot | AwaitBuildInstance | AwaitInstanceBoot
      | AwaitInstanceVisit | AwaitDeferred => finally builderFn p (catch e s)
      | AwaitSandbox | Resolved | Rejected _ => (p, s)
      end
  end.

Fixpoint run (builderFn : unit -> entry) (p : pool) (s : state) (evs : list event)
  : pool * state :=
  match evs with
  | [] => (p, s)
  | ev :: rest =>
      let '(p', s') := step builderFn p s ev in
      run builderFn p' s' rest
  end.

(** A visit that holds a sandbox and has not returned yet. *)
Definition in_flight (s : state) : bool :=
  match at_ s with
  | AwaitAppBoot | AwaitBuildInstance | AwaitInstanceBoot
  | AwaitInstanceVisit | AwaitDeferred => true
  | AwaitSandbox | Resolved | Rejected _ => false
  end.

Definition settled (s : state) : bool :=
  match at_ s with
  | Resolved | Rejected _ => true
  | _ => false
  end.







End Visit.

(** ** src/ember-ssr.js *)

Module EmberSsr.
Import Js Effects.

(** The one property read from the constructor's and from [visit]'s
    options: [None] when the object has no [resilient] property. *)
Record options : Type := mkOptions {
  resilient : option value
}.

Record t : Type := mkEmberSsr {
  this_resilient : bool
}.

(** [this.resilient = 'resilient' in options ? Boolean(options.resilient) : false]. *)
Definition construct (o : options) : t :=
  mkEmberSsr match resilient o with
             | Some v => truthy v
             | None => false
             end.

(** How the promise returned by [visit] settles. *)
Inductive settlement : Type :=
| Fulfilled (r : option VisitResult.t)
| RejectedWith (e : error)
| Pending.

(** [async visit(path, options)], given how [this._app.visit] went. *)
Definition visit (this : t) (o : options) (app_visit : Visit.state) : settlement :=
  let resilient :=
    match resilient o with
    | Some v => v
    | None => Bool (this_resilient this)
    end in
  match Visit.at_ app_visit with
  | Visit.Resolved =>
      match Visit.result app_visit with
      | Some r =>
          match VisitResult.error r with
          | Some e => if Js.not resilient then RejectedWith e else Fulfilled (Some r)
          | None => Fulfilled (Some r)
          end
      | None => Fulfilled None
      end
  | Visit.Rejected e => RejectedWith e
  | _ => Pending
  end.

End EmberSsr.

(** ** index.js and src/worker.js: the supervisor and its workers *)

Module Supervisor.
Import Js.

(** The messages of the control channel. *)
Inductive message : Type :=
| Reload (distPath : value)
| ErrorEvent (stack : string)
| Shutdown
| HttpOnline.

(** An entry of [cluster.workers]. *)
Record worker : Type := mkWorker {
  id : nat;
  pid : nat;
  env : list (string * value)
}.

(** The supervisor ([ViteEmberSsrServer] in the primary process) with
    what it can observe of the cluster.  It keeps no record of having
    asked for a shutdown: the class has no such field. *)
Record t : Type := mkSupervisor {
  ssrPaths : SsrPaths.t;
  workers : list worker;          (* cluster.workers, by ascending id *)
  forked : nat;                   (* calls of cluster.fork so far *)
  ui : list string;               (* lines given to ui.writeLine *)
  sent : list (nat * message)     (* worker.send calls: worker id, message *)
}.

Definition string_of_nat (n : nat) : string := NilZero.string_of_uint (Nat.to_uint n).

Definition string_of_Z (z : Z) : string := NilZero.string_of_int (Z.to_int z).

Definition writeLine (line : string) (s : t) : t :=
  mkSupervisor (ssrPaths s) (workers s) (forked s) (ui s ++ [line]) (sent s).

(** [buildWorkerEnv()]. *)
Definition buildWorkerEnv (s : t) : list (string * value) :=
  if truthy (SsrPaths.clientPath (ssrPaths s)) && truthy (SsrPaths.ssrPath (ssrPaths s))
  then [ ("CLIENT_PATH", SsrPaths.clientPath (ssrPaths s));
         ("SSR_PATH", SsrPaths.ssrPath (ssrPaths s)) ]
  else [].

Section WithOS.

(** The process id the operating system gives to the [n]-th fork. *)
Variable pid_of : nat -> nat.

(** [cluster.fork(env)]: worker ids count up from 1. *)
Definition cluster_fork (e : list (string * value)) (s : t) : worker * t :=
  let w := mkWorker (S (forked s)) (pid_of (S (forked s))) e in
  (w, mkSupervisor (ssrPaths s) (workers s ++ [w]) (S (forked s)) (ui s) (sent s)).

(** [forkWorker()] up to the promise it returns: the fork, the two
    lines, and the ['exit'] listener, which [on_exit] below is. *)
Definition forkWorker (s : t) : t :=
  let e := buildWorkerEnv s in
  let '(w, s1) := cluster_fork e s in
  let s2 := writeLine ("forked worker " ++ string_of_nat (pid w)) s1 in
  writeLine "worker online" s2.

(** [forkWorkers()]. *)
Fixpoint forkWorkers (workerCount : nat) (s : t) : t :=
  match workerCount with
  | O => s
  | S n => forkWorkers n (forkWorker s)
  end.

(** The line written by the ['exit'] listener.  [signal] is [null] or
    the signal's name, [code] is [null] or the exit code. *)
Definition exit_line (code : option Z) (signal : option string) : string :=
  if match signal with Some name => truthy (Str name) | None => false end
  then "worker was killed by signal: "
       ++ match signal with Some name => name | None => "null" end
  else if match code with Some 0%Z => false | _ => true end
  then "worker exited with error code: "
       ++ match code with Some c => string_of_Z c | None => "null" end
  else "worker exited".

Definition remove_worker (i : nat) (ws : list worker) : list worker :=
  filter (fun w => negb (id w =? i)%nat) ws.

(** A worker process exits: the cluster drops it from [cluster.workers]
    and emits ['exit'] on it, which runs the listener. *)
Definition on_exit (i : nat) (code : option Z) (signal : option string) (s : t) : t :=
  let s1 := mkSupervisor (ssrPaths s) (remove_worker i (workers s)) (forked s)
                         (ui s) (sent s) in
  let s2 := writeLine (exit_line code signal) s1 in
  forkWorker s2.

(** [broadcast(message)]. *)
Definition broadcast (m : message) (s : t) : t :=
  mkSupervisor (ssrPaths s) (workers s) (forked s) (ui s)
               (sent s ++ map (fun w => (id w, m)) (workers s)).

(** [stop()]. *)
Definition stop (s : t) : t := broadcast Shutdown s.

(** src/worker.js, [handleMessage]: what a message makes the worker's
    process do; [Some code] is [process.exit(code)]. *)
Definition handleMessage (m : message) : option Z :=
  match m with
  | Shutdown => Some 0%Z
  | Reload _ | ErrorEvent _ | HttpOnline => None
  end.

(** Every worker that was sent [m] handles it; those that exit are
    reported to the supervisor in turn. *)
Fixpoint settle (recipients : list nat) (m : message) (s : t) : t :=
  match recipients with
  | [] => s
  | i :: rest =>
      match handleMessage m with
      | Some code => settle rest m (on_exit i (Some code) None s)
      | None => settle rest m s
      end
  end.

Definition stop_and_settle (s : t) : t :=
  settle (map id (workers s)) Shutdown (stop s).

End WithOS.

Definition initial (paths : SsrPaths.t) : t := mkSupervisor paths [] 0 [] [].

End Supervisor.

(** ** Notions the statements below use *)

Module Notions.
Import Js Effects Host EmberAppLoader Utf16 Json Shoebox Visit.

(** The four places [resolveImport] looks at, in the order it tries them. *)
Definition candidates (H : host) (specifier importerPath : string) : list string :=
  let resolvedPath :=
    path_normalize H (path_resolve H (path_dirname H importerPath) specifier) in
  [ resolvedPath;
    path_resolve H resolvedPath "index.js";
    resolvedPath ++ ".mjs";
    resolvedPath ++ ".js" ].




Section Texts.
Local Open Scope list_scope.



End Texts.

End Notions.

(** ** Sample inputs *)

Module Samples.
Import Js Effects Host EmberAppLoader Demo Utf16 Json Visit.

(** A builder whose sandboxes are all usable. *)
Definition good_builder : unit -> entry :=
  fun _ => fst (buildApp demo_host 2 ["/srv/dist/app.js"] empty_world).

(** A builder for the artifact that exports no factory. *)
Definition null_builder : unit -> entry :=
  fun _ => fst (buildApp demo_host 1 ["/srv/dist/a.js"] empty_world).

(** A builder for an artifact whose script cannot be read. *)
Definition failing_builder : unit -> entry :=
  fun _ => fst (buildApp demo_host 1 ["/srv/dist/missing.js"] empty_world).

(** The request of the scenario: a forced-destroy timeout of 50ms. *)
Definition req50 : request := mkRequest false (Some 50%Z) None.

Definition up_to_deferred : list event := [Fulfils; Fulfils; Fulfils; Fulfils].

Definition plain : request := mkRequest false None None.

(** A supervisor that has forked two workers. *)
Definition paths0 : SsrPaths.t :=
  SsrPaths.setPaths (SsrPaths.mkOptions (Str "/srv/dist") Undefined Undefined).

Definition os_pid (n : nat) : nat := 4000 + n.

Definition two_workers : Supervisor.t :=
  Supervisor.forkWorkers os_pid 2 (Supervisor.initial paths0).


End Samples.

(** ** Further notions and samples for the remaining code *)

Module StringNotions.

(** Whether the character occurs in the string. *)
Fixpoint contains (c : ascii) (s : string) : bool :=
  match s with
  | EmptyString => false
  | String x rest => Ascii.eqb x c || contains c rest
  end.

(** A package name without a scope: no slash, and no scope marker in
    front. *)
Definition plain_name (p : string) : bool :=
  negb (contains "/" p) && negb (PackageName.starts_with_at p).

End StringNotions.

(** A host with a script that imports itself, and one whose import throws
    while it evaluates. *)
Module LoopHost.
Import Js Effects Host Demo.


End LoopHost.

(** ** Worker exits in sequence *)

Module ClusterRuns.
Import Supervisor.

(** An ['exit'] event: the worker's id, its exit code and its signal. *)
Record exit_event : Type := mkExit {
  who : nat;
  code : option Z;
  signal : option string
}.

Definition is_live (i : nat) (s : t) : bool :=
  existsb (fun w => (id w =? i)%nat) (workers s).

(** The cluster emits ['exit'] for the workers it holds; an event for any
    other id does not occur. *)
Definition exit_step (pid_of : nat -> nat) (s : t) (ev : exit_event) : t :=
  if is_live (who ev) s then on_exit pid_of (who ev) (code ev) (signal ev) s else s.

Definition run_exits (pid_of : nat -> nat) (s : t) (evs : list exit_event) : t :=
  fold_left (exit_step pid_of) evs s.

End ClusterRuns.

(** ** src/utils/ssr-paths.js: an instance given as options *)

Module SsrPathsCopy.
Import Js SsrPaths.

(** [new SsrPaths(paths)] and [setPaths(paths)] on an instance: the
    destructuring reads the instance's own three path properties. *)
Definition as_options (p : t) : options :=
  mkOptions (distPath p) (clientPath p) (ssrPath p).

End SsrPathsCopy.

(** ** src/ember-app.js: the loop of [module.link(link)] on its own *)

Module LinkLoop.
Import Js Effects Host EmberAppLoader.

Section Links.

Variable H : host.
Variable defaultBase : string.
Variable filePath : string.

(** How an imported script is built: [buildScript] with the fuel that is
    left. *)
Variable build : string -> M unit.

(** The loop inside [buildScript] over the specifiers a script imports,
    named. *)
Fixpoint links (todo : list string) : M unit :=
  match todo with
  | [] => ret tt
  | specifier :: rest =>
      let base := if truthy (Str filePath) then filePath else defaultBase in
      bind (lift (resolveImport H specifier base))
        (fun identifier =>
           bind (build identifier)
             (fun _ => bind (evaluate H identifier) (fun _ => links rest)))
  end.

End Links.

End LinkLoop.

(** ** src/ssr-server-config.js *)

Module SsrServerConfig.
Import Js Utf16 RegExpCodec.

(** The [ssrServer] object of a configuration, by the two keys of
    [ssrServerConfigKeys].  [None] is a key that is absent or holds
    [undefined] or [null]: the code treats the three alike. *)
Record server_config : Type := mkServerConfig {
  hostWhitelist : option (list entry);
  moduleWhitelist : option (list string)
}.

(** [ssrServerConfigKeys.hostWhitelist.load] and [.save]. *)
Definition load (whitelist : option (list entry)) : option (list entry) :=
  option_map (map deserializeRegExp) whitelist.

Definition save (whitelist : option (list entry)) : option (list entry) :=
  option_map (map serializeRegExp) whitelist.

(** [normalizeSsrServerConfig(config, serialize = false)]; [None] is
    [undefined] or [null].  For [moduleWhitelist] the entry of
    [ssrServerConfigKeys] is [true], which has no [load], so the value is
    taken as it is. *)
Definition normalizeSsrServerConfig (config : option server_config) (serialize : bool)
  : option server_config :=
  match config with
  | None => None
  | Some c =>
      let transform := if serialize then save else load in
      match transform (hostWhitelist c), moduleWhitelist c with
      | None, None => None
      | h, m => Some (mkServerConfig h m)
      end
  end.

(** The object [normalizeSsrConfig] reads: the application's environment
    or, when writing, its own earlier result. *)
Record app_config : Type := mkAppConfig {
  modulePrefix : value;
  name : value;
  ssrServer : option server_config;
  fastboot : option server_config
}.

(** [a || b] on objects. *)
Definition or_object {A} (a b : option A) : option A :=
  match a with
  | Some x => Some x
  | None => b
  end.

(** [normalizeSsrConfig(config, serialize = false)]: the result has the
    keys [name] and [ssrServer], each only when its value is truthy, and
    is [null] without any. *)
Definition normalizeSsrConfig (config : option app_config) (serialize : bool)
  : option app_config :=
  match config with
  | None => None
  | Some c =>
      let name' := or (modulePrefix c) (name c) in
      let ssrServer' :=
        normalizeSsrServerConfig (or_object (ssrServer c) (fastboot c)) serialize in
      match truthy name', ssrServer' with
      | false, None => None
      | keep, s => Some (mkAppConfig Undefined (if keep then name' else Undefined) s None)
      end
  end.

(** What [updateConfig] of the build plugin merges into the package
    file: [getSsrServerConfigFromApp] normalizes the application's
    configuration and [writeSsrServerConfigForServer] normalizes that
    for writing. *)
Definition written_config (appConfig : option app_config) : option app_config :=
  normalizeSsrConfig (normalizeSsrConfig appConfig false) true.

End SsrServerConfig.

(** ** src/ssr-request.js *)

Module SsrRequest.
Import Js Utf16 RegExpCodec.

Inductive error : Type :=
| NoWhitelist                 (* You must provide a hostWhitelist to retrieve the host *)
| HostMismatch (host : text)  (* The host header did not match a hostWhitelist entry. *)
| TestIsNotAFunction.         (* TypeError: calling [test] on a string *)

Fixpoint text_eqb (a b : text) : bool :=
  match a, b with
  | [], [] => true
  | x :: a', y :: b' => eqb x y && text_eqb a' b'
  | _, _ => false
  end.

(** [entry === host], the host being a string. *)
Definition strict_equal (e : entry) (host : text) : bool :=
  match e with
  | EString s => text_eqb s host
  | _ => false
  end.

Section Host.

(** [regex.test(string)] of the host's regular expressions, from the
    start of the string: every call below is on a fresh object. *)
Variable test : regexp -> text -> bool.

(** The callback given to [some]. *)
Definition entry_matches (host : text) (e : entry) : completion error bool :=
  match matchesSerializedRegExp e with
  | Some _ =>
      match deserializeRegExp e with
      | ERegExp r => Return (test r host)
      | _ => Throw TestIsNotAFunction
      end
  | None => Return (strict_equal e host)
  end.

(** [hostWhitelist.some(callback)]. *)
Fixpoint some (host : text) (whitelist : list entry) : completion error bool :=
  match whitelist with
  | [] => Return false
  | e :: rest =>
      match entry_matches host e with
      | Return true => Return true
      | Return false => some host rest
      | Throw x => Throw x
      end
  end.

(** [host()], given [this.hostWhitelist] and what
    [this.headers.get('host')] returns. *)
Definition host (hostWhitelist : option (list entry)) (header : text)
  : completion error text :=
  match hostWhitelist with
  | None => Throw NoWhitelist
  | Some whitelist =>
      match some header whitelist with
      | Return true => Return header
      | Return false => Throw (HostMismatch header)
      | Throw x => Throw x
      end
  end.

End Host.

End SsrRequest.

(** ** Whitelist entries as an application configures them *)

Module WhitelistNotions.
Import Js Utf16 RegExpCodec SsrRequest.



End WhitelistNotions.

(** ** What stays true of the cluster *)

Module ClusterNotions.
Import Supervisor.
Local Open Scope nat_scope.

(** Worker ids are distinct and none is ahead of the fork counter, every
    worker got the environment the paths give, and the paths are what
    they were. *)
Definition steady (paths : SsrPaths.t) (n : nat) (s : t) : Prop :=
  ssrPaths s = paths
  /\ List.length (workers s) = n
  /\ NoDup (map id (workers s))
  /\ Forall (fun w => id w <= forked s) (workers s)
  /\ Forall (fun w => env w = buildWorkerEnv (initial paths)) (workers s).

End ClusterNotions.

(** ** index.js: the options of [ViteEmberSsrServer] *)

Module ServerOptions.
Import Js.

(** The keys of [defaults()] whose values are primitives, and [log],
    which is a function or [false]. *)
Inductive key : Type :=
| Dev | Mode | DistPath | ClientPath | SsrPath | HostName | Port | NoGzip
| BaseIndex | Username | Password | Log | ChunkedResponse.

(** [envs[o]]; [None] is [undefined]. *)
Definition envs (o : key) : option string :=
  match o with
  | Mode => Some "NODE_ENV"
  | DistPath => Some "SSR_DIST_PATH"
  | ClientPath => Some "CLIENT_PATH"
  | SsrPath => Some "SSR_PATH"
  | HostName => Some "SERVER_HOST"
  | Port => Some "SERVER_PORT"
  | _ => None
  end.

(** [defaults(mode = 'production')[o]]. *)
Definition defaults (mode : value) (o : key) : value :=
  match o with
  | Dev => Bool false
  | Mode => match mode with Undefined => Str "production" | m => m end
  | DistPath | ClientPath | SsrPath => Null
  | HostName => Str "localhost"
  | Port => Num 4200
  | NoGzip => Bool false
  | BaseIndex => Str "index.html"
  | Username | Password | Log => Null
  | ChunkedResponse => Bool true
  end.

(** [a ?? b]. *)
Definition coalesce (a b : value) : value :=
  match a with
  | Undefined | Null => b
  | _ => a
  end.

(** What the constructor reads: [options], [options.defaults] ([None]
    where it has no such key, or is not given) and [process.env] (where
    a variable is a string or [undefined]). *)
Record input : Type := mkInput {
  options : key -> value;
  option_defaults : key -> option value;
  env : string -> value
}.

(** [env[envs[o]]]: a key without a variable reads the property named
    by [undefined]. *)
Definition env_of (i : input) (o : key) : value :=
  env i match envs o with
        | Some name => name
        | None => "undefined"
        end.

(** [combinedDefaultOptions[o]]. *)
Definition combinedDefaultOptions (i : input) (o : key) : value :=
  match option_defaults i o with
  | Some v => v
  | None => defaults (options i Mode) o
  end.

(** [this[o] = (options[o] ?? env[envs[o]]) || combinedDefaultOptions[o]]. *)
Definition this_ (i : input) (o : key) : value :=
  or (coalesce (options i o) (env_of i o)) (combinedDefaultOptions i o).

(** [gzip: !this.noGzip], as given to the worker. *)
Definition worker_gzip (i : input) : value := Bool (not (this_ i NoGzip)).

End ServerOptions.

(** ** src/basic-auth.js *)

Module BasicAuth.
Import Js.

Inductive verdict : Type :=
| Pass            (* next() *)
| Unauthorized.   (* the WWW-Authenticate header and status 401 *)

(** [s !== v] for a string [s]. *)
Definition differs (s : string) (v : value) : bool :=
  match v with
  | Str t => negb (s =? t)
  | _ => true
  end.

(** The middleware returned for [username] and [password], on a request
    whose credentials the [basic-auth] package reads as [user]:
    [undefined], or an object with the strings [name] and [pass]. *)
Definition basicAuth (username password : value) (user : option (string * string))
  : verdict :=
  match user with
  | None => Unauthorized
  | Some (name, pass) =>
      if differs name username || differs pass password then Unauthorized else Pass
  end.

End BasicAuth.

(** ** src/express-http-server.js *)

Module ExpressHTTPServer.
Import Js.

Record options : Type := mkOptions {
  o_ssrPaths : SsrPaths.t;
  o_username : value;
  o_password : value;
  o_cache : bool;        (* whether a cache object is given *)
  o_gzip : value;
  o_base : value
}.

Record t : Type := mkServer {
  ssrPaths : SsrPaths.t;
  username : value;
  password : value;
  cache : bool;
  gzip : value;
  base : value;
  ui : list string
}.

(** The constructor, for options that carry an [SsrPaths] instance. *)
Definition construct (o : options) : t :=
  {| ssrPaths := o_ssrPaths o;
     username := o_username o;
     password := o_password o;
     cache := o_cache o;
     gzip := or (o_gzip o) (Bool true);
     base := o_base o;
     ui := [] |}.

(** What [serve] puts on the router, in the order of the calls. *)
Inductive layer : Type :=
| Compression                                   (* router.use(compression()) *)
| BasicAuthLayer (username password : value)    (* router.use(basicAuth(...)) *)
| CacheLayer                                    (* router.get('/*all', cache) *)
| GetRoot                                       (* router.get('/', middleware) *)
| Static (root : value)                         (* router.use(express.static(root)) *)
| AssetsNotFound                                (* router.get('/assets/*asset', 404) *)
| GetAll.                                       (* router.get('/*all', middleware) *)

Definition nullish (v : value) : bool :=
  match v with
  | Undefined | Null => true
  | _ => false
  end.

(** The string a value becomes inside a template literal. *)
Definition to_string (v : value) : string :=
  match v with
  | Undefined => "undefined"
  | Null => "null"
  | Bool true => "true"
  | Bool false => "false"
  | Num n => Supervisor.string_of_Z n
  | Str s => s
  end.

(** [serve(fastbootMiddleware)] up to [app.listen]: the router's layers,
    the middle argument of the [join] that gives the mount path, and the
    server with the line written.  The two hooks are the default [noop]. *)
Definition serve (s : t) : t * value * list layer :=
  let auth := negb (nullish (username s)) || negb (nullish (password s)) in
  let ui' :=
    if auth
    then (ui s ++ [("adding basic auth; username=" ++ to_string (username s)
                      ++ "; password=" ++ to_string (password s))%string])%list
    else ui s in
  (mkServer (ssrPaths s) (username s) (password s) (cache s) (gzip s) (base s) ui',
   or (base s) (Str "/"),
   (if truthy (gzip s) then [Compression] else [])
   ++ (if auth then [BasicAuthLayer (username s) (password s)] else [])
   ++ (if cache s then [CacheLayer] else [])
   ++ (if SsrPaths.hasPath (ssrPaths s)
       then [GetRoot; Static (SsrPaths.clientPath (ssrPaths s)); AssetsNotFound]
       else [])
   ++ [GetAll])%list.

End ExpressHTTPServer.

(** ** src/ember-ssr-express-middleware.js *)

Module SsrMiddleware.
Import Js Effects.

(** What the middleware does to the response and to [next], and what it
    logs. *)
Inductive action : Type :=
| ResType (mime : string)
| ResSend (body : value)
| ResStatus (code : Z)
| ResAppend (name content : string)
| ResWrite (chunk : string)
| ResEnd
| Next (e : option error)
| LogCaught (e : error)                   (* log('RESILIENT MODE CAUGHT:', stack) *)
| LogStatus (code : Z) (message : string).

(** What [result.chunks()] or [result.html()] is awaited to. *)
Inductive body : Type :=
| BodyString (s : string)
| BodyChunks (chunks : list string).

Record options : Type := mkOptions {
  chunkedResponse : value;
  log : value;
  visitOptions_html : value   (* options.visitOptions?.html *)
}.

Section Middleware.

(** The [name] property of what was thrown. *)
Variable name_of : error -> string.

(** What the middleware reads from a result besides its [error]. *)
Variable headers_of : VisitResult.t -> list (string * string).
Variable statusCode_of : VisitResult.t -> Z.
Variable chunks_of : VisitResult.t -> completion error body.
Variable html_of : VisitResult.t -> completion error body.

(** [emberSsr._app.html] and [emberSsr.html]. *)
Variable app_html : value.
Variable ssr_html : value.

Definition logged (o : options) (a : action) : list action :=
  match log o with
  | Bool false => []
  | _ => [a]
  end.

(** The [catch] block. *)
Definition on_error (e : error) : list action :=
  if name_of e =? "UnrecognizedURLError" then [Next None]
  else [ResStatus 500; Next (Some e)].

(** The function [emberSsrExpressMiddleware(options)] returns, on a
    request for [path], given how [emberSsr.visit] settles; the response's
    own methods are taken not to throw. *)
Definition middleware (o : options) (path : string) (settled : EmberSsr.settlement)
  : list action :=
  match settled with
  | EmberSsr.Pending => []
  | EmberSsr.RejectedWith e => on_error e
  | EmberSsr.Fulfilled None =>
      let html := or (or app_html ssr_html) (visitOptions_html o) in
      if truthy html then [ResType "text/html"; ResSend html] else [ResStatus 500]
  | EmberSsr.Fulfilled (Some result) =>
      match (if truthy (chunkedResponse o) then chunks_of result else html_of result) with
      | Throw e => on_error e
      | Return b =>
          (match VisitResult.error result with
           | Some e => logged o (LogCaught e) ++ [Next (Some e)]
           | None => []
           end
           ++ map (fun pair => ResAppend (fst pair) (snd pair)) (headers_of result)
           ++ logged o (LogStatus (statusCode_of result)
                          ((match VisitResult.error result with
                            | Some _ => "NOT OK "
                            | None => "OK "
                            end) ++ path)%string)
           ++ [ResStatus (statusCode_of result)]
           ++ match b with
              | BodyString s => [ResType "text/html"; ResSend (Str s)]
              | BodyChunks chunks =>
                  match VisitResult.error result with
                  | Some _ =>
                      [ResType "text/html";
                       ResSend match chunks with
                               | first :: _ => Str first
                               | [] => Undefined
                               end]
                  | None =>
                      ResType "text/html" :: map ResWrite chunks ++ [ResEnd]
                  end
              end)%list
      end
  end.

End Middleware.

(** *** The cache in front of it (src/express-http-server.js) *)

(** [interceptResponseCompletion(path, res)]: [res.send] is wrapped until
    its first call, which hands the body to [cache.put].  The bodies put,
    for what the later middleware does to the response. *)
Fixpoint intercepted_puts (actions : list action) : list value :=
  match actions with
  | [] => []
  | ResSend b :: _ => [b]
  | _ :: rest => intercepted_puts rest
  end.



(** Whether the response was completed, and whether [next] was called. *)
Definition answered (actions : list action) : bool :=
  existsb (fun a => match a with ResSend _ | ResEnd => true | _ => false end) actions.

Definition passed_on (actions : list action) : bool :=
  existsb (fun a => match a with Next _ => true | _ => false end) actions.

End SsrMiddleware.

(** ** src/worker.js and the [EmberSsr] it builds *)

Module WorkerProcess.
Import Js Effects SsrPathsCopy.

(** What the worker reads of an [EmberApp]: [app.config[app.appName].rootURL],
    which throws when the configuration has no entry for the name. *)
Record ember_app : Type := mkEmberApp {
  built_from : SsrPaths.t;
  rootURL : completion error value
}.

(** An [EmberSsr] instance: its paths, its [_app], and the applications
    it has destroyed. *)
Record ember_ssr : Type := mkEmberSsr {
  ssr_paths : SsrPaths.t;
  _app : ember_app;
  destroyed : list ember_app
}.

Definition instantiation_error : error :=
  Error_ "You must instantiate EmberSsr with a distPath option that contains a path to a dist directory produced by running ember build:ssr in your Ember app".

Definition undefined_app : error :=
  TypeError "Cannot read properties of undefined (reading '_app')".

Definition undefined_reload : error :=
  TypeError "Cannot read properties of undefined (reading 'reload')".

Inductive middleware : Type :=
| NoAppMiddleware      (* the page that says no application was found *)
| SsrMiddlewareFor (chunkedResponse log : value).

Record t : Type := mkWorker {
  ssrPaths : SsrPaths.t;
  chunkedResponse : value;
  log : value;
  httpServer : ExpressHTTPServer.t;
  emberSsr : option ember_ssr;          (* [None]: undefined *)
  the_middleware : option middleware;
  error_ : option string;
  ui : list (string * option value);    (* writeLine(text) or writeLine(text, value) *)
  serving : option (value * list ExpressHTTPServer.layer * middleware)
}.

(** The options [index.js] gives to [new Worker], without the hooks. *)
Record options : Type := mkOptions {
  o_ssrPaths : SsrPaths.t;
  o_cache : bool;
  o_gzip : value;
  o_username : value;
  o_password : value;
  o_chunkedResponse : value;
  o_log : value
}.

(** The constructor, when no [httpServer] is given: it makes the
    [ExpressHTTPServer]; [base] is not among the options. *)
Definition construct (o : options) : t :=
  {| ssrPaths := o_ssrPaths o;
     chunkedResponse := o_chunkedResponse o;
     log := o_log o;
     httpServer :=
       ExpressHTTPServer.construct
         (ExpressHTTPServer.mkOptions (o_ssrPaths o) (o_username o) (o_password o)
                                      (o_cache o) (o_gzip o) Undefined);
     emberSsr := None;
     the_middleware := None;
     error_ := None;
     ui := [];
     serving := None |}.

Section WithEmberApp.

(** [new EmberApp({ ssrPaths, ... })]: it reads the configuration and
    the scripts below the paths, and throws when it cannot. *)
Variable new_EmberApp : SsrPaths.t -> completion error ember_app.

(** [_buildEmberApp(ssrPaths)] of [EmberSsr], for an [SsrPaths]
    instance, after it has stored the paths: the check, and the new
    [_app]. *)
Definition _buildEmberApp (ssrPaths : SsrPaths.t) : completion error ember_app :=
  if negb (SsrPaths.hasPath ssrPaths) then Throw instantiation_error
  else new_EmberApp ssrPaths.

(** [new EmberSsr({ ssrPaths, buildSandboxGlobals })]: the paths are
    copied with [new SsrPaths(options.ssrPaths)]. *)
Definition new_EmberSsr (ssrPaths : SsrPaths.t) : completion error ember_ssr :=
  let copy := SsrPaths.setPaths (as_options ssrPaths) in
  match _buildEmberApp copy with
  | Return app => Return (mkEmberSsr copy app [])
  | Throw e => Throw e
  end.

(** [reload({ ssrPaths })] of [EmberSsr]: the instance afterwards, and
    the error when [_buildEmberApp] throws; the earlier [_app] is
    destroyed first and stays in place when no new one is made. *)
Definition EmberSsr_reload (this : ember_ssr) (ssrPaths : SsrPaths.t)
  : ember_ssr * option error :=
  match _buildEmberApp ssrPaths with
  | Return app =>
      (mkEmberSsr ssrPaths app (destroyed this ++ [_app this])%list, None)
  | Throw e =>
      (mkEmberSsr ssrPaths (_app this) (destroyed this ++ [_app this])%list, Some e)
  end.

Definition writeLine (line : string) (arg : option value) (w : t) : t :=
  mkWorker (ssrPaths w) (chunkedResponse w) (log w) (httpServer w) (emberSsr w)
           (the_middleware w) (error_ w) (ui w ++ [(line, arg)])%list (serving w).

(** [start()]: the state afterwards, and the error when it throws. *)
Definition start (w : t) : t * option error :=
  let built :=
    if negb (SsrPaths.hasPath (ssrPaths w))
    then Return (None, NoAppMiddleware)
    else match new_EmberSsr (ssrPaths w) with
         | Return ssr =>
             Return (Some ssr, SsrMiddlewareFor (chunkedResponse w) (log w))
         | Throw e => Throw e
         end in
  match built with
  | Throw e => (w, Some e)
  | Return (ssr, m) =>
      let w1 :=
        mkWorker (ssrPaths w) (chunkedResponse w) (log w) (httpServer w)
                 match ssr with Some s => Some s | None => emberSsr w end
                 (Some m) (error_ w) (ui w) (serving w) in
      let w2 := writeLine "starting HTTP server" None w1 in
      match emberSsr w2 with
      | None => (w2, Some undefined_app)
      | Some s =>
          match rootURL (_app s) with
          | Throw e => (w2, Some e)
          | Return url =>
              let http :=
                ExpressHTTPServer.mkServer
                  (ExpressHTTPServer.ssrPaths (httpServer w2))
                  (ExpressHTTPServer.username (httpServer w2))
                  (ExpressHTTPServer.password (httpServer w2))
                  (ExpressHTTPServer.cache (httpServer w2))
                  (ExpressHTTPServer.gzip (httpServer w2))
                  url
                  (ExpressHTTPServer.ui (httpServer w2)) in
              let '(http', mount, layers) := ExpressHTTPServer.serve http in
              (mkWorker (ssrPaths w2) (chunkedResponse w2) (log w2) http'
                        (emberSsr w2) (the_middleware w2) (error_ w2) (ui w2)
                        (Some (mount, layers, m)),
               None)
          end
      end
  end.

(** [a === b] on primitives. *)
Definition strict_equal (a b : value) : bool :=
  match a, b with
  | Undefined, Undefined | Null, Null => true
  | Bool x, Bool y => Bool.eqb x y
  | Num x, Num y => (x =? y)%Z
  | Str x, Str y => (x =? y)%string
  | _, _ => false
  end.

(** [handleMessage(message)] for the messages of the supervisor; the
    [reload] message has the properties [event] and [distPath], so
    [message.clientPath] and [message.ssrPath] read [undefined].  The
    [Z] is the code of [process.exit]. *)
Definition handleMessage (m : Supervisor.message) (w : t) : t * option error * option Z :=
  match m with
  | Supervisor.Reload _ =>
      let paths :=
        SsrPaths.setPaths
          (SsrPaths.mkOptions Undefined
             (or Undefined (SsrPaths.clientPath (ssrPaths w)))
             (or Undefined (SsrPaths.ssrPath (ssrPaths w)))) in
      let w1 :=
        mkWorker paths (chunkedResponse w) (log w)
                 (ExpressHTTPServer.mkServer
                    paths
                    (ExpressHTTPServer.username (httpServer w))
                    (ExpressHTTPServer.password (httpServer w))
                    (ExpressHTTPServer.cache (httpServer w))
                    (ExpressHTTPServer.gzip (httpServer w))
                    (ExpressHTTPServer.base (httpServer w))
                    (ExpressHTTPServer.ui (httpServer w)))
                 (emberSsr w) (the_middleware w) (error_ w) (ui w) (serving w) in
      let w2 :=
        if strict_equal (SsrPaths.clientPath paths) (SsrPaths.ssrPath paths)
        then writeLine "Reloading the application from distPath:"
                       (Some (SsrPaths.ssrPath paths)) w1
        else writeLine "Reloading the application from ssrPath:"
                       (Some (SsrPaths.ssrPath paths))
               (writeLine "Reloading the application from clientPath:"
                          (Some (SsrPaths.clientPath paths)) w1) in
      match emberSsr w2 with
      | None => (w2, Some undefined_reload, None)
      | Some ssr =>
          let '(ssr', thrown) := EmberSsr_reload ssr paths in
          (mkWorker (ssrPaths w2) (chunkedResponse w2) (log w2) (httpServer w2)
                    (Some ssr') (the_middleware w2) (error_ w2) (ui w2)
                    (serving w2),
           thrown, None)
      end
  | Supervisor.ErrorEvent stack =>
      (mkWorker (ssrPaths w) (chunkedResponse w) (log w) (httpServer w) (emberSsr w)
                (the_middleware w) (Some stack) (ui w) (serving w),
       None, None)
  | Supervisor.Shutdown => (w, None, Some 0%Z)
  | Supervisor.HttpOnline => (w, None, None)
  end.

End WithEmberApp.

(** The options [index.js] gives to [new Worker] in a worker process,
    for the paths and the cache it has. *)
Definition options_of_server (i : ServerOptions.input) (ssrPaths : SsrPaths.t)
           (cache : bool) : options :=
  {| o_ssrPaths := ssrPaths;
     o_cache := cache;
     o_gzip := ServerOptions.worker_gzip i;
     o_username := ServerOptions.this_ i ServerOptions.Username;
     o_password := ServerOptions.this_ i ServerOptions.Password;
     o_chunkedResponse := ServerOptions.this_ i ServerOptions.ChunkedResponse;
     o_log := ServerOptions.this_ i ServerOptions.Log |}.

End WorkerProcess.

(** ** index.js: the constructor in the primary process *)

Module PrimaryProcess.
Import Js.

Inductive error : Type :=
| AssertionError (message : string).

Definition either_message : string :=
  "ViteEmberSsrServer must be provided with either a distPath (or clientPath & ssrPath) or a downloader option.".

Definition not_both_message : string :=
  "ViteEmberSsrServer must be provided with either a distPath (or clientPath & ssrPath) or a downloader option, but not both.".

(** The two [assert] calls of the constructor when [cluster.isWorker] is
    false; [downloader] says whether [this.downloader] is truthy. *)
Definition check_options (ssrPaths : SsrPaths.t) (downloader : bool)
  : completion error unit :=
  if negb ((truthy (SsrPaths.clientPath ssrPaths) && truthy (SsrPaths.ssrPath ssrPaths))
           || downloader)
  then Throw (AssertionError either_message)
  else if (truthy (SsrPaths.clientPath ssrPaths) || truthy (SsrPaths.ssrPath ssrPaths))
          && downloader
  then Throw (AssertionError not_both_message)
  else Return tt.

End PrimaryProcess.

(** ** The package file between the build plugin and the server
    (src/ssr-server-config.js, src/ssr-schema.js) *)

Module PackageFile.
Import Js Effects RegExpCodec.

(** [pkg.ssrServer.scripts]: absent, one pattern, or an array of them. *)
Inductive scripts_value : Type :=
| ScriptsAbsent
| ScriptsPattern (pattern : string)
| ScriptsArray (patterns : list string).

(** The [ssrServer] object of the package file, by the keys [loadConfig]
    reads. *)
Record server_section : Type := mkSection {
  htmlEntrypoint : value;
  moduleWhitelist : option (list string);
  scripts : scripts_value;
  hostWhitelist : option (list entry)
}.

(** The object of the package file, by the keys the two sides use. *)
Record package : Type := mkPackage {
  name : value;
  ssrServer : option server_section
}.

(** The [ssrServer] object the plugin writes has the keys of
    [ssrServerConfigKeys] only. *)
Definition section_of (sc : SsrServerConfig.server_config) : server_section :=
  mkSection Undefined (SsrServerConfig.moduleWhitelist sc) ScriptsAbsent
            (SsrServerConfig.hostWhitelist sc).

(** [writeSsrServerConfigForServer(distPath, ssrConfig)]: the object that
    is stringified and written.  [existing] is what the package file in
    [distPath] held ([None] when it could not be read or parsed, which
    leaves the empty object). *)
Definition writeSsrServerConfigForServer (existing : option package)
           (ssrConfig : option SsrServerConfig.app_config) : package :=
  let configPkg :=
    match existing with
    | Some pkg => pkg
    | None => mkPackage Undefined None
    end in
  match SsrServerConfig.normalizeSsrConfig ssrConfig true with
  | Some config =>
      mkPackage
        (if truthy (SsrServerConfig.name config)
         then SsrServerConfig.name config
         else name configPkg)
        match SsrServerConfig.ssrServer config with
        | Some sc => Some (section_of sc)
        | None => ssrServer configPkg
        end
  | None => configPkg
  end.

(** What [updateConfig] of the plugin writes for the application's
    configuration. *)
Definition updateConfig (existing : option package)
           (appConfig : SsrServerConfig.app_config) : package :=
  writeSsrServerConfigForServer
    existing (SsrServerConfig.normalizeSsrConfig (Some appConfig) false).

Definition undefined_htmlEntrypoint : error :=
  TypeError "Cannot read properties of undefined (reading 'htmlEntrypoint')".

Definition invalid_path_argument : error :=
  HostError "ERR_INVALID_ARG_TYPE" "The path argument must be of type string.".

(** What [loadConfig] returns; [sandboxRequire] is named by the
    arguments given to [buildWhitelistedRequire]. *)
Record configuration (C H : Type) : Type := mkConfiguration {
  c_scripts : list string;
  c_html : H;
  c_hostWhitelist : option (list entry);
  c_config : C;
  c_appName : value;
  c_sandboxRequire : list string * string
}.
Arguments mkConfiguration {C H} _ _ _ _ _ _.
Arguments c_scripts {C H} _.
Arguments c_html {C H} _.
Arguments c_hostWhitelist {C H} _.
Arguments c_config {C H} _.
Arguments c_appName {C H} _.
Arguments c_sandboxRequire {C H} _.

Section LoadConfig.

(** The configuration object and the document [htmlEntrypoint] returns. *)
Variable C : Type.
Variable H : Type.

(** Node's [path.join] and [path.isAbsolute], [fs.readFileSync] (the
    file's text), [JSON.parse] on it ([None] when it throws), the
    [glob] package, and [htmlEntrypoint(appName, clientPath, htmlPath)]. *)
Variable path_join : string -> string -> string.
Variable path_isAbsolute : string -> bool.
Variable readFileSync : string -> completion error (list Utf16.code_unit).
Variable JSON_parse : list Utf16.code_unit -> option package.
Variable glob_sync : string -> list string.
Variable html_entrypoint : value -> value -> value -> completion error (C * H).

(** [[].concat(scripts || 'app.{mjs,js}')]. *)
Definition script_patterns (s : scripts_value) : list string :=
  match s with
  | ScriptsAbsent => ["app.{mjs,js}"]
  | ScriptsPattern pattern => if truthy (Str pattern) then [pattern] else ["app.{mjs,js}"]
  | ScriptsArray patterns => patterns
  end.

(** [loadConfig(ssrPaths)]. *)
Definition loadConfig (ssrPaths : SsrPaths.t) : completion error (configuration C H) :=
  match SsrPaths.ssrPath ssrPaths with
  | Str ssrPath =>
      let pkgPath := path_join ssrPath "package.json" in
      match readFileSync pkgPath with
      | Throw _ =>
          Throw (Error_ ("Couldn't find " ++ pkgPath
                         ++ ". You may need to update your version of vite-ember-ssr-server."))
      | Return file =>
          match JSON_parse file with
          | None =>
              Throw (Error_ (pkgPath
                             ++ " was malformed or did not contain a ssrServer config. Ensure that you have a compatible version of vite-ember-ssr-server."))
          | Some pkg =>
              let appName := name pkg in
              match ssrServer pkg with
              | None => Throw undefined_htmlEntrypoint
              | Some section =>
                  match html_entrypoint appName (SsrPaths.clientPath ssrPaths)
                                        (or (htmlEntrypoint section) (Str "index.html"))
                  with
                  | Throw e => Throw e
                  | Return (config, html) =>
                      let whitelist :=
                        match moduleWhitelist section with
                        | Some l => l
                        | None => []
                        end in
                      let scripts :=
                        flat_map
                          (fun script =>
                             glob_sync (if path_isAbsolute script then script
                                        else path_join ssrPath script))
                          (script_patterns (scripts section)) in
                      Return (mkConfiguration scripts html (hostWhitelist section)
                                              config appName (whitelist, ssrPath))
                  end
              end
          end
      end
  | _ => Throw invalid_path_argument
  end.

End LoadConfig.

End PackageFile.

(** ** src/html-entrypoint.js *)

Module HtmlEntrypoint.
Import Js Effects.

(** [s.endsWith(suffix)] and [s.slice(0, -n)]. *)
Definition endsWith (s suffix : string) : bool :=
  (String.length suffix <=? String.length s)%nat
  && (substring (String.length s - String.length suffix) (String.length suffix) s
      =? suffix).

Definition slice_end (s : string) (n : nat) : string :=
  substring 0 (String.length s - n) s.

(** An object as its own properties, in the order they were added. *)
Definition object (A : Type) : Type := list (string * A).

Fixpoint get {A} (key : string) (o : object A) : option A :=
  match o with
  | [] => None
  | (k, v) :: rest => if k =? key then Some v else get key rest
  end.

(** [o[key] = v]. *)
Fixpoint set {A} (key : string) (v : A) (o : object A) : object A :=
  match o with
  | [] => [(key, v)]
  | (k, v') :: rest => if k =? key then (k, v) :: rest else (k, v') :: set key v rest
  end.

(** [Object.assign(target, source)] for a source that is an object. *)
Definition assign {A} (target source : object A) : object A :=
  fold_left (fun t kv => set (fst kv) (snd kv) t) source target.

(** What [JSON.parse(decodeURIComponent(content))] gives for a [meta]
    element: the [APP] property, an object when it is there, and the
    other properties. *)
Record environment : Type := mkEnvironment {
  APP : option (object value);
  others : object value
}.

(** A [meta] element: its [name] attribute ([None]: it has none) and
    what decoding and parsing its [content] attribute comes to; a
    content that cannot be decoded or parsed, or that parses to [null]
    so that [APP] cannot be assigned, throws. *)
Record meta : Type := mkMeta {
  name : option string;
  content : completion error environment
}.

(** [content.APP = Object.assign({ autoboot: false }, content.APP)]. *)
Definition with_autoboot (e : environment) : environment :=
  mkEnvironment
    (Some (assign [("autoboot", Bool false)]
                  match APP e with
                  | Some app => app
                  | None => []
                  end))
    (others e).

(** [name && name.endsWith(configName)]. *)
Definition named (m : meta) (configName : string) : bool :=
  match name m with
  | Some n => truthy (Str n) && endsWith n configName
  | None => false
  end.

(** [mergeContent(metaElement, config, configName)]: the configuration
    afterwards and what it returns. *)
Definition mergeContent (m : meta) (config : object environment) (configName : string)
  : completion error (object environment * bool) :=
  if named m configName then
    match content m with
    | Throw e => Throw e
    | Return parsed =>
        Return
          (set (slice_end match name m with Some n => n | None => "" end
                          (String.length configName))
               (with_autoboot parsed) config,
           true)
    end
  else Return (config, false).

Definition ENVIRONMENT : string := "/config/environment".
Definition FASTBOOT_ENVIRONMENT : string := "/config/fastboot-environment".

(** The loop over [document.querySelectorAll('meta')]: the two
    configurations and the elements left in the document. *)
Fixpoint merge_all (metas : list meta) (config fastbootConfig : object environment)
         (kept : list meta)
  : completion error (object environment * object environment * list meta) :=
  match metas with
  | [] => Return (config, fastbootConfig, kept)
  | element :: rest =>
      match mergeContent element config ENVIRONMENT with
      | Throw e => Throw e
      | Return (config', _) =>
          match mergeContent element fastbootConfig FASTBOOT_ENVIRONMENT with
          | Throw e => Throw e
          | Return (fastbootConfig', fastbootMerged) =>
              merge_all rest config' fastbootConfig'
                        (if fastbootMerged then kept else kept ++ [element])%list
          end
      end
  end.

(** [htmlEntrypoint(appName, distPath, htmlPath)], for the [meta]
    elements of the file in document order: [config], and the [meta]
    elements of the document that is returned as [html]. *)
Definition htmlEntrypoint (metas : list meta)
  : completion error (object environment * list meta) :=
  match merge_all metas [] [] [] with
  | Throw e => Throw e
  | Return (config, fastbootConfig, kept) =>
      Return (match fastbootConfig with
              | [] => config
              | _ :: _ => fastbootConfig
              end,
              kept)
  end.

End HtmlEntrypoint.

(** ** Where the entries of a configuration come from *)

Module HtmlEntrypointNotions.
Import Js Effects HtmlEntrypoint.


End HtmlEntrypointNotions.

(** ** What holds of a visit that has returned *)

Module VisitNotions.
Import Visit.

Definition armed (t : timer) : bool :=
  match t with
  | Armed _ => true
  | _ => false
  end.

(** A visit whose promise has settled has no timer running. *)
Definition at_rest (s : state) : Prop :=
  settled s = true -> armed (destroyAppInstanceTimer s) = false.

End VisitNotions.

(** ** Theorems *)

Module JsFacts.
Import Js.

Lemma truthy_or a b : truthy (or a b) = truthy a || truthy b.
Proof. unfold or. destruct (truthy a) eqn:E; simpl; auto. Qed.

End JsFacts.

Module SsrPathsFacts.
Import Js JsFacts SsrPaths.

(** C10: after [setPaths] (and so after construction from an options
    object) [clientPath] is the given clientPath, else distPath, else
    ssrPath; [ssrPath] is the given ssrPath, else distPath, else
    clientPath; [hasPath] holds exactly when one of the three was given;
    and a distPath given alone is both the client and the server path. *)
Theorem setPaths_fallbacks :
  forall o : options,
    let p := setPaths o in
    clientPath p =
      (if truthy (o_clientPath o) then o_clientPath o
       else if truthy (o_distPath o) then o_distPath o
       else o_ssrPath o)
    /\ ssrPath p =
      (if truthy (o_ssrPath o) then o_ssrPath o
       else if truthy (o_distPath o) then o_distPath o
       else o_clientPath o)
    /\ (hasPath p = true <->
        provided (o_distPath o) \/ provided (o_clientPath o)
        \/ provided (o_ssrPath o))
    /\ construct (ArgObject o) = Return p
    /\ (let q := setPaths (mkOptions (o_distPath o) Undefined Undefined) in
        clientPath q = ssrPath q
        /\ clientPath q =
             (if truthy (o_distPath o) then o_distPath o else Undefined)
        /\ hasPath q = truthy (o_distPath o)).
Proof.
  intros [d c s]; cbn -[truthy].
  split; [|split; [|split; [|split; [|split; [|split]]]]].
  - unfold or.
    destruct (truthy c) eqn:Ec; rewrite ?Ec; [reflexivity|].
    destruct (truthy d) eqn:Ed; rewrite ?Ed; reflexivity.
  - unfold or.
    destruct (truthy s) eqn:Es; rewrite ?Es; [reflexivity|].
    destruct (truthy d) eqn:Ed; rewrite ?Ed; reflexivity.
  - unfold provided. rewrite !truthy_or, !orb_true_iff. tauto.
  - reflexivity.
  - unfold or; change (truthy Undefined) with false; cbn iota.
    destruct (truthy d) eqn:Ed; rewrite ?Ed; reflexivity.
  - unfold or; change (truthy Undefined) with false; cbn iota.
    destruct (truthy d) eqn:Ed; rewrite ?Ed; reflexivity.
  - rewrite !truthy_or; cbn -[truthy]. now rewrite !orb_false_r.
Qed.

End SsrPathsFacts.

(** ** The whitelisted require and the import graph *)

Module LoaderFacts.
Import Js Effects Host PackageName SsrSchema EmberAppLoader Demo.

Lemma indexOf_from_spec (xs : list string) (x : string) :
  forall i, (0 <= i)%Z ->
    (indexOf_from i xs x = (-1)%Z /\ ~ In x xs)
    \/ ((i <= indexOf_from i xs x)%Z /\ In x xs).
Proof.
  induction xs as [|y ys IH]; intros i Hi; simpl.
  - left. split; [reflexivity | intros []].
  - destruct (String.eqb_spec y x) as [->|Hne].
    + right. split; [lia | now left].
    + destruct (IH (i + 1)%Z ltac:(lia)) as [[E Hn]|[Hle Hin]].
      * left. split; [exact E | intros [Hy|Hin]; [congruence | auto]].
      * right. split; [lia | now right].
Qed.

Lemma not_whitelisted (whitelist : list string) (x : string) :
  ~ In x whitelist -> (indexOf whitelist x >? -1)%Z = false.
Proof.
  intros Hn. unfold indexOf.
  destruct (indexOf_from_spec whitelist x 0%Z ltac:(lia)) as [[E _]|[_ Hin]].
  - rewrite E. reflexivity.
  - contradiction.
Qed.

Lemma whitelisted (whitelist : list string) (x : string) :
  In x whitelist -> (indexOf whitelist x >? -1)%Z = true.
Proof.
  intros Hin. unfold indexOf.
  destruct (indexOf_from_spec whitelist x 0%Z ltac:(lia)) as [[_ Hn]|[Hle _]].
  - contradiction.
  - apply Z.gtb_lt. lia.
Qed.

Example getPackageName_plain : getPackageName "lodash/fp/map" = "lodash".
Proof. reflexivity. Qed.

Example getPackageName_scoped : getPackageName "@ember/test/x" = "@ember/test".
Proof. reflexivity. Qed.

Example getPackageName_scope_only : getPackageName "@ember" = "@ember/undefined".
Proof. reflexivity. Qed.

(** C1, as amended: the sandbox's [require] refuses every non-relative
    specifier whose package is not on the whitelist with the error that
    names the specifier and the package, and runs no module code. *)
Theorem sandboxRequire_rejects_unlisted :
  forall (H : host) (whitelist : list string) (ssrPath moduleName : string)
         (w : world),
    String.prefix "." moduleName = false ->
    ~ In (getPackageName moduleName) whitelist ->
    sandboxRequire H whitelist ssrPath moduleName w
    = (Thrown (ModuleNotAllowedError moduleName (getPackageName moduleName)), w).
Proof.
  intros H whitelist ssrPath moduleName w _ Hn.
  unfold sandboxRequire. rewrite (not_whitelisted _ _ Hn). reflexivity.
Qed.

Lemma sandboxRequire_rejects_unlisted_witness :
  sandboxRequire demo_host [] "/srv/dist" "left-pad" empty_world
  = (Thrown (ModuleNotAllowedError "left-pad" "left-pad"), empty_world).
Proof.
  apply (sandboxRequire_rejects_unlisted demo_host [] "/srv/dist" "left-pad").
  - reflexivity.
  - simpl. tauto.
Defined.

(** On a whitelisted package the same function does reach the host. *)
Example sandboxRequire_listed :
  sandboxRequire demo_host ["left-pad"] "/srv/dist" "left-pad" empty_world
  = (Done "left-pad exports", mkWorld ["left-pad"] []).
Proof. reflexivity. Qed.

(** C1, counterexample: with an empty whitelist the specifier [left-pad]
    is not relative and its package is not whitelisted, yet linking it
    from the entry script raises nothing and runs the package's code. *)
Lemma import_graph_skips_whitelist :
  String.prefix "." "left-pad" = false
  /\ ~ In (getPackageName "left-pad") []
  /\ link demo_host "/srv/dist/app.js" 1 "left-pad" (Some "/srv/dist/app.js")
       empty_world
     = (Done tt, mkWorld ["/srv/node_modules/left-pad/index.js"] [])
  /\ fst (link demo_host "/srv/dist/app.js" 1 "left-pad"
            (Some "/srv/dist/app.js") empty_world)
     <> Thrown (ModuleNotAllowedError "left-pad" (getPackageName "left-pad")).
Proof.
  split; [reflexivity|]. split; [simpl; tauto|].
  split; [reflexivity|]. vm_compute. discriminate.
Qed.

(** The same through a whole sandbox build: the entry script's imports
    are evaluated before it, whitelist or not. *)
Example buildApp_evaluates_imports :
  buildApp demo_host 2 ["/srv/dist/app.js"] empty_world
  = (Done (Some (mkAppContext "app")),
     mkWorld ["/srv/dist/routes/index.js";
              "/srv/node_modules/left-pad/index.js";
              "/srv/dist/app.js"] []).
Proof. reflexivity. Qed.

(** [resolveImport] never consults a whitelist: a bare specifier is the
    host's resolution, whatever it is. *)
Lemma resolveImport_bare (H : host) (specifier importerPath : string) :
  String.prefix "." specifier = false ->
  resolveImport H specifier importerPath = require_resolve H specifier.
Proof. intros E. unfold resolveImport. rewrite E. reflexivity. Qed.

End LoaderFacts.

(** ** Relative imports *)

Module ResolveFacts.
Import Js Effects Host EmberAppLoader Demo Notions.

Lemma findPath_find (H : host) (resolvedPath : string) (todo : list attempt) :
  findPath H resolvedPath todo
  = find (stat_isFile H) (map (attemptPath H resolvedPath) todo).
Proof.
  induction todo as [|a rest IH]; simpl; [reflexivity|].
  destruct (stat_isFile H (attemptPath H resolvedPath a)); [reflexivity | exact IH].
Qed.

Lemma file_is_truthy (H : host) (p : string) :
  stat_isFile H "" = false -> stat_isFile H p = true -> truthy (Str p) = true.
Proof.
  intros Hempty Hp. simpl. destruct (String.eqb_spec p ""); [|reflexivity].
  subst. congruence.
Qed.

(** C9: a relative specifier is resolved against the importing script's
    directory by trying the exact path, the path's [index.js], the path
    with [.mjs] and the path with [.js], in that order; the first that is
    a regular file is the result, and when none is the specifier goes to
    the host's own resolution. *)
Theorem resolveImport_relative_order :
  forall (H : host) (specifier importerPath : string),
    stat_isFile H "" = false ->
    String.prefix "." specifier = true ->
    resolveImport H specifier importerPath
    = match find (stat_isFile H) (candidates H specifier importerPath) with
      | Some foundPath => Return foundPath
      | None => require_resolve H specifier
      end.
Proof.
  intros H specifier importerPath Hempty Hrel.
  unfold resolveImport. rewrite Hrel. cbn [negb].
  rewrite findPath_find.
  change (map _ attempts) with (candidates H specifier importerPath).
  destruct (find _ _) as [foundPath|] eqn:Hfind; [|reflexivity].
  apply find_some in Hfind. destruct Hfind as [_ Hfile].
  now rewrite (file_is_truthy H foundPath Hempty Hfile).
Qed.

Lemma resolveImport_relative_order_witness :
  resolveImport demo_host "./routes" "/srv/dist/app.js"
  = match find (stat_isFile demo_host)
               (candidates demo_host "./routes" "/srv/dist/app.js") with
    | Some foundPath => Return foundPath
    | None => require_resolve demo_host "./routes"
    end.
Proof.
  apply (resolveImport_relative_order demo_host "./routes" "/srv/dist/app.js");
    reflexivity.
Defined.

(** The order at work: [./routes] is a directory, so its [index.js] wins;
    [./util] exists only with the first extension; [./gone] is nowhere
    and ends in the host's resolution, which fails here. *)
Example resolve_index :
  resolveImport demo_host "./routes" "/srv/dist/app.js"
  = Return "/srv/dist/routes/index.js".
Proof. reflexivity. Qed.

Example resolve_mjs :
  resolveImport demo_host "./util" "/srv/dist/app.js" = Return "/srv/dist/util.mjs".
Proof. reflexivity. Qed.

Example resolve_fallback :
  resolveImport demo_host "./gone" "/srv/dist/app.js" = Throw (not_found "./gone").
Proof. reflexivity. Qed.

End ResolveFacts.

(** ** The sandbox build without an application factory *)

Module BuildFacts.
Import Js Effects Host EmberAppLoader Demo.

(** C4, on the code: the artifact whose only script [a.js] evaluates and
    exports no [createSsrApp] makes [buildApp] write a line to the
    console and resolve with [null]; nothing is thrown. *)
Theorem buildApp_missing_factory_returns_null :
  buildApp demo_host 1 ["/srv/dist/a.js"] empty_world
  = (Done None, mkWorld ["/srv/dist/a.js"] [factory_missing_line]).
Proof. reflexivity. Qed.

(** The same for every artifact: once the scripts have all evaluated
    and the export found is not a function, the build ends in [null]. *)
Lemma buildApp_without_factory (H : host) (fuel : nat) (scripts : list string)
      (w w' : world) (found : export) :
  evaluateScripts H fuel scripts ExportMissing w = (Done (inl found), w') ->
  (forall a, found <> ExportFunction a) ->
  buildApp H fuel scripts w
  = (Done None, mkWorld (loaded w') (console w' ++ [factory_missing_line])).
Proof.
  intros Hev Hnf. unfold buildApp, bind. rewrite Hev.
  destruct found; try reflexivity.
  exfalso. now apply (Hnf app0).
Qed.

(** A script that throws while it evaluates ends the build in [null] as
    well, after the line written by the [catch] block. *)
Lemma buildApp_returns_null_on_exception :
  buildApp
    (mkHost (path_dirname demo_host) (path_resolve demo_host)
            (path_normalize demo_host) (stat_isFile demo_host)
            (require_resolve demo_host) (resolve_sync demo_host)
            (host_require demo_host) (read_module demo_host)
            (fun _ => Throw (Error_ "boom")))
    1 ["/srv/dist/a.js"] empty_world
  = (Done None, mkWorld ["/srv/dist/a.js"] ["ssr exception"]).
Proof. reflexivity. Qed.

End BuildFacts.

(** ** The visit machine *)

Module VisitFacts.
Import Js Effects Host EmberAppLoader Demo Visit Notions Samples.

Example good_builder_entry : good_builder tt = Done (Some (mkAppContext "app")).
Proof. reflexivity. Qed.

Example null_builder_entry : null_builder tt = Done None.
Proof. reflexivity. Qed.

Example failing_builder_entry :
  failing_builder tt = Thrown (no_entry "/srv/dist/missing.js").
Proof. reflexivity. Qed.

(** The timer's callback never resumes the function: it leaves the phase
    and the pool as they are. *)
Lemma timer_leaves_phase (builderFn : unit -> entry) (p : pool) (s : state) :
  step builderFn p s TimerFires
  = (p, snd (step builderFn p s TimerFires))
  /\ at_ (snd (step builderFn p s TimerFires)) = at_ s.
Proof.
  unfold step. destruct (destroyAppInstanceTimer s); simpl; auto.
Qed.

Lemma timers_leave_phase (builderFn : unit -> entry) (n : nat) :
  forall (p : pool) (s : state),
    fst (run builderFn p s (repeat TimerFires n)) = p
    /\ at_ (snd (run builderFn p s (repeat TimerFires n))) = at_ s.
Proof.
  induction n as [|n IH]; intros p s; cbn [repeat run]; [auto|].
  destruct (timer_leaves_phase builderFn p s) as [E Hat].
  destruct (step builderFn p s TimerFires) as [p' s'] eqn:Es.
  cbn [snd] in E, Hat. injection E as ->.
  destruct (IH p s') as [Hp Hph].
  split; [exact Hp | now rewrite Hph].
Qed.

(** Once the timer has fired it does nothing more. *)
Lemma timer_fires_once (builderFn : unit -> entry) (p : pool) (s : state) :
  destroyAppInstanceTimer s <> NoTimer ->
  (forall ms, destroyAppInstanceTimer s <> Armed ms) ->
  step builderFn p s TimerFires = (p, s).
Proof.
  intros _ Hna. unfold step.
  destruct (destroyAppInstanceTimer s) eqn:E; try reflexivity.
  exfalso. now apply (Hna ms).
Qed.

Lemma timers_after_fired (builderFn : unit -> entry) (n : nat) (p : pool) (s : state) :
  destroyAppInstanceTimer s = Fired ->
  run builderFn p s (repeat TimerFires n) = (p, s).
Proof.
  intros E. induction n as [|n IH]; cbn [repeat run]; [reflexivity|].
  unfold step at 1. rewrite E. exact IH.
Qed.

(** A timer that fires while [visit] waits for the deferred promise
    destroys the instance and stores its error, and leaves [visit]
    waiting: only the deferred promise can resume it. *)
Lemma forced_destroy_does_not_resume (builderFn : unit -> entry) (p : pool)
      (s : state) (r : VisitResult.t) (ms : Z) (n : nat) :
  at_ s = AwaitDeferred ->
  destroyAppInstanceTimer s = Armed ms ->
  result s = Some r ->
  VisitResult.isDestroyed r = false ->
  let ps := run builderFn p s (TimerFires :: repeat TimerFires n) in
  fst ps = p
  /\ at_ (snd ps) = AwaitDeferred
  /\ option_map VisitResult.error (result (snd ps))
     = Some (Some (ForcedDestructionError ms))
  /\ option_map VisitResult.teardowns (result (snd ps))
     = Some (S (VisitResult.teardowns r)).
Proof.
  intros Hat Ht Hr Hd.
  assert (E : run builderFn p s (TimerFires :: repeat TimerFires n)
              = (p, timer_callback ms s)).
  { cbn [run]. unfold step. rewrite Ht. now apply timers_after_fired. }
  cbv zeta. rewrite E. cbn [fst snd].
  unfold timer_callback, VisitResult._destroy. rewrite Hr, Hat. cbn [option_map].
  rewrite Hd. cbn. auto.
Qed.

(** C2, on the code: with [destroyAppInstanceInMs = 50] and a deferred
    promise that never settles, the timer's callback destroys the
    instance and stores the forced-destruction error in the result, but
    [visit] stays suspended at [await fastbootInfo.deferredPromise]: its
    promise is still pending however long one waits, and no replacement
    sandbox is scheduled. *)
Theorem visit_pending_after_forced_destroy :
  forall n : nat,
    let pool0 := Queue.buildSandboxQueue good_builder 1 in
    let '(p1, s1) := start good_builder req50 pool0 in
    let '(p2, s2) :=
      run good_builder p1 s1 (up_to_deferred ++ TimerFires :: repeat TimerFires n) in
    at_ s2 = AwaitDeferred
    /\ option_map VisitResult.error (result s2)
       = Some (Some (ForcedDestructionError 50))
    /\ option_map VisitResult.isDestroyed (result s2) = Some true
    /\ EmberSsr.visit (EmberSsr.construct (EmberSsr.mkOptions None))
                      (EmberSsr.mkOptions None) s2 = EmberSsr.Pending
    /\ Queue.items p2 = [].
Proof.
  intros n. cbv zeta.
  change (start good_builder req50 (Queue.buildSandboxQueue good_builder 1))
    with (Queue.mkQueue (@nil entry) 1,
          mkState AwaitAppBoot (Some (VisitResult.create true)) (Armed 50) req50).
  cbv iota beta.
  change (run good_builder (Queue.mkQueue [] 1)
            (mkState AwaitAppBoot (Some (VisitResult.create true)) (Armed 50) req50)
            (up_to_deferred ++ TimerFires :: repeat TimerFires n))
    with (run good_builder (Queue.mkQueue [] 1)
            (mkState AwaitDeferred
               (Some (VisitResult.mkResult (Some (ForcedDestructionError 50))
                        true false true 1))
               Fired req50)
            (repeat TimerFires n)).
  rewrite timers_after_fired by reflexivity.
  repeat split; reflexivity.
Qed.

(** The other half of C2 holds: a visit that completes on its own clears
    the timer, and a timer that is cleared changes nothing when its time
    comes; the result carries no error. *)
Lemma natural_completion_cancels_timer :
  let pool0 := Queue.buildSandboxQueue good_builder 1 in
  let '(p1, s1) := start good_builder req50 pool0 in
  let '(p2, s2) := run good_builder p1 s1 (up_to_deferred ++ [Fulfils]) in
  at_ s2 = Resolved
  /\ destroyAppInstanceTimer s2 = Cleared
  /\ option_map VisitResult.error (result s2) = Some None
  /\ step good_builder p2 s2 TimerFires = (p2, s2)
  /\ List.length (Queue.items p2) = 1.
Proof. vm_compute. repeat split; reflexivity. Qed.

(** A timer that fires first and a visit that completes later: the
    instance is torn down once, and the result keeps the forced error. *)
Lemma late_completion_keeps_forced_error :
  let pool0 := Queue.buildSandboxQueue good_builder 1 in
  let '(p1, s1) := start good_builder req50 pool0 in
  let '(p2, s2) :=
    run good_builder p1 s1 (up_to_deferred ++ [TimerFires; Fulfils]) in
  at_ s2 = Resolved
  /\ option_map VisitResult.error (result s2)
     = Some (Some (ForcedDestructionError 50))
  /\ option_map VisitResult.teardowns (result s2) = Some 1.
Proof. vm_compute. repeat split; reflexivity. Qed.

End VisitFacts.

(** ** Resilience *)

Module ResilienceFacts.
Import Js Effects EmberAppLoader Visit Notions Samples VisitFacts.

(** An error at any [await] of the boot and render phase is caught:
    [visit] of the application resolves, with the error in the result. *)
Lemma rejection_is_attached (builderFn : unit -> entry) (p : pool) (s : state)
      (r : VisitResult.t) (e : error) :
  in_flight s = true ->
  result s = Some r ->
  exists r',
    snd (step builderFn p s (Rejects e))
    = mkState Resolved (Some r') (clearTimeout (destroyAppInstanceTimer s)) (opts s)
    /\ VisitResult.error r' = Some e
    /\ VisitResult.finalized r' = true
    /\ VisitResult.isDestroyed r' = true.
Proof.
  intros Hfl Hr.
  assert (Hstep : step builderFn p s (Rejects e) = finally builderFn p (catch e s)).
  { unfold in_flight in Hfl. unfold step.
    destruct (at_ s); try discriminate Hfl; reflexivity. }
  rewrite Hstep. unfold finally, catch; cbn. rewrite Hr. cbn.
  eexists. split; [reflexivity|].
  unfold VisitResult._destroy, VisitResult._finalize, VisitResult.set_error; cbn.
  destruct (VisitResult.isDestroyed r); cbn; auto.
Qed.

(** C3, counterexample: an [EmberSsr] made without any [resilient]
    setting, visited without one; the application's boot rejects, and
    the promise of [EmberSsr.visit] is rejected with that error. *)
Lemma default_visit_rethrows :
  let ssr := EmberSsr.construct (EmberSsr.mkOptions None) in
  let '(p1, s1) := start good_builder plain (Queue.buildSandboxQueue good_builder 1) in
  let '(p2, s2) := step good_builder p1 s1 (Rejects (Error_ "boot failed")) in
  at_ s2 = Resolved
  /\ option_map VisitResult.error (result s2) = Some (Some (Error_ "boot failed"))
  /\ EmberSsr.visit ssr (EmberSsr.mkOptions None) s2
     = EmberSsr.RejectedWith (Error_ "boot failed")
  /\ (forall r, EmberSsr.visit ssr (EmberSsr.mkOptions None) s2
                <> EmberSsr.Fulfilled r).
Proof.
  vm_compute. repeat split; try reflexivity. intros r; discriminate.
Qed.

(** C3, as amended: an error raised at any [await] of the boot and
    render phase is attached to the result and the application's [visit]
    resolves; [EmberSsr.visit] then re-raises it when no [resilient]
    setting was given at all and when the setting in force is falsy,
    and returns the result with the error attached when the setting in
    force is truthy, where a [resilient] property of the visit's options
    is in force before the constructor's. *)
Theorem resilient_only_when_configured :
  forall (builderFn : unit -> entry) (p : pool) (s : state) (r : VisitResult.t)
         (e : error),
    in_flight s = true ->
    result s = Some r ->
    let s' := snd (step builderFn p s (Rejects e)) in
    at_ s' = Resolved
    /\ (exists r', result s' = Some r' /\ VisitResult.error r' = Some e)
    /\ EmberSsr.visit (EmberSsr.construct (EmberSsr.mkOptions None))
                      (EmberSsr.mkOptions None) s'
       = EmberSsr.RejectedWith e
    /\ (forall c v : value,
          EmberSsr.visit (EmberSsr.construct (EmberSsr.mkOptions (Some c)))
                         (EmberSsr.mkOptions None) s'
          = (if truthy c then EmberSsr.Fulfilled (result s')
             else EmberSsr.RejectedWith e)
          /\ EmberSsr.visit (EmberSsr.construct (EmberSsr.mkOptions None))
                            (EmberSsr.mkOptions (Some v)) s'
             = (if truthy v then EmberSsr.Fulfilled (result s')
                else EmberSsr.RejectedWith e)
          /\ EmberSsr.visit (EmberSsr.construct (EmberSsr.mkOptions (Some c)))
                            (EmberSsr.mkOptions (Some v)) s'
             = (if truthy v then EmberSsr.Fulfilled (result s')
                else EmberSsr.RejectedWith e)).
Proof.
  intros builderFn p s r e Hfl Hr s'.
  destruct (rejection_is_attached builderFn p s r e Hfl Hr)
    as (r' & Hs' & Herr & _ & _).
  subst s'. rewrite Hs'. cbn [at_ result].
  split; [reflexivity|]. split; [now exists r'|].
  unfold EmberSsr.visit, EmberSsr.construct, Js.not; cbn -[truthy].
  rewrite Herr. split; [reflexivity|].
  intros c v. repeat split.
  - cbn. destruct (truthy c); reflexivity.
  - destruct (truthy v); reflexivity.
  - destruct (truthy v); reflexivity.
Qed.

Lemma resilient_only_when_configured_witness :
  let s0 := snd (start good_builder plain (Queue.buildSandboxQueue good_builder 1)) in
  let s' := snd (step good_builder (Queue.create 1) s0 (Rejects (Error_ "boot failed"))) in
  EmberSsr.visit (EmberSsr.construct (EmberSsr.mkOptions None))
                 (EmberSsr.mkOptions None) s'
  = EmberSsr.RejectedWith (Error_ "boot failed").
Proof.
  cbv zeta.
  refine (proj1 (proj2 (proj2
    (resilient_only_when_configured good_builder (Queue.create 1)
       (snd (start good_builder plain (Queue.buildSandboxQueue good_builder 1)))
       (VisitResult.create true) (Error_ "boot failed") _ _)))).
  - reflexivity.
  - reflexivity.
Defined.

End ResilienceFacts.

(** ** The pool under visits *)

Module PoolFacts.
Import Js Effects EmberAppLoader Demo Visit Notions Samples VisitFacts ResilienceFacts.

Lemma enqueue_maxSize {A} (b : unit -> A) (q : Queue.t A) :
  Queue.maxSize (Queue.enqueue b q) = Queue.maxSize q.
Proof. unfold Queue.enqueue. destruct (_ <? _)%nat; reflexivity. Qed.

Lemma enqueue_length_room {A} (b : unit -> A) (q : Queue.t A) :
  List.length (Queue.items q) < Queue.maxSize q ->
  List.length (Queue.items (Queue.enqueue b q)) = S (List.length (Queue.items q)).
Proof.
  intros Hlt. unfold Queue.enqueue.
  destruct (Nat.ltb_spec (List.length (Queue.items q)) (Queue.maxSize q)); [|lia].
  cbn. rewrite length_app. cbn. lia.
Qed.

Lemma enqueue_length_full {A} (b : unit -> A) (q : Queue.t A) :
  Queue.maxSize q <= List.length (Queue.items q) ->
  Queue.enqueue b q = q.
Proof.
  intros Hle. unfold Queue.enqueue.
  destruct (Nat.ltb_spec (List.length (Queue.items q)) (Queue.maxSize q)); [lia|].
  reflexivity.
Qed.

(** [buildSandboxQueue(k)] leaves exactly [k] pending entries. *)
Lemma enqueue_times_length {A} (b : unit -> A) (n : nat) :
  forall q : Queue.t A,
    List.length (Queue.items q) + n <= Queue.maxSize q ->
    List.length (Queue.items (Queue.enqueue_times b n q))
    = List.length (Queue.items q) + n
    /\ Queue.maxSize (Queue.enqueue_times b n q) = Queue.maxSize q.
Proof.
  induction n as [|n IH]; intros q Hle; cbn [Queue.enqueue_times].
  - split; [lia | reflexivity].
  - destruct (IH (Queue.enqueue b q)) as [Hl Hm].
    + rewrite enqueue_maxSize, enqueue_length_room by lia. lia.
    + rewrite Hl, Hm, enqueue_maxSize, enqueue_length_room by lia.
      split; [lia | reflexivity].
Qed.

Lemma buildSandboxQueue_length {A} (b : unit -> A) (k : nat) :
  List.length (Queue.items (Queue.buildSandboxQueue b k)) = k
  /\ Queue.maxSize (Queue.buildSandboxQueue b k) = k.
Proof.
  unfold Queue.buildSandboxQueue.
  destruct (enqueue_times_length b k (Queue.create k)) as [Hl Hm]; cbn; [lia|].
  rewrite Hl, Hm. cbn. split; reflexivity.
Qed.







(** The same happens to the entry that is [null]: the visit is rejected
    when it destructures it, and the pool is not refilled. *)
Lemma null_sandbox_drains_pool :
  let pool0 := Queue.buildSandboxQueue null_builder 1 in
  let '(p1, s1) := start null_builder plain pool0 in
  at_ s1 = Rejected null_destructure
  /\ (forall evs, fst (run null_builder p1 s1 evs) = p1)
  /\ List.length (Queue.items p1) = 0.
Proof.
  cbv zeta.
  change (start null_builder plain (Queue.buildSandboxQueue null_builder 1))
    with (Queue.mkQueue (@nil entry) 1,
          mkState (Rejected null_destructure) None NoTimer plain).
  cbv iota beta.
  split; [reflexivity|]. split; [|reflexivity].
  induction evs as [|ev evs IH]; cbn [run]; [reflexivity|].
  assert (E : step null_builder (Queue.mkQueue [] 1)
                (mkState (Rejected null_destructure) None NoTimer plain) ev
              = (Queue.mkQueue [] 1,
                 mkState (Rejected null_destructure) None NoTimer plain)).
  { destruct ev; reflexivity. }
  rewrite E. exact IH.
Qed.



End PoolFacts.

(** ** Worker exits *)

Module SupervisorFacts.
Import Js Supervisor Samples.

Example two_workers_ui :
  ui two_workers
  = ["forked worker 4001"; "worker online"; "forked worker 4002"; "worker online"].
Proof. reflexivity. Qed.

Example exit_line_signal :
  exit_line None (Some "SIGKILL") = "worker was killed by signal: SIGKILL".
Proof. reflexivity. Qed.

Example exit_line_code :
  exit_line (Some 3%Z) None = "worker exited with error code: 3".
Proof. reflexivity. Qed.

Example exit_line_clean : exit_line (Some 0%Z) None = "worker exited".
Proof. reflexivity. Qed.

Lemma forkWorker_spec (pid_of : nat -> nat) (s : t) :
  forkWorker pid_of s
  = mkSupervisor (ssrPaths s)
      (workers s ++ [mkWorker (S (forked s)) (pid_of (S (forked s))) (buildWorkerEnv s)])
      (S (forked s))
      ((ui s ++ ["forked worker " ++ string_of_nat (pid_of (S (forked s)))])
         ++ ["worker online"])
      (sent s).
Proof. reflexivity. Qed.

(** C7, counterexample: [stop()] broadcasts [shutdown] to both workers;
    worker 1 handles it by exiting with code 0, and the supervisor
    replaces it with worker 3 all the same. *)
Lemma shutdown_does_not_stop_respawn :
  let s1 := stop two_workers in
  let s2 := on_exit os_pid 1 (handleMessage Shutdown) None s1 in
  sent s1 = [(1, Shutdown); (2, Shutdown)]
  /\ map id (workers s1) = [1; 2]
  /\ map id (workers s2) = [2; 3]
  /\ ui s2 = (ui s1 ++ ["worker exited"; "forked worker 4003"; "worker online"])%list.
Proof. vm_compute. repeat split; reflexivity. Qed.

(** After [stop()] and the exit of every worker the cluster is as large
    as before. *)
Example stop_keeps_cluster_size :
  map id (workers (stop_and_settle os_pid two_workers)) = [3; 4].
Proof. reflexivity. Qed.

(** C7, as amended: on every exit of a worker the supervisor writes the
    line for its cause (the signal when there is one, else the exit code
    when it is not 0, else a plain exit) and forks one replacement, in
    every state of the supervisor, also one in which [shutdown] has
    been broadcast. *)
Theorem exit_always_respawns :
  forall (pid_of : nat -> nat) (s : t) (i : nat) (code : option Z)
         (signal : option string),
    let replacement :=
      mkWorker (S (forked s)) (pid_of (S (forked s))) (buildWorkerEnv s) in
    let respawned (s0 : t) :=
      workers (on_exit pid_of i code signal s0)
      = (remove_worker i (workers s) ++ [replacement])%list
      /\ ui (on_exit pid_of i code signal s0)
         = (ui s ++ [ exit_line code signal;
                      ("forked worker " ++ string_of_nat (pid replacement))%string;
                      "worker online" ])%list
      /\ forked (on_exit pid_of i code signal s0) = S (forked s) in
    respawned s
    /\ respawned (stop s)
    /\ (forall (c : ascii) (name : string),
           exit_line code (Some (String c name))
           = "worker was killed by signal: " ++ String c name)
    /\ (forall c : Z,
           exit_line (Some c) None
           = if (c =? 0)%Z then "worker exited"
             else "worker exited with error code: " ++ string_of_Z c)
    /\ exit_line None None = "worker exited with error code: null".
Proof.
  intros pid_of s i code signal replacement respawned.
  subst respawned replacement. cbv beta.
  unfold on_exit, stop, broadcast. rewrite !forkWorker_spec.
  cbn [workers ui forked ssrPaths sent writeLine buildWorkerEnv pid].
  unfold writeLine, buildWorkerEnv.
  cbn [workers ui forked ssrPaths sent].
  rewrite <- !app_assoc. cbn [app].
  repeat split.
  intros c. destruct c; reflexivity.
Qed.

End SupervisorFacts.

(** ** Serialized regular expressions *)

Module RegExpFacts.
Import Utf16 RegExpCodec.

Lemma eqb_eq (a b : code_unit) : eqb a b = true <-> a = b.
Proof. apply N.eqb_eq. Qed.

Lemma eqb_refl (a : code_unit) : eqb a a = true.
Proof. apply N.eqb_refl. Qed.

Lemma class_not_1_forallb (s : text) :
  ~ In SOH s -> forallb class_not_1 s = true.
Proof.
  intros Hn. apply forallb_forall. intros c Hc.
  unfold class_not_1. destruct (eqb c SOH) eqn:E; [|reflexivity].
  apply eqb_eq in E. subst. contradiction.
Qed.

(** One unfolding of the matcher. *)
Lemma after_delimiter_eq (d : code_unit) (taken : text) (rounds : bool) (s : text) :
  after_delimiter d taken rounds s
  = match
      match s with
      | b :: e :: rest =>
          if eqb b BACKSLASH && eqb e d
          then after_delimiter d (e :: b :: taken) true rest
          else None
      | _ => None
      end
    with
    | Some m => Some m
    | None =>
        match
          match s with
          | c :: rest =>
              if class_not_1 c then after_delimiter d (c :: taken) true rest
              else None
          | [] => None
          end
        with
        | Some m => Some m
        | None =>
            if rounds then
              match s with
              | e :: rest =>
                  if eqb e d && forallb class_not_1 rest
                  then Some (rev taken, rest)
                  else None
              | [] => None
              end
            else None
        end
    end.
Proof. destruct s as [|b [|e rest]]; reflexivity. Qed.

(** Whatever the matcher returns is a way to cut the input at an
    occurrence of the delimiter. *)
Lemma after_delimiter_sound (d : code_unit) :
  forall (n : nat) (s taken : text) (rounds : bool) (g2 g3 : text),
    List.length s <= n ->
    after_delimiter d taken rounds s = Some (g2, g3) ->
    exists prefix,
      s = (prefix ++ d :: g3)%list
      /\ g2 = (rev taken ++ prefix)%list
      /\ forallb class_not_1 g3 = true.
Proof.
  induction n as [|n IH]; intros s taken rounds g2 g3 Hlen Hm;
    rewrite after_delimiter_eq in Hm.
  - destruct s; [|cbn in Hlen; lia]. destruct rounds; discriminate Hm.
  - destruct s as [|b s1]; [destruct rounds; discriminate Hm|].
    cbn [List.length] in Hlen.
    assert (Hrest :
              match
                (if class_not_1 b
                 then after_delimiter d (b :: taken) true s1 else None)
              with
              | Some m => Some m
              | None =>
                  if rounds
                  then if eqb b d && forallb class_not_1 s1
                       then Some (rev taken, s1) else None
                  else None
              end = Some (g2, g3) ->
              exists prefix,
                b :: s1 = (prefix ++ d :: g3)%list
                /\ g2 = (rev taken ++ prefix)%list
                /\ forallb class_not_1 g3 = true).
    { intros Hm1.
      assert (Hstop :
                (if rounds
                 then if eqb b d && forallb class_not_1 s1
                      then Some (rev taken, s1) else None
                 else None) = Some (g2, g3) ->
                exists prefix,
                  b :: s1 = (prefix ++ d :: g3)%list
                  /\ g2 = (rev taken ++ prefix)%list
                  /\ forallb class_not_1 g3 = true).
      { intros Hs. destruct rounds; [|discriminate Hs].
        destruct (eqb b d && forallb class_not_1 s1) eqn:Hc; [|discriminate Hs].
        injection Hs as <- <-. apply andb_true_iff in Hc. destruct Hc as [Hd Hc].
        apply eqb_eq in Hd. subst b.
        exists []. cbn. rewrite app_nil_r. repeat split; auto. }
      destruct (class_not_1 b); [|now apply Hstop].
      destruct (after_delimiter d (b :: taken) true s1) as [m|] eqn:H2;
        [|now apply Hstop].
      injection Hm1 as ->.
      destruct (IH s1 (b :: taken) true g2 g3 ltac:(lia) H2)
        as (prefix & -> & -> & Hg3).
      exists (b :: prefix). cbn [rev]. rewrite <- !app_assoc. cbn.
      repeat split; auto. }
    destruct s1 as [|e rest]; [now apply Hrest|].
    destruct (eqb b BACKSLASH && eqb e d) eqn:Hbe; [|now apply Hrest].
    destruct (after_delimiter d (e :: b :: taken) true rest) as [m|] eqn:H1;
      [|now apply Hrest].
    injection Hm as ->.
    apply andb_true_iff in Hbe. destruct Hbe as [_ He].
    cbn [List.length] in Hlen.
    destruct (IH rest (e :: b :: taken) true g2 g3 ltac:(lia) H1)
      as (prefix & -> & -> & Hg3).
    exists (b :: e :: prefix). cbn [rev]. rewrite <- !app_assoc. cbn.
    repeat split; auto.
Qed.

(** When the input can be cut into a non-empty group 2 of units of the
    class, the delimiter, and a group 3 of units of the class, the
    matcher finds a match. *)
Lemma after_delimiter_complete (d : code_unit) (g3 : text) :
  forallb class_not_1 g3 = true ->
  forall (prefix taken : text) (rounds : bool),
    forallb class_not_1 prefix = true ->
    rounds = true \/ prefix <> [] ->
    after_delimiter d taken rounds (prefix ++ d :: g3)%list <> None.
Proof.
  intros Hg3. induction prefix as [|c prefix IH]; intros taken rounds Hp Hr;
    rewrite after_delimiter_eq; cbn [app].
  - destruct Hr as [->|Hne]; [|congruence].
    destruct (match g3 with
              | [] => None
              | e :: rest =>
                  if eqb d BACKSLASH && eqb e d
                  then after_delimiter d (e :: d :: taken) true rest
                  else None
              end); [discriminate|].
    destruct (if class_not_1 d then after_delimiter d (d :: taken) true g3
              else None); [discriminate|].
    rewrite eqb_refl, Hg3. discriminate.
  - cbn [forallb] in Hp. apply andb_true_iff in Hp. destruct Hp as [Hc Hp].
    destruct (match (prefix ++ d :: g3)%list with
              | [] => None
              | e :: rest =>
                  if eqb c BACKSLASH && eqb e d
                  then after_delimiter d (e :: c :: taken) true rest
                  else None
              end); [discriminate|].
    rewrite Hc.
    specialize (IH (c :: taken) true Hp (or_introl eq_refl)).
    destruct (after_delimiter d (c :: taken) true (prefix ++ d :: g3)%list);
      [discriminate | congruence].
Qed.

(** A text with one occurrence of [d] is cut at it in one way only. *)
Lemma cut_unique (d : code_unit) :
  forall (a a' b b' : text),
    ~ In d a -> ~ In d b ->
    (a ++ d :: b = a' ++ d :: b')%list ->
    a' = a /\ b' = b.
Proof.
  induction a as [|x a IH]; intros a' b b' Ha Hb E.
  - destruct a' as [|y a']; cbn in E.
    + injection E as ->. auto.
    + injection E as <- ->. exfalso. apply Hb. apply in_or_app. right. now left.
  - destruct a' as [|y a']; cbn in E.
    + injection E as -> _. exfalso. apply Ha. now left.
    + injection E as <- E.
      destruct (IH a' b b' (fun H => Ha (or_intror H)) Hb E) as [-> ->]. auto.
Qed.

Lemma matchRegex_serialized (src fl : text) :
  matchRegex (lit "regexp:/" ++ src ++ lit "/" ++ fl)%list
  = after_delimiter SLASH [] false (src ++ SLASH :: fl)%list.
Proof. reflexivity. Qed.

(** The round trip as far as the code makes it: a regular expression
    whose source and flags hold neither the delimiter nor U+0001 comes
    back with its source and flags, and so tests every host alike. *)
Lemma roundtrip_without_soh (r : regexp) (test : regexp -> text -> bool) :
  source r <> [] ->
  ~ In SLASH (source r) -> ~ In SLASH (flags r) ->
  ~ In SOH (source r) -> ~ In SOH (flags r) ->
  deserializeRegExp (serializeRegExp (ERegExp r)) = ERegExp r
  /\ forall host,
       match deserializeRegExp (serializeRegExp (ERegExp r)) with
       | ERegExp r' => test r' host = test r host
       | _ => False
       end.
Proof.
  intros Hne Hs1 Hs2 Hc1 Hc2. destruct r as [src fl]. cbn [source flags] in *.
  assert (E : deserializeRegExp (serializeRegExp (ERegExp (mkRegExp src fl)))
              = ERegExp (mkRegExp src fl)).
  { unfold deserializeRegExp, serializeRegExp, matchesSerializedRegExp.
    cbn [source flags]. rewrite matchRegex_serialized.
    pose proof (after_delimiter_complete SLASH fl (class_not_1_forallb fl Hc2)
                  src [] false (class_not_1_forallb src Hc1) (or_intror Hne))
      as Hsome.
    destruct (after_delimiter SLASH [] false (src ++ SLASH :: fl)%list)
      as [[g2 g3]|] eqn:Hm; [|congruence].
    destruct (after_delimiter_sound SLASH _ _ _ _ _ _ (le_n _) Hm)
      as (prefix & Hcut & -> & _).
    destruct (cut_unique SLASH src prefix fl g3 Hs1 Hs2 Hcut) as [-> ->].
    cbn [rev app]. unfold RegExp_new.
    destruct src; [congruence | reflexivity]. }
  split; [exact E|]. intros host. rewrite E. reflexivity.
Qed.

Example roundtrip_localhost :
  let r := mkRegExp (lit "^localhost:\d+$") (lit "i") in
  serializeRegExp (ERegExp r) = EString (lit "regexp:/^localhost:\d+$/i")
  /\ deserializeRegExp (serializeRegExp (ERegExp r)) = ERegExp r.
Proof. split; reflexivity. Qed.

(** A source with an escaped delimiter comes back as well: the greedy
    group 2 runs up to the last delimiter. *)
Example roundtrip_escaped_slash :
  let r := mkRegExp (lit "^a\/b$") (lit "g") in
  deserializeRegExp (serializeRegExp (ERegExp r)) = ERegExp r.
Proof. reflexivity. Qed.

(** Strings that are no serialized regular expression stay strings. *)
Example deserialize_plain : 
  deserializeRegExp (EString (lit "example.com")) = EString (lit "example.com").
Proof. reflexivity. Qed.

(** C6, on the code: the regular expression [new RegExp('\u0001')] has
    the one-unit source U+0001 and no flags, neither holds the
    delimiter, and its serialized form is not recognised: the class
    written for "anything but the delimiter" excludes U+0001 instead,
    so [deserializeRegExp] hands the string back and no pattern object
    is made. *)
Theorem soh_source_is_not_restored :
  let r := mkRegExp [SOH] [] in
  ~ In SLASH (source r) /\ ~ In SLASH (flags r)
  /\ serializeRegExp (ERegExp r) = EString (lit "regexp:/" ++ [SOH] ++ lit "/")%list
  /\ matchesSerializedRegExp (serializeRegExp (ERegExp r)) = None
  /\ deserializeRegExp (serializeRegExp (ERegExp r))
     = EString (lit "regexp:/" ++ [SOH] ++ lit "/")%list
  /\ deserializeRegExp (serializeRegExp (ERegExp r)) <> ERegExp r.
Proof.
  cbv zeta. split; [cbn; intros [H|[]]; discriminate H|].
  split; [cbn; tauto|].
  repeat split; try reflexivity. vm_compute. discriminate.
Qed.

End RegExpFacts.

(** ** The shoebox *)

Module ShoeboxFacts.
Import Utf16 Json Shoebox Notions Samples.
Local Open Scope list_scope.
Local Open Scope N_scope.

(** *** What the escaped text is made of *)









(** *** Hexadecimal escapes *)






(** *** String literals *)









(** *** Numbers and keywords *)






(** *** Joined texts *)





(** *** Arrays and objects *)









(** *** Keys *)




(** *** Values *)




Example escape_script_end :
  escapeJSONString (lit "</script>")
  = BACKSLASH :: lit "u003c/script" ++ BACKSLASH :: lit "u003e".
Proof. reflexivity. Qed.

Example escape_separators :
  escapeJSONString [LS; AMP; PS]
  = BACKSLASH :: lit "u2028" ++ BACKSLASH :: lit "u0026" ++ BACKSLASH :: lit "u2029".
Proof. reflexivity. Qed.

(** A later key with the name of an earlier one takes its place, as in
    [JSON.parse]; what [JSON.stringify] writes has no such keys. *)
Example parse_repeated_key :
  JSON_parse (LBRACE :: QuoteJSONString (lit "a") ++ COLON :: lit "1,"
                ++ QuoteJSONString (lit "a") ++ COLON :: lit "2}")
  = Some (JObject [(lit "a", JNumber (lit "2"))]).
Proof. reflexivity. Qed.

End ShoeboxFacts.

(** ** More on the paths *)

Module SsrPathsMoreFacts.
Import Js JsFacts SsrPaths SsrPathsCopy.

Lemma paths_both_or_neither_aux (o : options) :
  truthy (clientPath (setPaths o)) = hasPath (setPaths o)
  /\ truthy (ssrPath (setPaths o)) = hasPath (setPaths o).
Proof.
  destruct o as [d c s].
  cbn [setPaths clientPath ssrPath hasPath o_distPath o_clientPath o_ssrPath].
  rewrite !truthy_or. destruct (truthy d), (truthy c), (truthy s); split; reflexivity.
Qed.

(** X1: after [setPaths] the client path and the server path are set
    together or not at all, and [hasPath] says which; so the environment
    built for a forked worker carries both paths exactly when [hasPath]
    holds. *)
Theorem paths_set_together :
  forall (o : options) (ws : list Supervisor.worker) (n : nat) (ui : list string)
         (sent : list (nat * Supervisor.message)),
    let p := setPaths o in
    truthy (clientPath p) = hasPath p
    /\ truthy (ssrPath p) = hasPath p
    /\ Supervisor.buildWorkerEnv (Supervisor.mkSupervisor p ws n ui sent)
       = if hasPath p
         then [("CLIENT_PATH", clientPath p); ("SSR_PATH", ssrPath p)]
         else [].
Proof.
  intros [d c s] ws n ui sent. cbv zeta.
  assert (Hc : truthy (clientPath (setPaths (mkOptions d c s)))
               = hasPath (setPaths (mkOptions d c s))).
  { cbn [setPaths clientPath hasPath o_distPath o_clientPath o_ssrPath].
    rewrite !truthy_or. destruct (truthy d), (truthy c), (truthy s); reflexivity. }
  assert (Hs : truthy (ssrPath (setPaths (mkOptions d c s)))
               = hasPath (setPaths (mkOptions d c s))).
  { cbn [setPaths ssrPath hasPath o_distPath o_clientPath o_ssrPath].
    rewrite !truthy_or. destruct (truthy d), (truthy c), (truthy s); reflexivity. }
  split; [exact Hc|]. split; [exact Hs|].
  unfold Supervisor.buildWorkerEnv. cbn [Supervisor.ssrPaths].
  rewrite Hc, Hs. destruct (hasPath (setPaths (mkOptions d c s))); reflexivity.
Qed.

(** X2: [SsrPaths.from] makes a non-empty string the distPath, which then
    serves as client and server path too; on the empty string and on
    every other primitive, [undefined] included, it throws the TypeError
    of destructuring [null]. *)
Theorem from_string_or_throw :
  forall v : value,
    from (FromPrimitive v)
    = match v with
      | Str s =>
          if (s =? "")%string then Throw TypeError_destructure_null
          else Return (mkPaths (Str s) (Str s) (Str s) true)
      | _ => Throw TypeError_destructure_null
      end.
Proof.
  intros [| |b|n|s]; try reflexivity.
  unfold from. cbn [truthy]. destruct (s =? "")%string eqn:E; cbn [negb].
  - reflexivity.
  - unfold construct. f_equal. unfold setPaths, Js.or.
    cbn [o_distPath o_clientPath o_ssrPath truthy].
    repeat (rewrite E; cbn [negb truthy]). reflexivity.
Qed.

(** X3: an instance that has a path is reproduced field by field when it
    is given to the constructor or to [setPaths] again. *)
Theorem copy_keeps_paths :
  forall o : options,
    hasPath (setPaths o) = true ->
    setPaths (as_options (setPaths o))
    = mkPaths (distPath (setPaths o)) (clientPath (setPaths o))
              (ssrPath (setPaths o)) true.
Proof.
  intros o Hp.
  destruct (paths_both_or_neither_aux o) as [Hc Hs].
  rewrite Hp in Hc, Hs.
  unfold as_options. unfold setPaths at 1.
  cbn [o_distPath o_clientPath o_ssrPath].
  f_equal.
  - unfold or at 2. rewrite Hc. unfold or. now rewrite Hc.
  - unfold or at 2. rewrite Hs. unfold or. now rewrite Hs.
  - rewrite !truthy_or, Hc. destruct (truthy (distPath (setPaths o))); reflexivity.
Qed.

Lemma copy_keeps_paths_witness :
  setPaths (as_options (setPaths (mkOptions (Str "/srv/dist") Undefined Undefined)))
  = mkPaths (Str "/srv/dist") (Str "/srv/dist") (Str "/srv/dist") true.
Proof.
  exact (copy_keeps_paths (mkOptions (Str "/srv/dist") Undefined Undefined) eq_refl).
Defined.

End SsrPathsMoreFacts.

(** ** Package names and the whitelisted require, continued *)

Module PackageNameFacts.
Import Js Effects Host PackageName SsrSchema StringNotions Demo.

Lemma split_plain (p : string) :
  contains "/" p = false -> split "/" p = [p].
Proof.
  induction p as [|c p IH]; cbn [contains split]; [reflexivity|].
  intros H. apply orb_false_iff in H. destruct H as [Hc Hp].
  rewrite Hc, (IH Hp). reflexivity.
Qed.

Lemma split_app_plain (p rest : string) :
  contains "/" p = false ->
  split "/" (p ++ String "/" rest) = p :: split "/" rest.
Proof.
  induction p as [|c p IH]; cbn [contains split append]; [reflexivity|].
  intros H. apply orb_false_iff in H. destruct H as [Hc Hp].
  rewrite Hc, (IH Hp). reflexivity.
Qed.

Lemma starts_with_at_app (p q : string) :
  p <> "" -> starts_with_at (p ++ q) = starts_with_at p.
Proof. destruct p; [congruence | reflexivity]. Qed.

(** X4: every path below a package has the package's name: for a name
    without scope the first segment, for a scoped name the scope and the
    segment after it; and a package name is its own package name.  So a
    whitelist entry admits all the modules of its package. *)
Theorem getPackageName_of_subpath :
  forall (p scope name rest : string) (whitelist : list string),
    plain_name p = true ->
    contains "/" scope = false ->
    contains "/" name = false ->
    getPackageName p = p
    /\ getPackageName (p ++ "/" ++ rest) = p
    /\ getPackageName ("@" ++ scope ++ "/" ++ name) = "@" ++ scope ++ "/" ++ name
    /\ getPackageName ("@" ++ scope ++ "/" ++ name ++ "/" ++ rest)
       = "@" ++ scope ++ "/" ++ name
    /\ (In p whitelist ->
        (indexOf whitelist (getPackageName (p ++ "/" ++ rest)) >? -1)%Z = true).
Proof.
  intros p scope name rest whitelist Hp Hscope Hname.
  unfold plain_name in Hp. apply andb_true_iff in Hp.
  destruct Hp as [Hslash Hat]. apply negb_true_iff in Hslash, Hat.
  assert (E1 : getPackageName p = p).
  { unfold getPackageName. rewrite Hat, split_plain by exact Hslash. reflexivity. }
  assert (E2 : getPackageName (p ++ "/" ++ rest) = p).
  { unfold getPackageName. cbn [append].
    rewrite split_app_plain by exact Hslash.
    destruct p as [|c p]; [reflexivity|].
    cbn [append starts_with_at] in *. rewrite Hat. reflexivity. }
  split; [exact E1|]. split; [exact E2|].
  assert (Hs : contains "/" (String "@" scope) = false) by (cbn; exact Hscope).
  split; [|split].
  - unfold getPackageName. cbn [append starts_with_at].
    change (Ascii.eqb "@" "@") with true. cbv iota.
    change (String "@" (scope ++ String "/" name))
      with (String "@" scope ++ String "/" name).
    rewrite split_app_plain by exact Hs. rewrite split_plain by exact Hname.
    reflexivity.
  - unfold getPackageName. cbn [append starts_with_at].
    change (Ascii.eqb "@" "@") with true. cbv iota.
    change (String "@" (scope ++ String "/" (name ++ String "/" rest)))
      with (String "@" scope ++ String "/" (name ++ String "/" rest)).
    rewrite split_app_plain by exact Hs. rewrite split_app_plain by exact Hname.
    reflexivity.
  - intros Hin. rewrite E2. now apply LoaderFacts.whitelisted.
Qed.

Lemma getPackageName_of_subpath_witness :
  getPackageName "lodash/fp/map" = "lodash"
  /\ getPackageName "@ember/test-helpers/dom" = "@ember/test-helpers".
Proof.
  pose proof (getPackageName_of_subpath "lodash" "ember" "test-helpers" "fp/map"
                ["lodash"] eq_refl eq_refl eq_refl) as H1.
  pose proof (getPackageName_of_subpath "lodash" "ember" "test-helpers" "dom"
                ["lodash"] eq_refl eq_refl eq_refl) as H2.
  split; [exact (proj1 (proj2 H1)) | exact (proj1 (proj2 (proj2 (proj2 H2))))].
Defined.



End PackageNameFacts.

(** ** Linking and evaluating the import graph *)

Module LinkFacts.
Import Js Effects Host EmberAppLoader LinkLoop Demo LoopHost.

(** [buildScript] reads the script and runs the loop over its imports. *)
Lemma buildScript_links (H : host) (defaultBase : string) (fuel : nat)
      (filePath : string) :
  buildScript H defaultBase (S fuel) filePath
  = bind (lift (read_module H filePath))
      (links H defaultBase filePath (buildScript H defaultBase fuel)).
Proof. reflexivity. Qed.

(** The loop over the imports of a script whose imports are all leaves. *)
Lemma links_of_leaves (H : host) (defaultBase : string) (fuel : nat)
      (filePath : string) (resolved : string -> string) :
  truthy (Str filePath) = true ->
  forall (specs : list string) (w : world),
    (forall s, In s specs ->
       resolveImport H s filePath = Return (resolved s)
       /\ read_module H (resolved s) = Return []
       /\ exists x, evaluate_module H (resolved s) = Return x) ->
    links H defaultBase filePath (buildScript H defaultBase (S fuel)) specs w
    = (Done tt, mkWorld (loaded w ++ map resolved specs) (console w)).
Proof.
  intros Ht. induction specs as [|s specs IH]; intros w Hs.
  - cbn. rewrite app_nil_r. destruct w; reflexivity.
  - destruct (Hs s (or_introl eq_refl)) as (Hr & Hm & x & Hx).
    cbn [links]. rewrite Ht, Hr. cbn [lift].
    unfold bind at 1. cbn [ret].
    rewrite buildScript_links, Hm.
    unfold bind, lift, ret, evaluate, run_code. cbn [links]. unfold ret.
    rewrite Hx. unfold bind, lift, ret. cbv beta iota.
    rewrite IH by (intros s' Hs'; apply Hs; now right).
    cbn [loaded console map]. rewrite <- app_assoc. reflexivity.
Qed.

(** With the import loop run in the order of the specifiers. *)
Lemma buildScript_of_leaves :
  forall (H : host) (defaultBase : string) (fuel : nat) (filePath : string)
         (specs : list string) (resolved : string -> string) (w : world),
    truthy (Str filePath) = true ->
    read_module H filePath = Return specs ->
    (forall s, In s specs ->
       resolveImport H s filePath = Return (resolved s)
       /\ read_module H (resolved s) = Return []
       /\ exists x, evaluate_module H (resolved s) = Return x) ->
    buildScript H defaultBase (S (S fuel)) filePath w
    = (Done tt, mkWorld (loaded w ++ map resolved specs) (console w)).
Proof.
  intros H defaultBase fuel filePath specs resolved w Ht Hread Hs.
  rewrite buildScript_links, Hread. cbn [lift]. unfold bind at 1. cbn [ret].
  exact (links_of_leaves H defaultBase fuel filePath resolved Ht specs w Hs).
Qed.

(** X6: linking a script already runs the code of what it imports: when
    the imports are all leaves, [buildScript] returns with every one of
    them resolved, built and evaluated, the files it has run are those
    that had run before and the imported ones, and nothing is written to
    the console; the script itself has not been evaluated by then unless
    it had been before or imports itself. *)
Theorem buildScript_evaluates_every_import :
  forall (H : host) (defaultBase : string) (fuel : nat) (filePath : string)
         (specs : list string) (resolved : string -> string) (w : world),
    truthy (Str filePath) = true ->
    read_module H filePath = Return specs ->
    (forall s, In s specs ->
       resolveImport H s filePath = Return (resolved s)
       /\ read_module H (resolved s) = Return []
       /\ exists x, evaluate_module H (resolved s) = Return x) ->
    exists w' : world,
      buildScript H defaultBase (S (S fuel)) filePath w = (Done tt, w')
      /\ console w' = console w
      /\ (forall m : string,
             In m (loaded w')
             <-> In m (loaded w) \/ exists s, In s specs /\ m = resolved s)
      /\ (~ In filePath (loaded w) ->
          (forall s, In s specs -> resolved s <> filePath) ->
          ~ In filePath (loaded w')).
Proof.
  intros H defaultBase fuel filePath specs resolved w Ht Hread Hs.
  exists (mkWorld (loaded w ++ map resolved specs) (console w)).
  assert (Hin : forall m : string,
             In m (loaded w ++ map resolved specs)
             <-> In m (loaded w) \/ exists s, In s specs /\ m = resolved s).
  { intros m. rewrite in_app_iff, in_map_iff. split.
    - intros [Hm|(s & E & Hin)]; [now left | right; exists s; auto].
    - intros [Hm|(s & Hin & E)]; [now left | right; exists s; auto]. }
  split; [now apply buildScript_of_leaves|]. cbn [console loaded].
  split; [reflexivity|]. split; [exact Hin|].
  intros Hnot Hne Hm. apply Hin in Hm. destruct Hm as [Hm|(s & Hsin & E)].
  - exact (Hnot Hm).
  - exact (Hne s Hsin (eq_sym E)).
Qed.

Lemma buildScript_evaluates_every_import_witness :
  exists w' : world,
    buildScript demo_host "/srv/dist/app.js" 2 "/srv/dist/app.js" empty_world
    = (Done tt, w')
    /\ console w' = console empty_world
    /\ (forall m : string,
           In m (loaded w')
           <-> In m (loaded empty_world)
               \/ exists s, In s ["./routes"; "left-pad"]
                            /\ m = (if (s =? "./routes")%string
                                    then "/srv/dist/routes/index.js"
                                    else "/srv/node_modules/left-pad/index.js"))
    /\ (~ In "/srv/dist/app.js" (loaded empty_world) ->
        (forall s, In s ["./routes"; "left-pad"] ->
                   (if (s =? "./routes")%string
                    then "/srv/dist/routes/index.js"
                    else "/srv/node_modules/left-pad/index.js")
                   <> "/srv/dist/app.js") ->
        ~ In "/srv/dist/app.js" (loaded w')).
Proof.
  refine (buildScript_evaluates_every_import demo_host "/srv/dist/app.js" 0
            "/srv/dist/app.js" ["./routes"; "left-pad"]
            (fun s => if (s =? "./routes")%string
                      then "/srv/dist/routes/index.js"
                      else "/srv/node_modules/left-pad/index.js")
            empty_world eq_refl eq_refl _).
  intros s [<-|[<-|[]]]; (split; [reflexivity | split; [reflexivity|]]);
    eexists; reflexivity.
Defined.





(** The loop over the scripts never replaces an export it has found. *)
Lemma evaluateScripts_keeps_found (H : host) (fuel : nat) (found : export) :
  (forall ns, nullish_assign found ns = found) ->
  forall (scripts : list string) (w : world),
    match evaluateScripts H fuel scripts found w with
    | (Done (inl r), _) => r = found
    | _ => True
    end.
Proof.
  intros Hkeep. induction scripts as [|script rest IH]; intros w;
    cbn [evaluateScripts]; [reflexivity|].
  destruct (negb (truthy (Str script))); [apply IH|].
  unfold bind at 1.
  destruct (buildScript H script fuel script w) as [[[]|e|] w1]; try exact I.
  unfold bind at 1, try_catch, evaluate.
  unfold bind at 1. unfold bind at 1, run_code.
  destruct (evaluate_module H script) as [ns|e]; cbn [lift ret throw].
  - rewrite Hkeep. apply IH.
  - exact I.
Qed.

(** X9: the first value a script exports as [createSsrApp] is final.  When
    it is not a function, no later script can supply the factory: the
    build never yields a sandbox. *)
Theorem non_function_export_is_final :
  forall (H : host) (fuel : nat) (script : string) (rest : list string)
         (b : bool) (w w' : world) (c : AppContext),
    truthy (Str script) = true ->
    read_module H script = Return [] ->
    evaluate_module H script = Return (ExportOther b) ->
    buildApp H (S fuel) (script :: rest) w <> (Done (Some c), w').
Proof.
  intros H fuel script rest b w w' c Ht Hread Hev.
  unfold buildApp. unfold bind at 1. cbn [evaluateScripts]. rewrite Ht. cbn [negb].
  unfold bind at 1.
  rewrite buildScript_links, Hread. cbn [lift links]. unfold bind at 1. cbn [ret].
  unfold bind at 1, try_catch, evaluate.
  unfold bind at 1. unfold bind at 1, run_code. rewrite Hev. cbn [lift ret].
  cbn [nullish_assign].
  change (links H script script (buildScript H script fuel) [] w)
    with (Done tt, w).
  cbv beta iota.
  match goal with
  | |- context [evaluateScripts ?h ?f ?l ?x ?v] =>
      pose proof (evaluateScripts_keeps_found h f (ExportOther b)
                    (fun _ => eq_refl) l v) as Hk;
      change x with (ExportOther b) in *;
      destruct (evaluateScripts h f l (ExportOther b) v) as [[[r|[]]|e|] w1]
  end.
  - subst r. cbn. unfold bind, console_log, ret. discriminate.
  - cbn. discriminate.
  - discriminate.
  - discriminate.
Qed.

Lemma non_function_export_is_final_witness :
  let H :=
    mkHost (path_dirname demo_host) (path_resolve demo_host)
           (path_normalize demo_host) (stat_isFile demo_host)
           (require_resolve demo_host) (resolve_sync demo_host)
           (host_require demo_host) (fun _ => Return [])
           (fun identifier =>
              if (identifier =? "/srv/dist/a.js")%string
              then Return (ExportOther true)
              else Return (ExportFunction "app")) in
  buildApp H 1 ["/srv/dist/a.js"; "/srv/dist/app.js"] empty_world
  = (Done None,
     mkWorld ["/srv/dist/a.js"; "/srv/dist/app.js"] [factory_missing_line])
  /\ buildApp H 1 ["/srv/dist/a.js"; "/srv/dist/app.js"] empty_world
     <> (Done (Some (mkAppContext "app")),
         mkWorld ["/srv/dist/a.js"; "/srv/dist/app.js"] []).
Proof.
  split; [reflexivity|].
  apply (non_function_export_is_final _ 0 "/srv/dist/a.js" ["/srv/dist/app.js"] true);
    reflexivity.
Defined.

End LinkFacts.


(** ** More on the host-whitelist codec (src/regexp.js) *)

Module RegExpMoreFacts.
Import Utf16 RegExpCodec RegExpFacts.
Local Open Scope list_scope.

(** Without the delimiter in it, no input matches. *)
Lemma after_delimiter_needs_delimiter (d : code_unit) :
  forall (n : nat) (s taken : text) (rounds : bool),
    List.length s <= n -> ~ In d s ->
    after_delimiter d taken rounds s = None.
Proof.
  induction n as [|n IH]; intros s taken rounds Hlen Hd;
    rewrite after_delimiter_eq.
  - destruct s; [|cbn in Hlen; lia]. destruct rounds; reflexivity.
  - destruct s as [|b s1]; [destruct rounds; reflexivity|].
    cbn [List.length] in Hlen.
    assert (Hb : eqb b d = false).
    { destruct (eqb b d) eqn:E; [|reflexivity].
      apply eqb_eq in E. subst b. exfalso. apply Hd. now left. }
    assert (H1 : match s1 with
                 | [] => None
                 | e :: rest =>
                     if eqb b BACKSLASH && eqb e d
                     then after_delimiter d (e :: b :: taken) true rest
                     else None
                 end = None).
    { destruct s1 as [|e rest]; [reflexivity|].
      destruct (eqb e d) eqn:E.
      - apply eqb_eq in E. subst e. exfalso. apply Hd. right. now left.
      - rewrite andb_false_r. reflexivity. }
    rewrite H1.
    rewrite (IH s1 (b :: taken) true ltac:(lia) (fun H => Hd (or_intror H))).
    rewrite Hb. cbn [andb]. destruct (class_not_1 b), rounds; reflexivity.
Qed.

(** The greedy group 2 runs up to the last delimiter of the input. *)
Lemma after_delimiter_last (d : code_unit) (g3 : text) :
  forallb class_not_1 g3 = true -> ~ In d g3 -> class_not_1 d = true ->
  forall (n : nat) (prefix taken : text) (rounds : bool),
    List.length prefix <= n ->
    forallb class_not_1 prefix = true ->
    rounds = true \/ prefix <> [] ->
    after_delimiter d taken rounds (prefix ++ d :: g3)
    = Some (rev taken ++ prefix, g3).
Proof.
  intros Hg3 Hd3 Hd.
  induction n as [|n IH]; intros prefix taken rounds Hlen Hp Hr.
  - destruct prefix; [|cbn in Hlen; lia].
    destruct Hr as [->|Hne]; [|congruence].
    rewrite after_delimiter_eq. cbn [app].
    assert (H1 : match g3 with
                 | [] => None
                 | e :: rest =>
                     if eqb d BACKSLASH && eqb e d
                     then after_delimiter d (e :: d :: taken) true rest
                     else None
                 end = None).
    { destruct g3 as [|e rest]; [reflexivity|].
      destruct (eqb e d) eqn:E.
      - apply eqb_eq in E. subst e. exfalso. apply Hd3. now left.
      - rewrite andb_false_r. reflexivity. }
    rewrite H1, Hd.
    rewrite (after_delimiter_needs_delimiter d _ g3 (d :: taken) true (le_n _) Hd3).
    rewrite eqb_refl, Hg3. cbn [andb]. rewrite app_nil_r. reflexivity.
  - destruct prefix as [|c p].
    + apply (IH [] taken rounds); [cbn; lia | reflexivity | exact Hr].
    + cbn [List.length] in Hlen. cbn [forallb] in Hp.
      apply andb_true_iff in Hp. destruct Hp as [Hc Hp].
      rewrite after_delimiter_eq. cbn [app].
      assert (H2 : after_delimiter d (c :: taken) true (p ++ d :: g3)
                   = Some (rev taken ++ c :: p, g3)).
      { rewrite (IH p (c :: taken) true ltac:(lia) Hp (or_introl eq_refl)).
        cbn [rev]. rewrite <- app_assoc. reflexivity. }
      assert (H1 : match p ++ d :: g3 with
                   | [] => None
                   | e :: rest =>
                       if eqb c BACKSLASH && eqb e d
                       then after_delimiter d (e :: c :: taken) true rest
                       else None
                   end = None
                   \/ match p ++ d :: g3 with
                      | [] => None
                      | e :: rest =>
                          if eqb c BACKSLASH && eqb e d
                          then after_delimiter d (e :: c :: taken) true rest
                          else None
                      end = Some (rev taken ++ c :: p, g3)).
      { destruct p as [|e p']; cbn [app].
        - destruct (eqb c BACKSLASH && eqb d d); [|now left]. left.
          apply (after_delimiter_needs_delimiter d _ g3 _ true (le_n _) Hd3).
        - destruct (eqb c BACKSLASH && eqb e d); [|now left]. right.
          cbn [forallb] in Hp. apply andb_true_iff in Hp. destruct Hp as [_ Hp'].
          cbn [List.length] in Hlen.
          rewrite (IH p' (e :: c :: taken) true ltac:(lia) Hp' (or_introl eq_refl)).
          cbn [rev]. rewrite <- !app_assoc. reflexivity. }
      destruct H1 as [-> | ->]; [|reflexivity].
      rewrite Hc, H2. reflexivity.
Qed.

(** A match consumes nothing but units of the class, when the delimiter
    is one. *)
Lemma after_delimiter_class (d : code_unit) :
  class_not_1 d = true ->
  forall (n : nat) (s taken : text) (rounds : bool) (m : text * text),
    List.length s <= n ->
    after_delimiter d taken rounds s = Some m ->
    forallb class_not_1 s = true.
Proof.
  intros Hd.
  induction n as [|n IH]; intros s taken rounds m Hlen Hm;
    rewrite after_delimiter_eq in Hm.
  - destruct s; [|cbn in Hlen; lia]. reflexivity.
  - destruct s as [|b s1]; [reflexivity|].
    cbn [List.length] in Hlen.
    assert (Hrest :
              match
                (if class_not_1 b
                 then after_delimiter d (b :: taken) true s1 else None)
              with
              | Some m => Some m
              | None =>
                  if rounds
                  then if eqb b d && forallb class_not_1 s1
                       then Some (rev taken, s1) else None
                  else None
              end = Some m ->
              forallb class_not_1 (b :: s1) = true).
    { intros Hm1. cbn [forallb].
      destruct (class_not_1 b) eqn:Hb.
      - destruct (after_delimiter d (b :: taken) true s1) as [m1|] eqn:H2.
        + rewrite (IH s1 (b :: taken) true m1 ltac:(lia) H2). reflexivity.
        + destruct rounds; [|discriminate Hm1].
          destruct (eqb b d && forallb class_not_1 s1) eqn:Hc; [|discriminate Hm1].
          apply andb_true_iff in Hc. destruct Hc as [_ ->]. reflexivity.
      - destruct rounds; [|discriminate Hm1].
        destruct (eqb b d && forallb class_not_1 s1) eqn:Hc; [|discriminate Hm1].
        apply andb_true_iff in Hc. destruct Hc as [Hbd _].
        apply eqb_eq in Hbd. subst b. congruence. }
    destruct s1 as [|e rest]; [now apply Hrest|].
    destruct (eqb b BACKSLASH && eqb e d) eqn:Hbe; [|now apply Hrest].
    destruct (after_delimiter d (e :: b :: taken) true rest) as [m1|] eqn:H1;
      [|now apply Hrest].
    apply andb_true_iff in Hbe. destruct Hbe as [Hb He].
    apply eqb_eq in Hb. apply eqb_eq in He. subst b e.
    cbn [List.length] in Hlen. cbn [forallb].
    rewrite Hd, (IH rest _ true m1 ltac:(lia) H1). reflexivity.
Qed.

Lemma forallb_class_not_1 (s : text) :
  forallb class_not_1 s = true -> ~ In SOH s.
Proof.
  intros Hs Hin. rewrite forallb_forall in Hs. specialize (Hs SOH Hin).
  discriminate Hs.
Qed.

(** X10: a regular expression whose source and flags are free of U+0001
    survives [serializeRegExp] followed by [deserializeRegExp], however
    many slashes its source holds: the string is cut at its last slash,
    which is the one [serializeRegExp] wrote before the flags. *)
Theorem roundtrip_with_slashes :
  forall r : regexp,
    source r <> [] ->
    ~ In SOH (source r) -> ~ In SOH (flags r) -> ~ In SLASH (flags r) ->
    deserializeRegExp (serializeRegExp (ERegExp r)) = ERegExp r.
Proof.
  intros [src fl] Hne Hc1 Hc2 Hs. cbn [source flags] in *.
  unfold deserializeRegExp, serializeRegExp, matchesSerializedRegExp.
  cbn [source flags]. rewrite matchRegex_serialized.
  rewrite (after_delimiter_last SLASH fl (class_not_1_forallb fl Hc2) Hs eq_refl
             _ src [] false (le_n _) (class_not_1_forallb src Hc1) (or_intror Hne)).
  cbn [rev app]. unfold RegExp_new. destruct src; [congruence | reflexivity].
Qed.

Lemma roundtrip_with_slashes_witness :
  deserializeRegExp
    (serializeRegExp (ERegExp (mkRegExp (lit "^https?:\/\/[a-z]+\/$") (lit "i"))))
  = ERegExp (mkRegExp (lit "^https?:\/\/[a-z]+\/$") (lit "i")).
Proof.
  apply (roundtrip_with_slashes (mkRegExp (lit "^https?:\/\/[a-z]+\/$") (lit "i"))).
  - discriminate.
  - apply forallb_class_not_1. reflexivity.
  - apply forallb_class_not_1. reflexivity.
  - cbn. intros [H|[]]. discriminate H.
Defined.

(** X11: a regular expression with U+0001 anywhere in its source or its
    flags is never restored: [deserializeRegExp] returns the serialized
    string itself. *)
Theorem soh_anywhere_is_never_restored :
  forall r : regexp,
    In SOH (source r) \/ In SOH (flags r) ->
    matchesSerializedRegExp (serializeRegExp (ERegExp r)) = None
    /\ deserializeRegExp (serializeRegExp (ERegExp r))
       = EString (lit "regexp:/" ++ source r ++ lit "/" ++ flags r).
Proof.
  intros [src fl] Hin. cbn [source flags] in *.
  assert (Hnone : matchRegex (lit "regexp:/" ++ src ++ lit "/" ++ fl) = None).
  { rewrite matchRegex_serialized.
    destruct (after_delimiter SLASH [] false (src ++ SLASH :: fl)) as [m|] eqn:Hm;
      [|reflexivity].
    exfalso.
    pose proof (after_delimiter_class SLASH eq_refl _ _ _ _ _ (le_n _) Hm) as Hall.
    apply forallb_class_not_1 in Hall. apply Hall.
    apply in_or_app. destruct Hin as [H|H]; [now left | right; now right]. }
  unfold deserializeRegExp, serializeRegExp, matchesSerializedRegExp.
  cbn [source flags]. rewrite Hnone. split; reflexivity.
Qed.

Lemma soh_anywhere_is_never_restored_witness :
  deserializeRegExp
    (serializeRegExp (ERegExp (mkRegExp (lit "^a" ++ [SOH] ++ lit "b$") (lit "i"))))
  = EString (lit "regexp:/^a" ++ [SOH] ++ lit "b$/i").
Proof.
  exact (proj2 (soh_anywhere_is_never_restored
                  (mkRegExp (lit "^a" ++ [SOH] ++ lit "b$") (lit "i"))
                  (or_introl (or_intror (or_intror (or_introl eq_refl)))))).
Defined.

End RegExpMoreFacts.


(** ** The host whitelist from the application's configuration to the
    request (src/ssr-server-config.js, src/ssr-request.js) *)

Module WhitelistFacts.
Import Js Utf16 RegExpCodec RegExpFacts RegExpMoreFacts.
Import SsrServerConfig SsrRequest WhitelistNotions.
Local Open Scope list_scope.







End WhitelistFacts.


(** ** The cluster under worker exits (index.js) *)

Module ClusterFacts.
Import Js Supervisor ClusterRuns ClusterNotions Samples.
Local Open Scope list_scope.
Local Open Scope nat_scope.

Lemma forkWorker_fields (pid_of : nat -> nat) (s : t) :
  ssrPaths (forkWorker pid_of s) = ssrPaths s
  /\ workers (forkWorker pid_of s)
     = workers s ++ [mkWorker (S (forked s)) (pid_of (S (forked s))) (buildWorkerEnv s)]
  /\ forked (forkWorker pid_of s) = S (forked s).
Proof. repeat split. Qed.

Lemma buildWorkerEnv_paths (s s' : t) :
  ssrPaths s = ssrPaths s' -> buildWorkerEnv s = buildWorkerEnv s'.
Proof. unfold buildWorkerEnv. intros ->. reflexivity. Qed.

Lemma forkWorker_steady (pid_of : nat -> nat) (paths : SsrPaths.t) (n : nat) (s : t) :
  steady paths n s -> steady paths (S n) (forkWorker pid_of s).
Proof.
  intros (Hp & Hl & Hd & Hle & Henv).
  destruct (forkWorker_fields pid_of s) as (Fp & Fw & Ff).
  unfold steady. rewrite Fp, Fw, Ff. repeat split.
  - exact Hp.
  - rewrite length_app. cbn. lia.
  - rewrite map_app. cbn [map id].
    apply NoDup_app; [exact Hd | repeat constructor; intros [] |].
    intros x Hx [<-|[]]. apply in_map_iff in Hx. destruct Hx as (w & Hw & Hin).
    rewrite Forall_forall in Hle. specialize (Hle w Hin). lia.
  - apply Forall_app. split.
    + eapply Forall_impl; [|exact Hle]. cbn. intros w Hw. lia.
    + repeat constructor.
  - apply Forall_app. split; [exact Henv|]. repeat constructor. cbn [env].
    apply buildWorkerEnv_paths. exact Hp.
Qed.

Lemma forkWorkers_steady (pid_of : nat -> nat) (paths : SsrPaths.t) :
  forall (k n : nat) (s : t),
    steady paths n s -> steady paths (k + n) (forkWorkers pid_of k s).
Proof.
  induction k as [|k IH]; intros n s Hs; [exact Hs|].
  cbn [forkWorkers]. replace (S k + n) with (k + S n) by lia.
  apply IH. apply forkWorker_steady. exact Hs.
Qed.

(** Dropping a live worker takes exactly one entry away. *)
Lemma remove_worker_length (i : nat) :
  forall ws : list worker,
    NoDup (map id ws) -> In i (map id ws) ->
    S (List.length (remove_worker i ws)) = List.length ws.
Proof.
  induction ws as [|w ws IH]; intros Hd Hin; [destruct Hin|].
  cbn [map] in Hd, Hin. inversion Hd as [|x l Hnot Hd' E]; subst.
  unfold remove_worker in *. cbn [filter].
  destruct (Nat.eqb_spec (id w) i) as [E|E]; cbn [negb].
  - subst i. cbn [List.length]. f_equal.
    clear IH Hd Hin Hd'. induction ws as [|v ws IH]; [reflexivity|].
    cbn [filter map] in *.
    destruct (Nat.eqb_spec (id v) (id w)) as [E|E]; cbn [negb].
    + exfalso. apply Hnot. left. exact E.
    + cbn [List.length]. f_equal. apply IH. intros H. apply Hnot. now right.
  - cbn [List.length]. f_equal. apply IH; [exact Hd'|].
    destruct Hin as [H|H]; [congruence | exact H].
Qed.

Lemma remove_worker_incl (i : nat) (ws : list worker) (w : worker) :
  In w (remove_worker i ws) -> In w ws.
Proof. unfold remove_worker. intros H. apply filter_In in H. tauto. Qed.

Lemma remove_worker_nodup (i : nat) :
  forall ws : list worker, NoDup (map id ws) -> NoDup (map id (remove_worker i ws)).
Proof.
  induction ws as [|w ws IH]; intros Hd; [constructor|].
  cbn [map] in Hd. inversion Hd as [|x l Hnot Hd' E]; subst.
  unfold remove_worker in *. cbn [filter].
  destruct (negb (id w =? i)); [|now apply IH].
  cbn [map]. constructor; [|now apply IH].
  intros Hin. apply Hnot. apply in_map_iff in Hin. destruct Hin as (v & Hv & Hin).
  apply in_map_iff. exists v. split; [exact Hv|].
  apply filter_In in Hin. tauto.
Qed.

Lemma is_live_in (i : nat) (s : t) :
  is_live i s = true -> In i (map id (workers s)).
Proof.
  unfold is_live. intros H. apply existsb_exists in H.
  destruct H as (w & Hin & E). apply Nat.eqb_eq in E. subst i.
  now apply in_map.
Qed.

Lemma exit_step_steady (pid_of : nat -> nat) (paths : SsrPaths.t) (n : nat)
      (s : t) (ev : exit_event) :
  steady paths n s -> steady paths n (exit_step pid_of s ev).
Proof.
  intros Hs. unfold exit_step. destruct (is_live (who ev) s) eqn:Hlive; [|exact Hs].
  destruct Hs as (Hp & Hl & Hd & Hle & Henv).
  pose proof (remove_worker_length (who ev) (workers s) Hd (is_live_in _ _ Hlive))
    as Hlen.
  destruct n as [|n]; [lia|].
  unfold on_exit.
  apply forkWorker_steady. unfold steady, writeLine.
  cbn [ssrPaths workers forked]. repeat split.
  - exact Hp.
  - lia.
  - apply remove_worker_nodup. exact Hd.
  - rewrite Forall_forall in *. intros w Hw. apply Hle.
    eapply remove_worker_incl. exact Hw.
  - rewrite Forall_forall in *. intros w Hw. apply Henv.
    eapply remove_worker_incl. exact Hw.
Qed.

(** X13: after [forkWorkers()] has forked [workerCount] workers, whatever
    workers exit afterwards, in whatever order and for whatever cause,
    the cluster holds [workerCount] workers again after each exit, all
    with distinct ids and all given the same environment. *)
Theorem cluster_keeps_its_size :
  forall (pid_of : nat -> nat) (paths : SsrPaths.t) (workerCount : nat)
         (exits : list exit_event),
    let s0 := forkWorkers pid_of workerCount (initial paths) in
    let s := run_exits pid_of s0 exits in
    List.length (workers s) = workerCount
    /\ NoDup (map id (workers s))
    /\ Forall (fun w => env w = buildWorkerEnv s0) (workers s).
Proof.
  intros pid_of paths workerCount exits s0 s.
  assert (H0 : steady paths workerCount s0).
  { replace workerCount with (workerCount + 0) at 1 by lia.
    apply forkWorkers_steady. unfold steady, initial. cbn.
    repeat split; constructor. }
  assert (Hs : steady paths workerCount s).
  { subst s. unfold run_exits. generalize dependent s0. clear.
    intros s0 H0. revert s0 H0.
    induction exits as [|ev exits IH]; intros s0 H0; [exact H0|].
    cbn [fold_left]. apply IH. apply exit_step_steady. exact H0. }
  destruct Hs as (_ & Hl & Hd & _ & Henv). destruct H0 as (Hp0 & _).
  repeat split; try assumption.
  eapply Forall_impl; [|exact Henv]. cbn. intros w ->.
  apply buildWorkerEnv_paths. rewrite Hp0. reflexivity.
Qed.

End ClusterFacts.


(** ** Options, the HTTP server and the worker (index.js, src/worker.js,
    src/express-http-server.js, src/basic-auth.js) *)

Module ServerFacts.
Import Js JsFacts.
Local Open Scope list_scope.



(** X15: the HTTP server a worker makes compresses its responses
    whatever the [gzip] option is, and so whatever [noGzip] the server
    was given: compression is the first layer of the router of every
    worker. *)
Theorem compression_cannot_be_switched_off :
  forall (o : WorkerProcess.options) (i : ServerOptions.input)
         (paths : SsrPaths.t) (cache : bool) (url : value),
    let layers_of (w : WorkerProcess.t) :=
      snd (ExpressHTTPServer.serve
             (ExpressHTTPServer.mkServer
                (ExpressHTTPServer.ssrPaths (WorkerProcess.httpServer w))
                (ExpressHTTPServer.username (WorkerProcess.httpServer w))
                (ExpressHTTPServer.password (WorkerProcess.httpServer w))
                (ExpressHTTPServer.cache (WorkerProcess.httpServer w))
                (ExpressHTTPServer.gzip (WorkerProcess.httpServer w))
                url
                (ExpressHTTPServer.ui (WorkerProcess.httpServer w)))) in
    hd_error (layers_of (WorkerProcess.construct o)) = Some ExpressHTTPServer.Compression
    /\ hd_error (layers_of (WorkerProcess.construct
                              (WorkerProcess.options_of_server i paths cache)))
       = Some ExpressHTTPServer.Compression.
Proof.
  intros o i paths cache url layers_of.
  assert (H : forall o', hd_error (layers_of (WorkerProcess.construct o'))
                         = Some ExpressHTTPServer.Compression).
  { intros o'. subst layers_of. cbv beta.
    unfold ExpressHTTPServer.serve, WorkerProcess.construct,
      ExpressHTTPServer.construct.
    cbn [WorkerProcess.httpServer ExpressHTTPServer.gzip ExpressHTTPServer.o_gzip snd].
    rewrite truthy_or. cbn [truthy]. rewrite orb_true_r. reflexivity. }
  split; apply H.
Qed.

Lemma differs_false (s : string) (v : value) :
  BasicAuth.differs s v = false <-> v = Str s.
Proof.
  destruct v as [| |b|n|t]; cbn; try (split; [discriminate | congruence]).
  split.
  - intros H. apply negb_false_iff in H. apply String.eqb_eq in H. now subst.
  - intros H. injection H as ->. rewrite String.eqb_refl. reflexivity.
Qed.

(** X16: basic authentication lets a request through exactly when both
    the user name and the password are configured as strings and the
    request carries these two; and [serve] installs it as soon as one of
    the two is neither [undefined] nor [null].  So with only one of them
    configured every request is answered 401. *)
Theorem basic_auth_needs_both_credentials :
  forall (username password : value) (s : ExpressHTTPServer.t),
    (forall user : option (string * string),
        BasicAuth.basicAuth username password user = BasicAuth.Pass
        <-> exists name pass,
              username = Str name /\ password = Str pass /\ user = Some (name, pass))
    /\ (In (ExpressHTTPServer.BasicAuthLayer (ExpressHTTPServer.username s)
                                             (ExpressHTTPServer.password s))
           (snd (ExpressHTTPServer.serve s))
        <-> ExpressHTTPServer.nullish (ExpressHTTPServer.username s) = false
            \/ ExpressHTTPServer.nullish (ExpressHTTPServer.password s) = false)
    /\ (ExpressHTTPServer.nullish username = true
        \/ ExpressHTTPServer.nullish password = true ->
        forall user, BasicAuth.basicAuth username password user = BasicAuth.Unauthorized).
Proof.
  intros username password s.
  assert (Hiff : forall user : option (string * string),
             BasicAuth.basicAuth username password user = BasicAuth.Pass
             <-> exists name pass,
                   username = Str name /\ password = Str pass
                   /\ user = Some (name, pass)).
  { intros [[name pass]|]; cbn [BasicAuth.basicAuth].
    - destruct (BasicAuth.differs name username) eqn:E1;
        destruct (BasicAuth.differs pass password) eqn:E2; cbn [orb].
      + split; [discriminate|]. intros (n & p & -> & -> & E). injection E as <- <-.
        cbn in E1. rewrite String.eqb_refl in E1. discriminate.
      + split; [discriminate|]. intros (n & p & -> & -> & E). injection E as <- <-.
        cbn in E1. rewrite String.eqb_refl in E1. discriminate.
      + split; [discriminate|]. intros (n & p & -> & -> & E). injection E as <- <-.
        cbn in E2. rewrite String.eqb_refl in E2. discriminate.
      + apply differs_false in E1. apply differs_false in E2. subst.
        split; [|reflexivity]. intros _. exists name, pass. auto.
    - split; [discriminate|]. intros (n & p & _ & _ & E). discriminate E. }
  split; [exact Hiff|]. split.
  - unfold ExpressHTTPServer.serve. cbn [snd].
    destruct (ExpressHTTPServer.nullish (ExpressHTTPServer.username s));
      destruct (ExpressHTTPServer.nullish (ExpressHTTPServer.password s));
      cbn [negb orb].
    + split; [|intros [H|H]; discriminate H].
      intros H. exfalso.
      repeat (apply in_app_or in H; destruct H as [H|H]);
        repeat match goal with
               | H : In _ (if ?c then _ else _) |- _ => destruct c
               | H : In _ [] |- _ => destruct H
               | H : In _ (_ :: _) |- _ => destruct H as [H|H]; [discriminate H|]
               end.
    + split; [auto|]. intros _. apply in_or_app. right. apply in_or_app. left. now left.
    + split; [auto|]. intros _. apply in_or_app. right. apply in_or_app. left. now left.
    + split; [auto|]. intros _. apply in_or_app. right. apply in_or_app. left. now left.
  - intros Hnull user.
    destruct (BasicAuth.basicAuth username password user) eqn:E; [|reflexivity].
    apply Hiff in E. destruct E as (n & p & -> & -> & _).
    destruct Hnull as [H|H]; discriminate H.
Qed.

(** X17: a worker never serves the page that says no application was
    found.  Without a path [start()] chooses that page and then throws
    the TypeError of reading [_app] of [undefined], before the HTTP
    server is started; whenever [start()] does start the server, it is
    with the rendering middleware. *)
Theorem worker_never_serves_the_no_app_page :
  forall (new_EmberApp : SsrPaths.t -> completion Effects.error WorkerProcess.ember_app)
         (o : WorkerProcess.options),
    let started := WorkerProcess.start new_EmberApp (WorkerProcess.construct o) in
    (SsrPaths.hasPath (WorkerProcess.o_ssrPaths o) = false ->
     snd started = Some WorkerProcess.undefined_app
     /\ WorkerProcess.the_middleware (fst started) = Some WorkerProcess.NoAppMiddleware
     /\ WorkerProcess.serving (fst started) = None
     /\ WorkerProcess.ui (fst started) = [("starting HTTP server", None)])
    /\ (forall mount layers m,
           WorkerProcess.serving (fst started) = Some (mount, layers, m) ->
           SsrPaths.hasPath (WorkerProcess.o_ssrPaths o) = true
           /\ m = WorkerProcess.SsrMiddlewareFor (WorkerProcess.o_chunkedResponse o)
                                                 (WorkerProcess.o_log o)
           /\ snd started = None).
Proof.
  intros new_EmberApp o started. subst started.
  unfold WorkerProcess.start, WorkerProcess.construct.
  cbn [WorkerProcess.ssrPaths WorkerProcess.chunkedResponse WorkerProcess.log
       WorkerProcess.emberSsr].
  destruct (SsrPaths.hasPath (WorkerProcess.o_ssrPaths o)) eqn:Hp; cbn [negb].
  - split; [discriminate|].
    destruct (WorkerProcess.new_EmberSsr new_EmberApp (WorkerProcess.o_ssrPaths o))
      as [ssr|e]; [|cbn; discriminate].
    unfold WorkerProcess.writeLine.
    cbn [WorkerProcess.emberSsr WorkerProcess.ssrPaths WorkerProcess.chunkedResponse
         WorkerProcess.log WorkerProcess.httpServer WorkerProcess.the_middleware
         WorkerProcess.error_ WorkerProcess.ui WorkerProcess.serving].
    destruct (WorkerProcess.rootURL (WorkerProcess._app ssr)) as [url|e];
      [|cbn; discriminate].
    destruct (ExpressHTTPServer.serve _) as [[http' mount'] layers'].
    cbn [fst snd WorkerProcess.serving].
    intros mount layers m E. injection E as _ _ <-. auto.
  - split; [|cbn; discriminate].
    intros _. cbn. repeat split.
Qed.

(** X18: a [reload] message leaves a worker on the paths it has: the
    [distPath] the supervisor sends is not read, the client and server
    paths stay what they were, and the application is rebuilt from them,
    the earlier one having been destroyed. *)
Theorem reload_keeps_the_workers_paths :
  forall (new_EmberApp : SsrPaths.t -> completion Effects.error WorkerProcess.ember_app)
         (po : SsrPaths.options) (distPath : value) (w : WorkerProcess.t)
         (ssr : WorkerProcess.ember_ssr),
    WorkerProcess.ssrPaths w = SsrPaths.setPaths po ->
    SsrPaths.hasPath (SsrPaths.setPaths po) = true ->
    WorkerProcess.emberSsr w = Some ssr ->
    let paths :=
      SsrPaths.mkPaths Undefined (SsrPaths.clientPath (SsrPaths.setPaths po))
                       (SsrPaths.ssrPath (SsrPaths.setPaths po)) true in
    let handled := WorkerProcess.handleMessage new_EmberApp (Supervisor.Reload distPath) w in
    WorkerProcess.ssrPaths (fst (fst handled)) = paths
    /\ ExpressHTTPServer.ssrPaths (WorkerProcess.httpServer (fst (fst handled))) = paths
    /\ snd handled = None
    /\ match new_EmberApp paths with
       | Return app =>
           WorkerProcess.emberSsr (fst (fst handled))
           = Some (WorkerProcess.mkEmberSsr
                     paths app
                     (WorkerProcess.destroyed ssr ++ [WorkerProcess._app ssr]))
           /\ snd (fst handled) = None
       | Throw e =>
           WorkerProcess.emberSsr (fst (fst handled))
           = Some (WorkerProcess.mkEmberSsr
                     paths (WorkerProcess._app ssr)
                     (WorkerProcess.destroyed ssr ++ [WorkerProcess._app ssr]))
           /\ snd (fst handled) = Some e
       end.
Proof.
  intros new_EmberApp po distPath w ssr Hw Hp Hssr paths handled.
  destruct (SsrPathsMoreFacts.paths_both_or_neither_aux po) as [Hc Hs].
  rewrite Hp in Hc, Hs.
  assert (E : SsrPaths.setPaths
                (SsrPaths.mkOptions Undefined
                   (or Undefined (SsrPaths.clientPath (WorkerProcess.ssrPaths w)))
                   (or Undefined (SsrPaths.ssrPath (WorkerProcess.ssrPaths w))))
              = paths).
  { rewrite Hw. subst paths.
    generalize dependent (SsrPaths.ssrPath (SsrPaths.setPaths po)).
    generalize dependent (SsrPaths.clientPath (SsrPaths.setPaths po)).
    intros c Hc s Hs. unfold SsrPaths.setPaths, or.
    cbn [SsrPaths.o_distPath SsrPaths.o_clientPath SsrPaths.o_ssrPath truthy].
    rewrite ?Hc, ?Hs. cbn [truthy]. rewrite ?Hc, ?Hs. reflexivity. }
  subst handled. unfold WorkerProcess.handleMessage. rewrite E.
  unfold WorkerProcess.writeLine.
  destruct (WorkerProcess.strict_equal (SsrPaths.clientPath paths)
                                       (SsrPaths.ssrPath paths));
    cbn [WorkerProcess.emberSsr WorkerProcess.ssrPaths WorkerProcess.chunkedResponse
         WorkerProcess.log WorkerProcess.httpServer WorkerProcess.the_middleware
         WorkerProcess.error_ WorkerProcess.ui WorkerProcess.serving];
    rewrite Hssr; unfold WorkerProcess.EmberSsr_reload, WorkerProcess._buildEmberApp;
    change (SsrPaths.hasPath paths) with true; cbn [negb];
    destruct (new_EmberApp paths) as [app|e]; cbn; repeat split.
Qed.

Lemma reload_keeps_the_workers_paths_witness :
  WorkerProcess.ssrPaths
    (fst (fst (WorkerProcess.handleMessage
                 (fun p => Return (WorkerProcess.mkEmberApp p (Return (Str "/"))))
                 (Supervisor.Reload (Str "/srv/releases/2"))
                 (WorkerProcess.mkWorker
                    Samples.paths0 (Bool true) Null
                    (ExpressHTTPServer.construct
                       (ExpressHTTPServer.mkOptions Samples.paths0 Null Null false
                                                    (Bool true) Undefined))
                    (Some (WorkerProcess.mkEmberSsr
                             Samples.paths0
                             (WorkerProcess.mkEmberApp Samples.paths0 (Return (Str "/")))
                             []))
                    None None [] None))))
  = SsrPaths.mkPaths Undefined (Str "/srv/dist") (Str "/srv/dist") true.
Proof.
  exact (proj1 (reload_keeps_the_workers_paths
                  (fun p => Return (WorkerProcess.mkEmberApp p (Return (Str "/"))))
                  (SsrPaths.mkOptions (Str "/srv/dist") Undefined Undefined)
                  (Str "/srv/releases/2")
                  (WorkerProcess.mkWorker
                     Samples.paths0 (Bool true) Null
                     (ExpressHTTPServer.construct
                        (ExpressHTTPServer.mkOptions Samples.paths0 Null Null false
                                                     (Bool true) Undefined))
                     (Some (WorkerProcess.mkEmberSsr
                              Samples.paths0
                              (WorkerProcess.mkEmberApp Samples.paths0 (Return (Str "/")))
                              []))
                     None None [] None)
                  (WorkerProcess.mkEmberSsr
                     Samples.paths0
                     (WorkerProcess.mkEmberApp Samples.paths0 (Return (Str "/")))
                     [])
                  eq_refl eq_refl eq_refl)).
Defined.

End ServerFacts.


(** ** The rendering middleware and the cache in front of it
    (src/ember-ssr-express-middleware.js, src/express-http-server.js) *)

Module MiddlewareFacts.
Import Js Effects SsrMiddleware.
Local Open Scope list_scope.

Lemma answered_app (a b : list action) :
  answered (a ++ b) = answered a || answered b.
Proof. apply existsb_app. Qed.

Lemma passed_on_app (a b : list action) :
  passed_on (a ++ b) = passed_on a || passed_on b.
Proof. apply existsb_app. Qed.

Lemma headers_neither (hs : list (string * string)) :
  answered (map (fun pair => ResAppend (fst pair) (snd pair)) hs) = false
  /\ passed_on (map (fun pair => ResAppend (fst pair) (snd pair)) hs) = false
  /\ intercepted_puts (map (fun pair => ResAppend (fst pair) (snd pair)) hs ++ [])
     = [].
Proof.
  induction hs as [|h hs (IHa & IHp & IHi)]; [repeat split|].
  cbn [map]. repeat split; assumption.
Qed.

Lemma writes_neither (chunks : list string) :
  answered (map ResWrite chunks) = false /\ passed_on (map ResWrite chunks) = false.
Proof. induction chunks as [|c chunks [IHa IHp]]; [split; reflexivity | split; assumption]. Qed.

Lemma logged_neither (o : options) (a : action) :
  match a with LogCaught _ | LogStatus _ _ => True | _ => False end ->
  answered (logged o a) = false /\ passed_on (logged o a) = false.
Proof.
  intros Ha. unfold logged.
  destruct (log o) as [| |[|]|n|s]; destruct a; try contradiction; split; reflexivity.
Qed.


Section Middleware.

Variable name_of : error -> string.
Variable headers_of : VisitResult.t -> list (string * string).
Variable statusCode_of : VisitResult.t -> Z.
Variable chunks_of : VisitResult.t -> completion error body.
Variable html_of : VisitResult.t -> completion error body.
Variable app_html : value.
Variable ssr_html : value.

Lemma on_error_passes (e : error) :
  answered (on_error name_of e) = false /\ passed_on (on_error name_of e) = true.
Proof.
  unfold on_error. destruct (name_of e =? "UnrecognizedURLError")%string;
    split; reflexivity.
Qed.

(** What the middleware does with a result whose body could be read. *)
Lemma rendered_result (o : options) (path : string) (r : VisitResult.t) (b : body) :
  (if truthy (chunkedResponse o) then chunks_of r else html_of r) = Return b ->
  exists before last,
    middleware name_of headers_of statusCode_of chunks_of html_of
      app_html ssr_html o path (EmberSsr.Fulfilled (Some r)) = before ++ last
    /\ answered before = false
    /\ passed_on before
       = match VisitResult.error r with Some _ => true | None => false end
    /\ answered last = true
    /\ passed_on last = false
    /\ last = match b with
              | BodyString s => [ResType "text/html"; ResSend (Str s)]
              | BodyChunks chunks =>
                  match VisitResult.error r with
                  | Some _ =>
                      [ResType "text/html";
                       ResSend match chunks with
                               | first :: _ => Str first
                               | [] => Undefined
                               end]
                  | None => ResType "text/html" :: map ResWrite chunks ++ [ResEnd]
                  end
              end.
Proof.
  intros Hb. unfold middleware. rewrite Hb.
  exists (match VisitResult.error r with
          | Some e => logged o (LogCaught e) ++ [Next (Some e)]
          | None => []
          end
          ++ map (fun pair => ResAppend (fst pair) (snd pair)) (headers_of r)
          ++ logged o (LogStatus (statusCode_of r)
                         ((match VisitResult.error r with
                           | Some _ => "NOT OK "
                           | None => "OK "
                           end) ++ path)%string)
          ++ [ResStatus (statusCode_of r)]).
  exists (match b with
          | BodyString s => [ResType "text/html"; ResSend (Str s)]
          | BodyChunks chunks =>
              match VisitResult.error r with
              | Some _ =>
                  [ResType "text/html";
                   ResSend match chunks with
                           | first :: _ => Str first
                           | [] => Undefined
                           end]
              | None => ResType "text/html" :: map ResWrite chunks ++ [ResEnd]
              end
          end).
  split.
  - repeat rewrite <- app_assoc. reflexivity.
  - destruct (headers_neither (headers_of r)) as (Hha & Hhp & _).
    destruct (logged_neither o (LogStatus (statusCode_of r)
                                  ((match VisitResult.error r with
                                    | Some _ => "NOT OK "
                                    | None => "OK "
                                    end) ++ path)%string) I) as [Hla Hlp].
    rewrite !answered_app, !passed_on_app, Hha, Hhp, Hla, Hlp.
    repeat split.
    + destruct (VisitResult.error r) as [e|]; [|reflexivity].
      destruct (logged_neither o (LogCaught e) I) as [Hca _].
      rewrite answered_app, Hca. reflexivity.
    + destruct (VisitResult.error r) as [e|]; [|reflexivity].
      destruct (logged_neither o (LogCaught e) I) as [_ Hcp].
      rewrite passed_on_app, Hcp. reflexivity.
    + destruct b as [s|chunks]; [reflexivity|].
      destruct (VisitResult.error r); [reflexivity|].
      cbn [answered existsb]. fold (answered (map ResWrite chunks ++ [ResEnd])).
      rewrite answered_app. cbn. apply orb_true_r.
    + destruct b as [s|chunks]; [reflexivity|].
      destruct (VisitResult.error r); [reflexivity|].
      cbn [passed_on existsb]. fold (passed_on (map ResWrite chunks ++ [ResEnd])).
      rewrite passed_on_app. destruct (writes_neither chunks) as [_ ->]. reflexivity.
Qed.

(** X19: the middleware leaves a request without answer and without a
    call of [next] in two cases only: the visit never settles, or it
    resolves without a result and no document is known; and it does
    both, answer and call [next] with the error, exactly when a result
    that carries an error could be rendered (the resilient case). *)
Theorem middleware_answers_or_passes_on :
  forall (o : options) (path : string) (settled : EmberSsr.settlement),
    let actions := middleware name_of headers_of statusCode_of chunks_of html_of
                     app_html ssr_html o path settled in
    let rendered (r : VisitResult.t) :=
      if truthy (chunkedResponse o) then chunks_of r else html_of r in
    (answered actions = false /\ passed_on actions = false
     <-> settled = EmberSsr.Pending
         \/ (settled = EmberSsr.Fulfilled None
             /\ truthy (or (or app_html ssr_html) (visitOptions_html o)) = false))
    /\ (answered actions = true /\ passed_on actions = true
        <-> exists r e b,
              settled = EmberSsr.Fulfilled (Some r)
              /\ VisitResult.error r = Some e
              /\ rendered r = Return b).
Proof.
  intros o path settled actions rendered. subst actions rendered.
  destruct settled as [[r|]|e|].
  - destruct (if truthy (chunkedResponse o) then chunks_of r else html_of r)
      as [b|e] eqn:Hb.
    + destruct (rendered_result o path r b Hb)
        as (before & last & -> & Hba & Hbp & Hla & Hlp & _).
      rewrite answered_app, passed_on_app, Hba, Hbp, Hla, Hlp. cbn [orb].
      split.
      * split; [intros [H _]; discriminate H|].
        intros [H|[H _]]; discriminate H.
      * rewrite orb_false_r. split.
        -- intros [_ H]. destruct (VisitResult.error r) as [e|] eqn:He;
             [|discriminate H]. exists r, e, b. auto.
        -- intros (r' & e & b' & E & He & _). injection E as <-.
           rewrite He. auto.
    + unfold middleware. rewrite Hb.
      destruct (on_error_passes e) as [-> ->]. split.
      * split; [intros [_ H]; discriminate H|].
        intros [H|[H _]]; discriminate H.
      * split; [intros [H _]; discriminate H|].
        intros (r' & e' & b & E & _ & Hr). injection E as <-. congruence.
  - unfold middleware.
    destruct (truthy (or (or app_html ssr_html) (visitOptions_html o))); cbn.
    + split.
      * split; [intros [H _]; discriminate H|].
        intros [H|[_ H]]; discriminate H.
      * split; [intros [_ H]; discriminate H|].
        intros (r & e & b & E & _). discriminate E.
    + split.
      * split; [auto|]. auto.
      * split; [intros [H _]; discriminate H|].
        intros (r & e & b & E & _). discriminate E.
  - cbn [middleware].
    destruct (on_error_passes e) as [-> ->]. split.
    + split; [intros [_ H]; discriminate H|].
      intros [H|[H _]]; discriminate H.
    + split; [intros [H _]; discriminate H|].
      intros (r & e' & b & E & _). discriminate E.
  - cbn. split.
    + split; auto.
    + split; [intros [H _]; discriminate H|].
      intros (r & e & b & E & _). discriminate E.
Qed.


(** X21: timer events cannot end a request.  While the visit of a
    request has not settled, whatever number of times the forced-destroy
    timer fires, [EmberSsr.visit] stays pending and the middleware
    neither touches the response nor calls [next]. *)
Theorem timer_cannot_answer_a_request :
  forall (builderFn : unit -> Visit.entry) (p : Visit.pool) (s : Visit.state)
         (n : nat) (this : EmberSsr.t) (visitOptions : EmberSsr.options)
         (o : options) (path : string),
    Visit.settled s = false ->
    EmberSsr.visit this visitOptions
      (snd (Visit.run builderFn p s (repeat Visit.TimerFires n)))
    = EmberSsr.Pending
    /\ middleware name_of headers_of statusCode_of chunks_of html_of app_html ssr_html o path
         (EmberSsr.visit this visitOptions
            (snd (Visit.run builderFn p s (repeat Visit.TimerFires n))))
       = [].
Proof.
  intros builderFn p s n this visitOptions o path Hs.
  destruct (VisitFacts.timers_leave_phase builderFn n p s) as [_ Hat].
  assert (E : EmberSsr.visit this visitOptions
                (snd (Visit.run builderFn p s (repeat Visit.TimerFires n)))
              = EmberSsr.Pending).
  { unfold EmberSsr.visit. rewrite Hat.
    unfold Visit.settled in Hs. destruct (Visit.at_ s); try reflexivity;
      discriminate Hs. }
  rewrite E. split; reflexivity.
Qed.

End Middleware.


Lemma timer_cannot_answer_a_request_witness :
  let started :=
    Visit.start Samples.good_builder Samples.req50
                (Queue.buildSandboxQueue Samples.good_builder 1) in
  EmberSsr.visit (EmberSsr.construct (EmberSsr.mkOptions None)) (EmberSsr.mkOptions None)
    (snd (Visit.run Samples.good_builder (fst started) (snd started)
            (repeat Visit.TimerFires 3)))
  = EmberSsr.Pending
  /\ middleware (fun _ => "Error") (fun _ => []) (fun _ => 200%Z)
       (fun _ => Return (BodyChunks [])) (fun _ => Return (BodyString ""))
       Undefined Undefined (mkOptions (Bool true) Null Undefined) "/"
       (EmberSsr.visit (EmberSsr.construct (EmberSsr.mkOptions None))
          (EmberSsr.mkOptions None)
          (snd (Visit.run Samples.good_builder (fst started) (snd started)
                  (repeat Visit.TimerFires 3))))
     = [].
Proof.
  exact (timer_cannot_answer_a_request
           (fun _ => "Error") (fun _ => []) (fun _ => 200%Z)
           (fun _ => Return (BodyChunks [])) (fun _ => Return (BodyString ""))
           Undefined Undefined
           Samples.good_builder
           (fst (Visit.start Samples.good_builder Samples.req50
                   (Queue.buildSandboxQueue Samples.good_builder 1)))
           (snd (Visit.start Samples.good_builder Samples.req50
                   (Queue.buildSandboxQueue Samples.good_builder 1)))
           3 (EmberSsr.construct (EmberSsr.mkOptions None)) (EmberSsr.mkOptions None)
           (mkOptions (Bool true) Null Undefined) "/" eq_refl).
Defined.

End MiddlewareFacts.


(** ** The shoebox of a whole visit (src/ember-app.js) *)

Module ShoeboxLoopFacts.
Import Utf16 Json Shoebox ShoeboxFacts.
Local Open Scope list_scope.





End ShoeboxLoopFacts.


(** ** The options the primary process accepts (index.js) *)

Module PrimaryFacts.
Import Js PrimaryProcess.

(** X23: the constructor in the primary process accepts exactly one of
    the two, a path (any of distPath, clientPath and ssrPath) or a
    downloader: with neither the first assertion fails, with both the
    second. *)
Theorem primary_needs_path_or_downloader :
  forall (o : SsrPaths.options) (downloader : bool),
    check_options (SsrPaths.setPaths o) downloader
    = match SsrPaths.hasPath (SsrPaths.setPaths o), downloader with
      | false, false => Throw (AssertionError either_message)
      | true, true => Throw (AssertionError not_both_message)
      | _, _ => Return tt
      end.
Proof.
  intros o downloader. unfold check_options.
  destruct (SsrPathsMoreFacts.paths_both_or_neither_aux o) as [-> ->].
  destruct (SsrPaths.hasPath (SsrPaths.setPaths o)), downloader; reflexivity.
Qed.

End PrimaryFacts.


(** ** From the plugin's package file to [loadConfig]
    (src/ssr-server-config.js, src/ssr-schema.js) *)

Module PackageFileFacts.
Import Js Effects RegExpCodec SsrServerConfig.
Local Open Scope list_scope.

(** What the [ssrServer] of the written configuration is. *)
Lemma written_ssrServer (cfg : app_config) :
  match written_config (Some cfg) with
  | Some written => ssrServer written
  | None => None
  end
  = normalizeSsrServerConfig
      (normalizeSsrServerConfig (or_object (ssrServer cfg) (fastboot cfg)) false) true.
Proof.
  unfold written_config. unfold normalizeSsrConfig at 2.
  destruct (normalizeSsrServerConfig (or_object (ssrServer cfg) (fastboot cfg)) false)
    as [sc|] eqn:E;
    destruct (truthy (or (modulePrefix cfg) (name cfg))) eqn:Hn;
    cbn [normalizeSsrConfig ssrServer fastboot or_object modulePrefix name].
  - destruct (normalizeSsrServerConfig (Some sc) true);
      destruct (truthy (or Undefined (or (modulePrefix cfg) (name cfg))));
      reflexivity.
  - destruct (normalizeSsrServerConfig (Some sc) true); reflexivity.
  - cbn [normalizeSsrServerConfig].
    destruct (truthy (or Undefined (or (modulePrefix cfg) (name cfg)))); reflexivity.
  - reflexivity.
Qed.

(** Normalizing twice keeps a section exactly when one of the two
    whitelists is there. *)
Lemma normalized_twice (sc : option server_config) :
  normalizeSsrServerConfig (normalizeSsrServerConfig sc false) true = None
  <-> match sc with
      | Some c => hostWhitelist c = None /\ moduleWhitelist c = None
      | None => True
      end.
Proof.
  destruct sc as [[h m]|]; [|split; reflexivity].
  unfold normalizeSsrServerConfig. cbn [hostWhitelist moduleWhitelist].
  destruct h as [h|], m as [m|]; cbn; split; try discriminate; try tauto;
    intros [H1 H2]; discriminate.
Qed.

Section LoadConfig.

Variable C : Type.
Variable H : Type.
Variable path_join : string -> string -> string.
Variable path_isAbsolute : string -> bool.
Variable readFileSync : string -> completion error (list Utf16.code_unit).
Variable JSON_parse : list Utf16.code_unit -> option PackageFile.package.
Variable glob_sync : string -> list string.
Variable html_entrypoint : value -> value -> value -> completion error (C * H).

(** X24: reading back what the build plugin wrote into a directory whose
    package file had no [ssrServer] of its own.  When the application
    configures neither a host whitelist nor a module whitelist, the
    plugin writes no [ssrServer] key, and [loadConfig] throws the
    TypeError of reading [htmlEntrypoint] of [undefined]; otherwise
    [loadConfig] calls [htmlEntrypoint] for [index.html], globs the
    pattern [app.{mjs,js}] below the server path, and hands on the
    whitelists as they were written. *)
Theorem loadConfig_after_updateConfig :
  forall (cfg : app_config) (existing : option PackageFile.package)
         (ssrPaths : SsrPaths.t) (ssrPath : string) (file : list Utf16.code_unit),
    match existing with
    | Some pkg => PackageFile.ssrServer pkg = None
    | None => True
    end ->
    SsrPaths.ssrPath ssrPaths = Str ssrPath ->
    readFileSync (path_join ssrPath "package.json") = Return file ->
    JSON_parse file = Some (PackageFile.updateConfig existing cfg) ->
    let written :=
      normalizeSsrServerConfig
        (normalizeSsrServerConfig (or_object (ssrServer cfg) (fastboot cfg)) false)
        true in
    (written = None
     <-> match or_object (ssrServer cfg) (fastboot cfg) with
         | Some c => hostWhitelist c = None /\ moduleWhitelist c = None
         | None => True
         end)
    /\ PackageFile.loadConfig C H path_join path_isAbsolute readFileSync JSON_parse
                              glob_sync html_entrypoint ssrPaths
       = match written with
         | None => Throw PackageFile.undefined_htmlEntrypoint
         | Some sc =>
             match html_entrypoint
                     (PackageFile.name (PackageFile.updateConfig existing cfg))
                     (SsrPaths.clientPath ssrPaths) (Str "index.html")
             with
             | Throw e => Throw e
             | Return (config, html) =>
                 Return (PackageFile.mkConfiguration
                           (glob_sync (if path_isAbsolute "app.{mjs,js}"
                                       then "app.{mjs,js}"
                                       else path_join ssrPath "app.{mjs,js}"))
                           html (hostWhitelist sc) config
                           (PackageFile.name (PackageFile.updateConfig existing cfg))
                           (match moduleWhitelist sc with
                            | Some l => l
                            | None => []
                            end,
                            ssrPath))
             end
         end.
Proof.
  intros cfg existing ssrPaths ssrPath file Hex Hpath Hread Hparse written.
  split; [apply normalized_twice|].
  assert (Hsec : PackageFile.ssrServer (PackageFile.updateConfig existing cfg)
                 = option_map PackageFile.section_of written).
  { pose proof (written_ssrServer cfg) as Hw. fold written in Hw.
    unfold PackageFile.updateConfig, PackageFile.writeSsrServerConfigForServer.
    unfold written_config in Hw.
    destruct (normalizeSsrConfig (normalizeSsrConfig (Some cfg) false) true)
      as [config|].
    - cbn [PackageFile.ssrServer]. rewrite Hw.
      destruct written as [sc|]; [reflexivity|].
      destruct existing as [pkg|]; [exact Hex | reflexivity].
    - rewrite <- Hw. destruct existing as [pkg|]; [exact Hex | reflexivity]. }
  unfold PackageFile.loadConfig.
  rewrite Hpath, Hread, Hparse, Hsec.
  destruct written as [sc|]; cbn [option_map]; [|reflexivity].
  cbn [PackageFile.section_of PackageFile.htmlEntrypoint PackageFile.scripts
       PackageFile.moduleWhitelist PackageFile.hostWhitelist
       PackageFile.script_patterns flat_map].
  change (or Undefined (Str "index.html")) with (Str "index.html").
  destruct (html_entrypoint _ _ _) as [[config html]|e]; [|reflexivity].
  rewrite app_nil_r. reflexivity.
Qed.

End LoadConfig.

Lemma loadConfig_after_updateConfig_witness :
  PackageFile.loadConfig unit unit
    (fun a b => a ++ "/" ++ b)%string (fun _ => false)
    (fun _ => Return []) 
    (fun _ => Some (PackageFile.updateConfig
                      None (mkAppConfig (Str "my-app") Undefined None None)))
    (fun pattern => [pattern]) (fun _ _ _ => Return (tt, tt))
    Samples.paths0
  = Throw PackageFile.undefined_htmlEntrypoint.
Proof.
  exact (proj2 (loadConfig_after_updateConfig
                  unit unit (fun a b => a ++ "/" ++ b)%string (fun _ => false)
                  (fun _ => Return [])
                  (fun _ => Some (PackageFile.updateConfig
                                    None
                                    (mkAppConfig (Str "my-app") Undefined None None)))
                  (fun pattern => [pattern]) (fun _ _ _ => Return (tt, tt))
                  (mkAppConfig (Str "my-app") Undefined None None) None
                  Samples.paths0 "/srv/dist" [] I eq_refl eq_refl eq_refl)).
Defined.

End PackageFileFacts.


(** ** The configuration read from the page (src/html-entrypoint.js) *)

Module HtmlEntrypointFacts.
Import Js Effects HtmlEntrypoint HtmlEntrypointNotions.
Local Open Scope list_scope.





Lemma get_set_same {A} (key : string) (v : A) (o : object A) :
  get key (set key v o) = Some v.
Proof.
  induction o as [|[k' v'] o IH]; cbn [set get].
  - now rewrite String.eqb_refl.
  - destruct (String.eqb_spec k' key) as [->|Hne]; cbn [get].
    + now rewrite String.eqb_refl.
    + destruct (String.eqb_spec k' key); [contradiction | exact IH].
Qed.










End HtmlEntrypointFacts.


(** ** After a visit has returned (src/ember-app.js) *)

Module VisitRestFacts.
Import Js Effects Visit VisitNotions.
Local Open Scope list_scope.

Lemma clearTimeout_rests (t : timer) : armed (clearTimeout t) = false.
Proof. destruct t; reflexivity. Qed.

Lemma start_at_rest (builderFn : unit -> entry) (o : request) (p : pool) :
  at_rest (snd (start builderFn o p)).
Proof.
  unfold start. destruct (Queue.dequeue builderFn p) as [[pre item] p'].
  destruct item as [[c|]|e|]; cbn [snd]; intros H; try reflexivity; discriminate H.
Qed.

Lemma step_at_rest (builderFn : unit -> entry) (p : pool) (s : state) (ev : event) :
  at_rest s -> at_rest (snd (step builderFn p s ev)).
Proof.
  intros Hs. destruct ev as [|e|]; unfold step.
  - destruct (at_ s) eqn:Hat; cbn [snd]; try exact Hs;
      try (intros H; discriminate H).
    destruct (disableShoebox (opts s)); [|destruct (createShoebox_throws (opts s))];
      intros _; apply clearTimeout_rests.
  - destruct (at_ s) eqn:Hat; cbn [snd]; try exact Hs;
      intros _; apply clearTimeout_rests.
  - destruct (destroyAppInstanceTimer s) eqn:Ht; cbn [snd]; try exact Hs.
    intros _. reflexivity.
Qed.

Lemma run_at_rest (builderFn : unit -> entry) (evs : list event) :
  forall (p : pool) (s : state),
    at_rest s -> at_rest (snd (run builderFn p s evs)).
Proof.
  induction evs as [|ev evs IH]; intros p s Hs; cbn [run]; [exact Hs|].
  pose proof (step_at_rest builderFn p s ev Hs) as H1.
  destruct (step builderFn p s ev) as [p' s']. cbn [snd] in H1. now apply IH.
Qed.

Lemma settled_step (builderFn : unit -> entry) (p : pool) (s : state) (ev : event) :
  settled s = true -> armed (destroyAppInstanceTimer s) = false ->
  step builderFn p s ev = (p, s).
Proof.
  intros Hs Ht. unfold settled in Hs. destruct ev as [|e|]; unfold step.
  - destruct (at_ s); try reflexivity; discriminate Hs.
  - destruct (at_ s); try reflexivity; discriminate Hs.
  - destruct (destroyAppInstanceTimer s); try reflexivity; discriminate Ht.
Qed.

(** X26: once the promise of [visit] has settled, nothing that happens
    later changes the visit or the pool: the timer does not fire after
    the visit has returned, and no event makes it return or enqueue a
    sandbox a second time.  This holds after every sequence of events,
    for every request and pool. *)
Theorem settled_visit_is_inert :
  forall (builderFn : unit -> entry) (o : request) (p : pool)
         (before after : list event),
    let started := start builderFn o p in
    let ran := run builderFn (fst started) (snd started) before in
    settled (snd ran) = true ->
    armed (destroyAppInstanceTimer (snd ran)) = false
    /\ run builderFn (fst ran) (snd ran) after = ran.
Proof.
  intros builderFn o p before after started ran Hs.
  assert (Hrest : at_rest (snd ran)).
  { subst ran. apply run_at_rest. subst started. apply start_at_rest. }
  specialize (Hrest Hs). split; [exact Hrest|].
  destruct ran as [p2 s2]. cbn [fst snd] in *.
  induction after as [|ev after IH]; cbn [run]; [reflexivity|].
  rewrite (settled_step builderFn p2 s2 ev Hs Hrest). exact IH.
Qed.

Lemma settled_visit_is_inert_witness :
  let started :=
    start Samples.good_builder Samples.req50
          (Queue.buildSandboxQueue Samples.good_builder 1) in
  let ran :=
    run Samples.good_builder (fst started) (snd started)
        (Samples.up_to_deferred ++ [Fulfils]) in
  armed (destroyAppInstanceTimer (snd ran)) = false
  /\ run Samples.good_builder (fst ran) (snd ran) [TimerFires; Fulfils; Rejects (Error_ "late")]
     = ran.
Proof.
  exact (settled_visit_is_inert
           Samples.good_builder Samples.req50
           (Queue.buildSandboxQueue Samples.good_builder 1)
           (Samples.up_to_deferred ++ [Fulfils])
           [TimerFires; Fulfils; Rejects (Error_ "late")] eq_refl).
Defined.

End VisitRestFacts.
